(** * LogShort: gate pipeline, indicators, scheduler tick and bridge snapshot

    A shallow embedding of the decision core of the LogShort scanner:

    - [core/gates.py]        the four gates, the V-recovery check, the trade
                             levels and [check_all_gates];
    - [core/math_utils.py]   [clamp], [range_position], [dist_to_high_pct];
    - [workers/scanner_worker.py]  the price refresh of [PriceUpdateWorker.run];
    - [core/engine_v2.py]    the metrics, the score and the scan timers;
    - [main.py]              [MainWindow._tick_all_levels] and the start
                             functions it calls;
    - [core/bridge.py]       [BridgeWriter.write] and [BridgeReader.read].

    Modelling conventions.  Python [float] values are exact rationals ([Q]):
    rounding, infinities and NaN are outside the model.  The one exception
    is [calculate_z_score], where rounding decides the path taken and a
    square can leave the range of a float: its arithmetic is a parameter
    ([EngineV2.FloatOps]).  Python [int] values are [Z].  A Python
    exception is a value of [Py.result]; list slicing and indexing follow
    Python for negative and out-of-range positions.  Text produced by
    f-strings is kept as a constructor that carries the numbers the
    f-string formats. *)

From Stdlib Require Import ZArith QArith Qabs Bool List Ascii String Lia Lqa.
From Stdlib Require Import Sorted Permutation.
From stdpp Require Import base gmap strings.
Import ListNotations.

(* ================================================================== *)
(** * Python primitives *)
(* ================================================================== *)

Module Py.

Inductive exn : Type :=
  ValueError | IndexError | ZeroDivisionError | OverflowError.

Inductive result (A : Type) : Type :=
| Ok (a : A)
| Raise (e : exn).
Arguments Ok {A} a.
Arguments Raise {A} e.

#[global] Instance result_ret : MRet result := fun A a => Ok a.
#[global] Instance result_bind : MBind result := fun A B k m =>
  match m with
  | Ok a => k a
  | Raise e => Raise e
  end.

#[global] Instance result_fmap : FMap result := fun A B f m =>
  match m with
  | Ok a => Ok (f a)
  | Raise e => Raise e
  end.

(** ** Comparisons of floats *)

Definition ltb (x y : Q) : bool :=
  match (x ?= y)%Q with Lt => true | _ => false end.
Definition leb (x y : Q) : bool :=
  match (x ?= y)%Q with Gt => false | _ => true end.
Definition gtb (x y : Q) : bool := ltb y x.
Definition geb (x y : Q) : bool := leb y x.
Definition eqb (x y : Q) : bool := Qeq_bool x y.

(** Truth value of a number: [bool(x)] is [x != 0]. *)
Definition truthy (x : Q) : bool := negb (eqb x 0).

(** [a or b] on numbers. *)
Definition or_else (a b : Q) : Q := if truthy a then a else b.

(** [int(x)] of a float truncates towards zero. *)
Definition int (x : Q) : Z := Z.quot (Qnum x) (Z.pos (Qden x)).

(** [a / b] on floats raises [ZeroDivisionError] when [b == 0].  Where the
    source has just tested the divisor to be positive, or the divisor is a
    non-zero literal, the embedding writes [Q]'s division directly. *)
Definition div (a b : Q) : result Q :=
  if eqb b 0 then Raise ZeroDivisionError else Ok (a / b)%Q.

(** [try: body  except (caught): handler] *)
Definition try_except {A} (body : result A) (caught : exn -> bool)
    (handler : result A) : result A :=
  match body with
  | Ok a => Ok a
  | Raise e => if caught e then handler else Raise e
  end.

(** ** [max] and [min] *)

(** [max(a, b)] keeps [a] unless [b > a]; [min(a, b)] keeps [a] unless
    [b < a]. *)
Definition max2 (a b : Q) : Q := if gtb b a then b else a.
Definition min2 (a b : Q) : Q := if ltb b a then b else a.

(** [max(iterable)] and [min(iterable)] raise [ValueError] when empty. *)
Definition max_list (l : list Q) : result Q :=
  match l with
  | [] => Raise ValueError
  | x :: xs => Ok (fold_left max2 xs x)
  end.
Definition min_list (l : list Q) : result Q :=
  match l with
  | [] => Raise ValueError
  | x :: xs => Ok (fold_left min2 xs x)
  end.

Definition sum (l : list Q) : Q := fold_left Qplus l 0%Q.

(** ** Lists: [len], slices and indexing *)

Definition len {A} (l : list A) : Z := Z.of_nat (length l).

(** A slice bound [i] on a list of length [n]: negative bounds count from
    the end, and every bound is clipped to [0..n]. *)
Definition slice_bound (n i : Z) : Z :=
  if (i <? 0)%Z then Z.max (i + n) 0 else Z.min i n.

(** [l[lo:hi]]; [None] is an omitted bound. *)
Definition slice {A} (l : list A) (lo hi : option Z) : list A :=
  let n := len l in
  let a := match lo with None => 0%Z | Some i => slice_bound n i end in
  let b := match hi with None => n | Some j => slice_bound n j end in
  firstn (Z.to_nat (b - a)) (skipn (Z.to_nat a) l).

(** [l[i]]; raises [IndexError] out of range. *)
Definition index {A} (l : list A) (i : Z) : result A :=
  let n := len l in
  let j := if (i <? 0)%Z then (i + n)%Z else i in
  if ((j <? 0) || (n <=? j))%Z then Raise IndexError
  else match nth_error l (Z.to_nat j) with
       | Some x => Ok x
       | None => Raise IndexError
       end.

(** ** [sorted]

    Python's sort is stable and compares with [<] only; a stable sort of a
    list is unique, so insertion from the right gives the same list. *)
Section Sort.
Context {A : Type} (lt : A -> A -> bool).

Fixpoint insert (x : A) (l : list A) : list A :=
  match l with
  | [] => [x]
  | y :: t => if lt y x then y :: insert x t else x :: y :: t
  end.

Definition sort (l : list A) : list A := fold_right insert [] l.

(** [x] may stand before [y]: [y < x] is false. *)
Definition not_after (x y : A) : Prop := lt y x = false.

(** Neither is less than the other. *)
Definition tied (x y : A) : bool := negb (lt x y) && negb (lt y x).

(** What the sort needs of [<]. *)
Definition asymmetric : Prop :=
  forall x y, lt x y = true -> lt y x = false.
Definition negatively_transitive : Prop :=
  forall x y z, lt x y = false -> lt y z = false -> lt x z = false.
End Sort.

Definition sorted (l : list Q) : list Q := sort ltb l.

(** [all(l[i] >= l[i+1] for i in range(len(l)-1))] *)
Fixpoint non_increasing (l : list Q) : bool :=
  match l with
  | x :: (y :: _) as t => geb x y && non_increasing t
  | _ => true
  end.

(** [not l] for a list. *)
Definition is_empty {A} (l : list A) : bool :=
  match l with [] => true | _ => false end.

(** [f(x) for x in l], consumed from the left: the first exception ends
    it. *)
Fixpoint for_each {A B} (f : A -> result B) (l : list A)
    : result (list B) :=
  match l with
  | [] => Ok []
  | x :: rest =>
      y ← f x;
      ys ← for_each f rest;
      Ok (y :: ys)
  end.

(** [k.get(key, 0) or k.get(short, 0) or 0] on a candle that holds [key]
    and has no [short] key: the value, or 0 when the value is 0. *)
Definition get_or_zero (x : Q) : Q := or_else x (or_else 0 0).

(** [sorted(l, reverse=True)]: descending, equal elements in their
    original order. *)
Definition sorted_reverse (l : list Q) : list Q := sort gtb l.

End Py.


(* ================================================================== *)
(** * core/params_ml.py *)
(* ================================================================== *)

(** [GateParams]: every tunable threshold of the gate system. *)
Record GateParams : Type := mkGateParams {
  (* Gate 0 *)
  btc_trend_max : Q;
  divergence_min : Q;
  gate0_enabled : bool;
  (* Gate 1 *)
  shadow_body_ratio : Q;
  exhaustion_candles : Z;
  high_tolerance_pct : Q;
  min_exhaustion_signals : Z;
  gate1_enabled : bool;
  (* Gate 2 *)
  range_candles_base : Z;
  range_candles_hot : Z;
  range_candles_mid : Z;
  pump_threshold_hot : Q;
  pump_threshold_mid : Q;
  retest_candles : Z;
  breakdown_confirm_pct : Q;
  gate2_enabled : bool;
  (* Gate 3 *)
  volume_mult : Q;
  volume_lookback : Z;
  momentum_threshold : Q;
  min_confidence_signals : Z;
  gate3_enabled : bool;
  (* candidate thresholds *)
  min_change_24h : Q;
  min_range_position : Q;
  max_dist_to_high : Q;
  min_funding : Q;
  min_turnover_m : Q;
  (* risk management *)
  sl_above_range_pct : Q;
  sl_above_local_high_pct : Q;
  tp1_ratio : Q;
  tp2_ratio : Q;
  tp3_use_low24h : bool;
  min_rr : Q;
  (* anti-patterns *)
  v_recovery_candles : Z;
  signal_ttl_minutes : Z;
  (* metadata *)
  params_symbol : string;
  version : Z;
  trained_at : Q;
  win_rate : Q;
  sample_size : Z
}.

(** The dataclass defaults, [GateParams()]. *)
Definition default_params : GateParams := {|
  btc_trend_max := 0.5;
  divergence_min := 5.0;
  gate0_enabled := true;
  shadow_body_ratio := 1.5;
  exhaustion_candles := 3;
  high_tolerance_pct := 0.3;
  min_exhaustion_signals := 2;
  gate1_enabled := true;
  range_candles_base := 8;
  range_candles_hot := 14;
  range_candles_mid := 10;
  pump_threshold_hot := 30.0;
  pump_threshold_mid := 15.0;
  retest_candles := 2;
  breakdown_confirm_pct := 0.1;
  gate2_enabled := true;
  volume_mult := 1.3;
  volume_lookback := 12;
  momentum_threshold := 0.0;
  min_confidence_signals := 2;
  gate3_enabled := true;
  min_change_24h := 8.0;
  min_range_position := 85.0;
  max_dist_to_high := 2.0;
  min_funding := 0.0;
  min_turnover_m := 10.0;
  sl_above_range_pct := 0.5;
  sl_above_local_high_pct := 0.3;
  tp1_ratio := 0.5;
  tp2_ratio := 1.0;
  tp3_use_low24h := true;
  min_rr := 1.5;
  v_recovery_candles := 2;
  signal_ttl_minutes := 15;
  params_symbol := "DEFAULT";
  version := 1;
  trained_at := 0.0;
  win_rate := 0.0;
  sample_size := 0
|}.

(** A candle as [BybitClient.get_klines] builds it: every key is present. *)
Record Candle : Type := mkCandle {
  timestamp : Z;
  open : Q;
  high : Q;
  low : Q;
  close : Q;
  volume : Q;
  turnover : Q
}.

(* ================================================================== *)
(** * core/gates.py *)
(* ================================================================== *)

Module Gates.

Local Open Scope Q_scope.

(** ** Result types *)

(** One entry of [GateResult.signals].  The source appends f-strings; a
    constructor stands for the literal text and carries the formatted
    numbers. *)
Inductive Signal : Type :=
| SigDisabled                        (* "disabled" *)
| SigNotEnoughCandles                (* "not_enough_candles" *)
| SigBtcTrend (btc_trend_1h : Q)     (* f"BTC_trend={..:.2f}%<=max" *)
| SigDivergence (divergence : Q)     (* f"divergence={..:.1f}%" *)
| SigExhaustionShadows (count : Z)   (* f"exhaustion_shadows={..}" *)
| SigHighFlat (high_range_pct : Q)   (* f"high_flat={..:.2f}%" *)
| SigCloseDeclining                  (* "close_declining" *)
| SigBreakdownClose (prev_close range_low : Q)
                                     (* f"breakdown_close={..:.4f}<{..:.4f}" *)
| SigRetestFailed                    (* "retest_failed" *)
| SigMomentum (momentum_10m : Q)     (* f"momentum={..:.2f}%<=0" *)
| SigVolume (last_vol median_vol mult : Q)
                                     (* f"volume={..:.0f}>={..:.0f}*{..}" *)
| SigFunding (funding_rate : Q)      (* f"funding={..:.4f}>0" *)
| SigDistIncreasing (prev_dist dist : Q).
                                     (* f"dist_increasing={..:.2f}->{..:.2f}" *)

(** A value of the [debug] dictionary. *)
Inductive DebugVal : Type :=
| DFloat (x : Q)
| DInt (n : Z)
| DBool (b : bool).

(** [GateResult]; [debug] keeps the insertion order of the dictionary. *)
Record GateResult : Type := mkGateResult {
  passed : bool;
  score : Q;
  signals : list Signal;
  debug : list (string * DebugVal)
}.

(** [GateResult(passed=False)]: the dataclass defaults. *)
Definition default_failed : GateResult :=
  {| passed := false; score := 0.0; signals := []; debug := [] |}.

(** [GateResult(passed=True, score=100, signals=["disabled"])] *)
Definition disabled_result : GateResult :=
  {| passed := true; score := 100; signals := [SigDisabled]; debug := [] |}.

(** [GateResult(passed=False, score=0, signals=["not_enough_candles"])] *)
Definition not_enough_candles : GateResult :=
  {| passed := false; score := 0; signals := [SigNotEnoughCandles];
     debug := [] |}.

(** The status strings of the source. *)
Definition ST_ENTRY : string := "ВХОД".
Definition ST_READINESS : string := "Готовность".
Definition ST_INTEREST : string := "Интерес".
Definition ST_OBSERVATION : string := "Наблюдение".
Definition ST_NONE : string := "".

(** [GatesResult.signal_text], one constructor per text of the source. *)
Inductive SignalText : Type :=
| TxtEmpty                         (* "" *)
| TxtContextUnfit                  (* "Контекст не подходит (BTC растёт)" *)
| TxtGrowthWaitExhaustion (change_24h : Q)
                                   (* f"Рост +{..:.0f}%, ждём истощение" *)
| TxtExhaustionWaitBreakdown       (* "Истощение есть, ждём breakdown" *)
| TxtSetupNoBreakdown              (* "Setup готов, нет breakdown" *)
| TxtVRecovery                     (* "V-recovery, отмена сигнала" *)
| TxtBreakdownWaitConfirm          (* "Breakdown есть, ждём подтверждение" *)
| TxtRRBelow (rr min_rr : Q)       (* f"R/R={..:.2f} < {..}, ждём лучший вход" *)
| TxtBreakdownConfirmed (rr : Q).  (* f"Breakdown подтверждён, R/R={..:.2f}" *)

Record GatesResult : Type := mkGatesResult {
  gate0 : GateResult;
  gate1 : GateResult;
  gate2 : GateResult;
  gate3 : GateResult;
  all_passed : bool;
  status : string;
  signal_text : SignalText;
  entry_price : Q;
  sl_price : Q;
  tp1_price : Q;
  tp2_price : Q;
  tp3_price : Q;
  rr_ratio : Q;
  res_timestamp : Z;
  symbol : string;
  params_version : Z
}.

(** Attribute assignments on the result object. *)
Definition set_gate0 (g : GateResult) (r : GatesResult) : GatesResult :=
  mkGatesResult g (gate1 r) (gate2 r) (gate3 r) (all_passed r) (status r)
    (signal_text r) (entry_price r) (sl_price r) (tp1_price r) (tp2_price r)
    (tp3_price r) (rr_ratio r) (res_timestamp r) (symbol r) (params_version r).
Definition set_gate1 (g : GateResult) (r : GatesResult) : GatesResult :=
  mkGatesResult (gate0 r) g (gate2 r) (gate3 r) (all_passed r) (status r)
    (signal_text r) (entry_price r) (sl_price r) (tp1_price r) (tp2_price r)
    (tp3_price r) (rr_ratio r) (res_timestamp r) (symbol r) (params_version r).
Definition set_gate2 (g : GateResult) (r : GatesResult) : GatesResult :=
  mkGatesResult (gate0 r) (gate1 r) g (gate3 r) (all_passed r) (status r)
    (signal_text r) (entry_price r) (sl_price r) (tp1_price r) (tp2_price r)
    (tp3_price r) (rr_ratio r) (res_timestamp r) (symbol r) (params_version r).
Definition set_gate3 (g : GateResult) (r : GatesResult) : GatesResult :=
  mkGatesResult (gate0 r) (gate1 r) (gate2 r) g (all_passed r) (status r)
    (signal_text r) (entry_price r) (sl_price r) (tp1_price r) (tp2_price r)
    (tp3_price r) (rr_ratio r) (res_timestamp r) (symbol r) (params_version r).
Definition set_all_passed (b : bool) (r : GatesResult) : GatesResult :=
  mkGatesResult (gate0 r) (gate1 r) (gate2 r) (gate3 r) b (status r)
    (signal_text r) (entry_price r) (sl_price r) (tp1_price r) (tp2_price r)
    (tp3_price r) (rr_ratio r) (res_timestamp r) (symbol r) (params_version r).
(** [result.status = s; result.signal_text = t] *)
Definition set_status (s : string) (t : SignalText) (r : GatesResult)
  : GatesResult :=
  mkGatesResult (gate0 r) (gate1 r) (gate2 r) (gate3 r) (all_passed r) s t
    (entry_price r) (sl_price r) (tp1_price r) (tp2_price r) (tp3_price r)
    (rr_ratio r) (res_timestamp r) (symbol r) (params_version r).
(** The six trade-plan assignments made on entry. *)
Definition set_levels (entry sl tp1 tp2 tp3 rr : Q) (r : GatesResult)
  : GatesResult :=
  mkGatesResult (gate0 r) (gate1 r) (gate2 r) (gate3 r) (all_passed r)
    (status r) (signal_text r) entry sl tp1 tp2 tp3 rr
    (res_timestamp r) (symbol r) (params_version r).
Definition set_timestamp (t : Z) (r : GatesResult) : GatesResult :=
  mkGatesResult (gate0 r) (gate1 r) (gate2 r) (gate3 r) (all_passed r)
    (status r) (signal_text r) (entry_price r) (sl_price r) (tp1_price r)
    (tp2_price r) (tp3_price r) (rr_ratio r) t (symbol r) (params_version r).

(** ** Gate 0: market context *)

Definition check_gate0 (btc_trend_1h alt_change_24h btc_change_24h : Q)
    (params : GateParams) : GateResult :=
  if negb (gate0_enabled params) then disabled_result
  else
    let signals : list Signal := [] in
    let score : Q := 0.0 in
    let btc_ok := Py.leb btc_trend_1h (btc_trend_max params) in
    let signals := if btc_ok then signals ++ [SigBtcTrend btc_trend_1h]
                   else signals in
    let score := if btc_ok then score + 50 else score in
    let divergence := alt_change_24h - btc_change_24h in
    let div_ok := Py.geb divergence (divergence_min params) in
    let signals := if div_ok then signals ++ [SigDivergence divergence]
                   else signals in
    let score := if div_ok then score + 50 else score in
    let passed := btc_ok || div_ok in
    {| passed := passed;
       score := score;
       signals := signals;
       debug := [("btc_trend_1h", DFloat btc_trend_1h);
                 ("btc_change_24h", DFloat btc_change_24h);
                 ("alt_change_24h", DFloat alt_change_24h);
                 ("divergence", DFloat divergence);
                 ("btc_ok", DBool btc_ok);
                 ("div_ok", DBool div_ok)] |}.

(** ** Gate 1: setup *)

(** The loop counting candles with a long upper shadow. *)
Definition exhaustion_step (params : GateParams) (count : Z) (c : Candle)
    : Z :=
  let body := Qabs (close c - open c) in
  let upper_shadow := high c - Py.max2 (close c) (open c) in
  if Py.gtb body 0 && Py.gtb upper_shadow (body * shadow_body_ratio params)
  then (count + 1)%Z else count.

Definition check_gate1 (candles_5m : list Candle) (params : GateParams)
    : Py.result GateResult :=
  if negb (gate1_enabled params) then Py.Ok disabled_result
  else if (Py.len candles_5m <? exhaustion_candles params)%Z
  then Py.Ok not_enough_candles
  else
    let recent :=
      Py.slice candles_5m (Some (- exhaustion_candles params)%Z) None in
    let signals : list Signal := [] in
    let conditions_met : Z := 0%Z in
    (* condition 1: long upper shadows *)
    let exhaustion_count := fold_left (exhaustion_step params) recent 0%Z in
    let c1 := (2 <=? exhaustion_count)%Z in
    let signals := if c1 then signals ++ [SigExhaustionShadows exhaustion_count]
                   else signals in
    let conditions_met := if c1 then (conditions_met + 1)%Z
                          else conditions_met in
    (* condition 2: the high does not advance *)
    let highs := map high recent in
    max_high ← Py.max_list highs;
    min_high ← Py.min_list highs;
    let high_range_pct :=
      if Py.gtb max_high 0 then (max_high - min_high) / max_high * 100
      else 0 in
    let c2 := Py.ltb high_range_pct (high_tolerance_pct params) in
    let signals := if c2 then signals ++ [SigHighFlat high_range_pct]
                   else signals in
    let conditions_met := if c2 then (conditions_met + 1)%Z
                          else conditions_met in
    (* condition 3: closes decline *)
    let closes := map close recent in
    let close_falling := Py.non_increasing closes in
    close_last ← Py.index closes (-1);
    close_first ← Py.index closes 0;
    let close_dropped := Py.ltb close_last close_first in
    let c3 := close_falling || close_dropped in
    let signals := if c3 then signals ++ [SigCloseDeclining] else signals in
    let conditions_met := if c3 then (conditions_met + 1)%Z
                          else conditions_met in
    let passed := (min_exhaustion_signals params <=? conditions_met)%Z in
    let score := inject_Z conditions_met / 3 * 100 in
    Py.Ok {| passed := passed;
             score := score;
             signals := signals;
             debug := [("exhaustion_count", DInt exhaustion_count);
                       ("high_range_pct", DFloat high_range_pct);
                       ("close_falling", DBool close_falling);
                       ("close_dropped", DBool close_dropped);
                       ("conditions_met", DInt conditions_met)] |}.

(** ** Gate 2: trigger *)

(** The adaptive window length. *)
Definition range_window (change_24h : Q) (params : GateParams) : Z :=
  if Py.gtb change_24h (pump_threshold_hot params)
  then range_candles_hot params
  else if Py.gtb change_24h (pump_threshold_mid params)
  then range_candles_mid params
  else range_candles_base params.

(** Returns [(GateResult, range_low, range_high)]. *)
Definition check_gate2 (candles_5m : list Candle) (change_24h : Q)
    (params : GateParams) : Py.result (GateResult * Q * Q) :=
  if negb (gate2_enabled params) then Py.Ok (disabled_result, 0, 0)
  else
    let n := range_window change_24h params in
    if (Py.len candles_5m <? n + 2)%Z
    then Py.Ok (not_enough_candles, 0, 0)
    else
      let range_candles :=
        Py.slice candles_5m (Some (- (n + 2))%Z) (Some (-2)%Z) in
      range_high ← Py.max_list (map high range_candles);
      range_low ← Py.min_list (map low range_candles);
      prev_candle ← Py.index candles_5m (-2);
      last_candle ← Py.index candles_5m (-1);
      let signals : list Signal := [] in
      let score : Q := 0.0 in
      (* condition 1: breakdown *)
      let breakdown_threshold :=
        range_low * (1 - breakdown_confirm_pct params / 100) in
      let breakdown := Py.ltb (close prev_candle) breakdown_threshold in
      let signals :=
        if breakdown
        then signals ++ [SigBreakdownClose (close prev_candle) range_low]
        else signals in
      let score := if breakdown then score + 50 else score in
      (* condition 2: failed retest *)
      let retest_failed :=
        Py.ltb (close last_candle) range_low
        && Py.ltb (high last_candle) (range_low * 1.005) in
      let signals := if retest_failed then signals ++ [SigRetestFailed]
                     else signals in
      let score := if retest_failed then score + 50 else score in
      let passed := breakdown && retest_failed in
      Py.Ok ({| passed := passed;
                score := score;
                signals := signals;
                debug := [("n_candles", DInt n);
                          ("range_high", DFloat range_high);
                          ("range_low", DFloat range_low);
                          ("prev_close", DFloat (close prev_candle));
                          ("last_close", DFloat (close last_candle));
                          ("last_high", DFloat (high last_candle));
                          ("breakdown", DBool breakdown);
                          ("retest_failed", DBool retest_failed)] |},
             range_low, range_high).

(** ** Gate 3: confidence *)

(** [c.get("volume", 0) or c.get("turnover", 0)] *)
Definition candle_volume (c : Candle) : Q :=
  Py.or_else (volume c) (turnover c).

Definition check_gate3 (candles_5m : list Candle)
    (momentum_10m funding_rate dist_to_high prev_dist_to_high : Q)
    (params : GateParams) : Py.result GateResult :=
  if negb (gate3_enabled params) then Py.Ok disabled_result
  else
    let signals : list Signal := [] in
    let conditions_met : Z := 0%Z in
    (* condition 1: momentum is not rising *)
    let momentum_ok := Py.leb momentum_10m (momentum_threshold params) in
    let signals := if momentum_ok then signals ++ [SigMomentum momentum_10m]
                   else signals in
    let conditions_met := if momentum_ok then (conditions_met + 1)%Z
                          else conditions_met in
    (* condition 2: volume of the last bar against the median *)
    '(signals, conditions_met) ←
      (if (volume_lookback params <=? Py.len candles_5m)%Z then
         let volumes :=
           map candle_volume
             (Py.slice candles_5m (Some (- volume_lookback params)%Z) None) in
         let volumes_sorted := Py.sorted volumes in
         median_vol ← Py.index volumes_sorted (Py.len volumes_sorted / 2)%Z;
         last_vol ← match volumes with
                    | [] => Py.Ok 0
                    | _ => Py.index volumes (-1)
                    end;
         let volume_ok := Py.geb last_vol (median_vol * volume_mult params) in
         Py.Ok (if volume_ok
                then (signals ++ [SigVolume last_vol median_vol
                                    (volume_mult params)],
                      (conditions_met + 1)%Z)
                else (signals, conditions_met))
       else Py.Ok (signals, conditions_met));
    (* condition 3: funding is positive *)
    let funding_ok := Py.gtb funding_rate (min_funding params) in
    let signals := if funding_ok then signals ++ [SigFunding funding_rate]
                   else signals in
    let conditions_met := if funding_ok then (conditions_met + 1)%Z
                          else conditions_met in
    (* condition 4: moving away from the high *)
    let dist_increasing := Py.gtb dist_to_high prev_dist_to_high in
    let signals :=
      if dist_increasing
      then signals ++ [SigDistIncreasing prev_dist_to_high dist_to_high]
      else signals in
    let conditions_met := if dist_increasing then (conditions_met + 1)%Z
                          else conditions_met in
    let passed := (min_confidence_signals params <=? conditions_met)%Z in
    let score := inject_Z conditions_met / 4 * 100 in
    Py.Ok {| passed := passed;
             score := score;
             signals := signals;
             debug := [("momentum_10m", DFloat momentum_10m);
                       ("momentum_ok", DBool momentum_ok);
                       ("funding_rate", DFloat funding_rate);
                       ("funding_ok", DBool funding_ok);
                       ("dist_to_high", DFloat dist_to_high);
                       ("prev_dist_to_high", DFloat prev_dist_to_high);
                       ("dist_increasing", DBool dist_increasing);
                       ("conditions_met", DInt conditions_met)] |}.

(** ** Anti-pattern: V-recovery *)

Definition check_v_recovery (candles_5m : list Candle) (range_low : Q)
    (params : GateParams) : Py.result bool :=
  if (Py.len candles_5m <? v_recovery_candles params + 1)%Z
  then Py.Ok false
  else
    let recent :=
      Py.slice candles_5m (Some (- (v_recovery_candles params + 1))%Z) None in
    let was_below :=
      existsb (fun c => Py.ltb (close c) range_low)
        (Py.slice recent None (Some (-1)%Z)) in
    last ← Py.index recent (-1);
    let now_above := Py.gtb (close last) range_low in
    Py.Ok (was_below && now_above).

(** ** Trade levels *)

(** Returns [(sl_price, tp1_price, tp2_price, tp3_price, rr_ratio)]. *)
Definition calculate_trade_levels
    (entry_price range_low range_high low_24h : Q) (params : GateParams)
    : Q * Q * Q * Q * Q :=
  let sl_price := range_high * (1 + sl_above_range_pct params / 100) in
  let tp1_price := entry_price - (entry_price - range_low) * tp1_ratio params in
  let tp2_price := range_low in
  let tp3_price :=
    if tp3_use_low24h params && Py.ltb low_24h tp2_price then low_24h
    else tp2_price * 0.99 in
  let risk := sl_price - entry_price in
  let reward := entry_price - tp1_price in
  let rr_ratio := if Py.gtb risk 0 then reward / risk else 0 in
  (sl_price, tp1_price, tp2_price, tp3_price, rr_ratio).

(** ** All gates *)

(** What [check_all_gates] reads from outside its arguments: the system
    clock ([time.time()]) and the parameter store ([get_params]). *)
Record World : Type := mkWorld {
  time_time : Q;
  get_params : string -> GateParams
}.

(** [GatesResult(gate0=GateResult(passed=False), ..., timestamp=..,
    symbol=.., params_version=..)]: the other fields take the dataclass
    defaults. *)
Definition new_result (timestamp : Z) (symbol : string) (params_version : Z)
    : GatesResult :=
  {| gate0 := default_failed;
     gate1 := default_failed;
     gate2 := default_failed;
     gate3 := default_failed;
     all_passed := false;
     status := "";
     signal_text := TxtEmpty;
     entry_price := 0.0;
     sl_price := 0.0;
     tp1_price := 0.0;
     tp2_price := 0.0;
     tp3_price := 0.0;
     rr_ratio := 0.0;
     res_timestamp := timestamp;
     symbol := symbol;
     params_version := params_version |}.

(** [params if params is not None else get_params(symbol)] *)
Definition resolve_params (w : World) (symbol : string)
    (params : option GateParams) : GateParams :=
  match params with
  | None => get_params w symbol
  | Some p => p
  end.

Definition check_all_gates (w : World) (symbol : string)
    (candles_5m : list Candle)
    (current_price change_24h range_position dist_to_high funding_rate
     low_24h btc_trend_1h btc_change_24h momentum_10m prev_dist_to_high : Q)
    (params : option GateParams) : Py.result GatesResult :=
  let params := resolve_params w symbol params in
  let result := new_result (Py.int (time_time w)) symbol (version params) in
  (* Gate 0 *)
  let result :=
    set_gate0 (check_gate0 btc_trend_1h change_24h btc_change_24h params)
      result in
  if negb (passed (gate0 result)) then
    Py.Ok (set_status "" TxtContextUnfit result)
  else
  (* Gate 1 *)
  g1 ← check_gate1 candles_5m params;
  let result := set_gate1 g1 result in
  if negb (passed (gate1 result)) then
    if Py.gtb range_position 70 || Py.gtb change_24h 8
    then Py.Ok (set_status ST_OBSERVATION
                  (TxtGrowthWaitExhaustion change_24h) result)
    else Py.Ok result
  else
  (* Gate 2 *)
  '(gate2_result, range_low, range_high) ←
    check_gate2 candles_5m change_24h params;
  let result := set_gate2 gate2_result result in
  if negb (passed (gate2 result)) then
    if Py.gtb range_position 80 && Py.gtb change_24h 10
    then Py.Ok (set_status ST_INTEREST TxtExhaustionWaitBreakdown result)
    else Py.Ok (set_status ST_OBSERVATION TxtSetupNoBreakdown result)
  else
  (* V-recovery *)
  v ← check_v_recovery candles_5m range_low params;
  if (v : bool) then
    Py.Ok (set_status ST_OBSERVATION TxtVRecovery result)
  else
  (* Gate 3 *)
  g3 ← check_gate3 candles_5m momentum_10m funding_rate dist_to_high
         prev_dist_to_high params;
  let result := set_gate3 g3 result in
  if negb (passed (gate3 result)) then
    Py.Ok (set_status ST_READINESS TxtBreakdownWaitConfirm result)
  else
  (* all gates passed *)
  let result := set_all_passed true result in
  let entry_price := current_price in
  let '(sl, tp1, tp2, tp3, rr) :=
    calculate_trade_levels entry_price range_low range_high low_24h params in
  if Py.ltb rr (min_rr params) then
    Py.Ok (set_status ST_READINESS (TxtRRBelow rr (min_rr params)) result)
  else
    let result := set_levels entry_price sl tp1 tp2 tp3 rr result in
    Py.Ok (set_status ST_ENTRY (TxtBreakdownConfirmed rr) result).

(** ** The paths through [check_all_gates] *)

(** The risk-reward ratio [check_all_gates] computes once Gate 2 has given
    the range: the last component of [calculate_trade_levels]. *)
Definition risk_reward (candles_5m : list Candle)
    (current_price change_24h low_24h : Q) (params : GateParams)
    : Py.result Q :=
  '(_, range_low, range_high) ← check_gate2 candles_5m change_24h params;
  let '(_, _, _, _, rr) :=
    calculate_trade_levels current_price range_low range_high low_24h
      params in
  Py.Ok rr.

(** Window lengths as a parameter file is expected to hold them: at least
    one candle in every window, no negative V-recovery span. *)
Definition well_formed_windows (p : GateParams) : Prop :=
  (1 <= exhaustion_candles p)%Z
  /\ (1 <= range_candles_base p)%Z
  /\ (1 <= range_candles_hot p)%Z
  /\ (1 <= range_candles_mid p)%Z
  /\ (1 <= volume_lookback p)%Z
  /\ (0 <= v_recovery_candles p)%Z.

(** The four gate flags of a result, all true. *)
Definition four_gates_passed (r : GatesResult) : bool :=
  passed (gate0 r) && passed (gate1 r) && passed (gate2 r)
  && passed (gate3 r).

(** The [return] statement a call leaves through. *)
Inductive Path : Type :=
| AtGate0 | AtGate1 | AtGate2 | AtVeto | AtGate3 | AtRiskReward | AtEntry.

Section Paths.

Variables (w : World) (symbol : string) (candles_5m : list Candle).
Variables (current_price change_24h range_position dist_to_high
           funding_rate low_24h btc_trend_1h btc_change_24h momentum_10m
           prev_dist_to_high : Q).
Variable params : option GateParams.

Let p := resolve_params w symbol params.
Let r0 := new_result (Py.int (time_time w)) symbol (version p).
Let g0 := check_gate0 btc_trend_1h change_24h btc_change_24h p.

(** [Run path r]: the call returns [r] through [path].  One rule per
    [return] of the source, with the gate results that lead there. *)
Inductive Run : Path -> GatesResult -> Prop :=
| run_gate0 :
    passed g0 = false ->
    Run AtGate0 (set_status "" TxtContextUnfit (set_gate0 g0 r0))
| run_gate1 g1 :
    passed g0 = true ->
    check_gate1 candles_5m p = Py.Ok g1 -> passed g1 = false ->
    Run AtGate1
      (let r := set_gate1 g1 (set_gate0 g0 r0) in
       if Py.gtb range_position 70 || Py.gtb change_24h 8
       then set_status ST_OBSERVATION
              (TxtGrowthWaitExhaustion change_24h) r
       else r)
| run_gate2 g1 g2 rl rh :
    passed g0 = true ->
    check_gate1 candles_5m p = Py.Ok g1 -> passed g1 = true ->
    check_gate2 candles_5m change_24h p = Py.Ok (g2, rl, rh) ->
    passed g2 = false ->
    Run AtGate2
      (let r := set_gate2 g2 (set_gate1 g1 (set_gate0 g0 r0)) in
       if Py.gtb range_position 80 && Py.gtb change_24h 10
       then set_status ST_INTEREST TxtExhaustionWaitBreakdown r
       else set_status ST_OBSERVATION TxtSetupNoBreakdown r)
| run_veto g1 g2 rl rh :
    passed g0 = true ->
    check_gate1 candles_5m p = Py.Ok g1 -> passed g1 = true ->
    check_gate2 candles_5m change_24h p = Py.Ok (g2, rl, rh) ->
    passed g2 = true ->
    check_v_recovery candles_5m rl p = Py.Ok true ->
    Run AtVeto
      (set_status ST_OBSERVATION TxtVRecovery
         (set_gate2 g2 (set_gate1 g1 (set_gate0 g0 r0))))
| run_gate3 g1 g2 rl rh g3 :
    passed g0 = true ->
    check_gate1 candles_5m p = Py.Ok g1 -> passed g1 = true ->
    check_gate2 candles_5m change_24h p = Py.Ok (g2, rl, rh) ->
    passed g2 = true ->
    check_v_recovery candles_5m rl p = Py.Ok false ->
    check_gate3 candles_5m momentum_10m funding_rate dist_to_high
      prev_dist_to_high p = Py.Ok g3 ->
    passed g3 = false ->
    Run AtGate3
      (set_status ST_READINESS TxtBreakdownWaitConfirm
         (set_gate3 g3 (set_gate2 g2 (set_gate1 g1 (set_gate0 g0 r0)))))
| run_all g1 g2 rl rh g3 sl tp1 tp2 tp3 rr :
    passed g0 = true ->
    check_gate1 candles_5m p = Py.Ok g1 -> passed g1 = true ->
    check_gate2 candles_5m change_24h p = Py.Ok (g2, rl, rh) ->
    passed g2 = true ->
    check_v_recovery candles_5m rl p = Py.Ok false ->
    check_gate3 candles_5m momentum_10m funding_rate dist_to_high
      prev_dist_to_high p = Py.Ok g3 ->
    passed g3 = true ->
    calculate_trade_levels current_price rl rh low_24h p
      = (sl, tp1, tp2, tp3, rr) ->
    Run (if Py.ltb rr (min_rr p) then AtRiskReward else AtEntry)
      (let r := set_all_passed true
                  (set_gate3 g3
                     (set_gate2 g2 (set_gate1 g1 (set_gate0 g0 r0)))) in
       if Py.ltb rr (min_rr p)
       then set_status ST_READINESS (TxtRRBelow rr (min_rr p)) r
       else set_status ST_ENTRY (TxtBreakdownConfirmed rr)
              (set_levels current_price sl tp1 tp2 tp3 rr r)).

End Paths.

End Gates.

(* ================================================================== *)
(** * core/types.py *)
(* ================================================================== *)

Module Types.

(** [CoinRow]: the per-instrument record.  The field [symbol] of the
    source is [row_symbol] here. *)
Record CoinRow : Type := mkCoinRow {
  row_symbol : string;
  price_now : Q;
  high_24h : Q;
  low_24h : Q;
  change_24h_pct : Q;
  vol24_m : Z;
  funding_rate : Q;
  range_position : Q;
  dist_high_pct : Q;
  trend_1h_ppm : Q;
  trend_3h_ppm : Q;
  trend_24h_ppm : Q;
  vol_ratio_5m_1h : Q;
  vol_ratio_15m_3h : Q;
  volume_score : Q;
  structure_score : Q;
  exhaustion : Q;
  btc_div_1h : Q;
  btc_price : Q;
  btc_change_24h : Q;
  short_prob : Q;
  short_conf : Q;
  candidate_pct : Q;
  entry_price : Q;
  sl_price : Q;
  tp1 : Q;
  tp2 : Q;
  tp3 : Q;
  rr : Q;
  status : string;
  watch_type : string;
  signal : string;
  score : Q;
  gate0_passed : bool;
  gate1_passed : bool;
  gate2_passed : bool;
  gate3_passed : bool;
  gates_signal : string;
  top_rank : Z;
  grade : string;
  valid : bool;
  last_update : Q;
  added_at : Q
}.

(** The five assignments from a ticker: [price_now], [high_24h],
    [low_24h], [change_24h_pct], [funding_rate]. *)
Definition set_ticker_fields (p h l c f : Q) (r : CoinRow) : CoinRow :=
  mkCoinRow
    (row_symbol r) p h l c (vol24_m r) f (range_position r) (dist_high_pct
    r) (trend_1h_ppm r) (trend_3h_ppm r) (trend_24h_ppm r)
    (vol_ratio_5m_1h r) (vol_ratio_15m_3h r) (volume_score r)
    (structure_score r) (exhaustion r) (btc_div_1h r) (btc_price r)
    (btc_change_24h r) (short_prob r) (short_conf r) (candidate_pct r)
    (entry_price r) (sl_price r) (tp1 r) (tp2 r) (tp3 r) (rr r) (status r)
    (watch_type r) (signal r) (score r) (gate0_passed r) (gate1_passed r)
    (gate2_passed r) (gate3_passed r) (gates_signal r) (top_rank r) (grade
    r) (valid r) (last_update r) (added_at r).

(** [row.range_position = x] *)
Definition set_range_position (x : Q) (r : CoinRow) : CoinRow :=
  mkCoinRow
    (row_symbol r) (price_now r) (high_24h r) (low_24h r) (change_24h_pct
    r) (vol24_m r) (funding_rate r) x (dist_high_pct r) (trend_1h_ppm r)
    (trend_3h_ppm r) (trend_24h_ppm r) (vol_ratio_5m_1h r)
    (vol_ratio_15m_3h r) (volume_score r) (structure_score r) (exhaustion
    r) (btc_div_1h r) (btc_price r) (btc_change_24h r) (short_prob r)
    (short_conf r) (candidate_pct r) (entry_price r) (sl_price r) (tp1 r)
    (tp2 r) (tp3 r) (rr r) (status r) (watch_type r) (signal r) (score r)
    (gate0_passed r) (gate1_passed r) (gate2_passed r) (gate3_passed r)
    (gates_signal r) (top_rank r) (grade r) (valid r) (last_update r)
    (added_at r).

(** [row.dist_high_pct = x] *)
Definition set_dist_high_pct (x : Q) (r : CoinRow) : CoinRow :=
  mkCoinRow
    (row_symbol r) (price_now r) (high_24h r) (low_24h r) (change_24h_pct
    r) (vol24_m r) (funding_rate r) (range_position r) x (trend_1h_ppm r)
    (trend_3h_ppm r) (trend_24h_ppm r) (vol_ratio_5m_1h r)
    (vol_ratio_15m_3h r) (volume_score r) (structure_score r) (exhaustion
    r) (btc_div_1h r) (btc_price r) (btc_change_24h r) (short_prob r)
    (short_conf r) (candidate_pct r) (entry_price r) (sl_price r) (tp1 r)
    (tp2 r) (tp3 r) (rr r) (status r) (watch_type r) (signal r) (score r)
    (gate0_passed r) (gate1_passed r) (gate2_passed r) (gate3_passed r)
    (gates_signal r) (top_rank r) (grade r) (valid r) (last_update r)
    (added_at r).

(** [CoinRow()]: the dataclass defaults. *)
Definition default_row : CoinRow :=
  mkCoinRow "" 0 0 0 0 0 0 0 0 0 0 0 0 0 0 0 0 0 0 0 0 0 0 0 0 0 0 0 0
    "" "" "" 0 false false false false "" 0 "" true 0 0.

(** [row.status = x] *)
Definition set_status (x : string) (r : CoinRow) : CoinRow :=
  mkCoinRow (row_symbol r) (price_now r) (high_24h r) (low_24h r)
    (change_24h_pct r) (vol24_m r) (funding_rate r) (range_position r)
    (dist_high_pct r) (trend_1h_ppm r) (trend_3h_ppm r) (trend_24h_ppm r)
    (vol_ratio_5m_1h r) (vol_ratio_15m_3h r) (volume_score r)
    (structure_score r) (exhaustion r) (btc_div_1h r) (btc_price r)
    (btc_change_24h r) (short_prob r) (short_conf r) (candidate_pct r)
    (entry_price r) (sl_price r) (tp1 r) (tp2 r) (tp3 r) (rr r) x
    (watch_type r) (signal r) (score r) (gate0_passed r) (gate1_passed r)
    (gate2_passed r) (gate3_passed r) (gates_signal r) (top_rank r) (grade
    r) (valid r) (last_update r) (added_at r).

(** [row.added_at = x] *)
Definition set_added_at (x : Q) (r : CoinRow) : CoinRow :=
  mkCoinRow (row_symbol r) (price_now r) (high_24h r) (low_24h r)
    (change_24h_pct r) (vol24_m r) (funding_rate r) (range_position r)
    (dist_high_pct r) (trend_1h_ppm r) (trend_3h_ppm r) (trend_24h_ppm r)
    (vol_ratio_5m_1h r) (vol_ratio_15m_3h r) (volume_score r)
    (structure_score r) (exhaustion r) (btc_div_1h r) (btc_price r)
    (btc_change_24h r) (short_prob r) (short_conf r) (candidate_pct r)
    (entry_price r) (sl_price r) (tp1 r) (tp2 r) (tp3 r) (rr r) (status r)
    (watch_type r) (signal r) (score r) (gate0_passed r) (gate1_passed r)
    (gate2_passed r) (gate3_passed r) (gates_signal r) (top_rank r) (grade
    r) (valid r) (last_update r) x.

(** [row.last_update = x] *)
Definition set_last_update (x : Q) (r : CoinRow) : CoinRow :=
  mkCoinRow (row_symbol r) (price_now r) (high_24h r) (low_24h r)
    (change_24h_pct r) (vol24_m r) (funding_rate r) (range_position r)
    (dist_high_pct r) (trend_1h_ppm r) (trend_3h_ppm r) (trend_24h_ppm r)
    (vol_ratio_5m_1h r) (vol_ratio_15m_3h r) (volume_score r)
    (structure_score r) (exhaustion r) (btc_div_1h r) (btc_price r)
    (btc_change_24h r) (short_prob r) (short_conf r) (candidate_pct r)
    (entry_price r) (sl_price r) (tp1 r) (tp2 r) (tp3 r) (rr r) (status r)
    (watch_type r) (signal r) (score r) (gate0_passed r) (gate1_passed r)
    (gate2_passed r) (gate3_passed r) (gates_signal r) (top_rank r) (grade
    r) (valid r) x (added_at r).

(** ** Enumerations *)

Module Status.

Inductive t : Type := OBSERVATION | INTEREST | READINESS | ENTRY.

(** [status.value] *)
Definition value (s : t) : string :=
  match s with
  | OBSERVATION => "Наблюдение"
  | INTEREST => "Интерес"
  | READINESS => "Готовность"
  | ENTRY => "ВХОД"
  end.

(** [for status in cls]: the members in definition order. *)
Definition members : list t := [OBSERVATION; INTEREST; READINESS; ENTRY].

Definition from_string (s : string) : t :=
  match find (fun st => String.eqb (value st) s) members with
  | Some st => st
  | None => OBSERVATION
  end.

End Status.

Module WatchType.

Inductive t : Type := GROWTH_CORRECTION | PUMP_CORRECTION | FLAT_FALL | NONE.

Definition value (w : t) : string :=
  match w with
  | GROWTH_CORRECTION => "Рост/Кор"
  | PUMP_CORRECTION => "Памп/Кор"
  | FLAT_FALL => "Пл/Пад"
  | NONE => ""
  end.

Definition members : list t :=
  [GROWTH_CORRECTION; PUMP_CORRECTION; FLAT_FALL; NONE].

Definition from_string (s : string) : t :=
  match find (fun wt => String.eqb (value wt) s) members with
  | Some wt => wt
  | None => NONE
  end.

End WatchType.

End Types.

(* ================================================================== *)
(** * core/math_utils.py *)
(* ================================================================== *)

Module MathUtils.

Local Open Scope Q_scope.

(** [max(lo, min(hi, x))] *)
Definition clamp (x lo hi : Q) : Q := Py.max2 lo (Py.min2 hi x).

Definition range_position (price low high : Q) : Py.result Q :=
  if Py.leb high low then Py.Ok 50.0
  else
    q ← Py.div (price - low) (high - low);
    Py.Ok (clamp (q * 100) 0 100).

Definition dist_to_high_pct (price high : Q) : Py.result Q :=
  if Py.leb price 0 then Py.Ok 0.0
  else
    q ← Py.div (high - price) price;
    Py.Ok (q * 100).

Definition dist_to_low_pct (price low : Q) : Py.result Q :=
  if Py.leb price 0 then Py.Ok 0.0
  else
    q ← Py.div (price - low) price;
    Py.Ok (q * 100).

(** [a / b if b != 0 else default] *)
Definition safe_div (a b default : Q) : Q :=
  if negb (Py.eqb b 0) then a / b else default.

Definition pct (a b : Q) : Q := safe_div (b - a) a 0.0 * 100.

Definition pct_change (old new : Q) : Q :=
  if Py.eqb old 0 then 0.0 else (new - old) / old * 100.

Definition down (x : Q) : Q := Py.min2 0.0 x.

Definition up (x : Q) : Q := Py.max2 0.0 x.

Definition normalize_score (value min_val max_val : Q) : Py.result Q :=
  if Py.leb max_val min_val then Py.Ok 50.0
  else
    q ← Py.div (value - min_val) (max_val - min_val);
    Py.Ok (clamp (q * 100) 0 100).

(** ** Candles *)

Definition local_high (klines : list Candle) (lookback : Z) : Py.result Q :=
  if Py.is_empty klines then Py.Ok 0.0
  else
    let subset :=
      if (lookback <=? Py.len klines)%Z
      then Py.slice klines (Some (- lookback)%Z) None
      else klines in
    Py.max_list (map (fun k => Py.get_or_zero (high k)) subset).

Definition local_low (klines : list Candle) (lookback : Z) : Py.result Q :=
  if Py.is_empty klines then Py.Ok 0.0
  else
    let subset :=
      if (lookback <=? Py.len klines)%Z
      then Py.slice klines (Some (- lookback)%Z) None
      else klines in
    Py.min_list (map (fun k => Py.get_or_zero (low k)) subset).

(** The candles [local_high] and [local_low] look at: the last
    [lookback] ones, or all of them when [lookback] is 0 or exceeds the
    history. *)
Definition lookback_window (klines : list Candle) (lookback : Z)
    : list Candle :=
  if ((1 <=? lookback) && (lookback <=? Py.len klines))%Z
  then skipn (length klines - Z.to_nat lookback) klines
  else klines.

(** [None] is Python's [None]. *)
Definition close_hours_ago (klines_1h : list Candle) (hours : Z)
    : Py.result (option Q) :=
  if Py.is_empty klines_1h || (Py.len klines_1h <? hours)%Z then Py.Ok None
  else
    let idx := (- (hours + 1))%Z in
    if (Py.len klines_1h <? Z.abs idx)%Z then Py.Ok None
    else
      candle ← Py.index klines_1h idx;
      Py.Ok (Some (Py.get_or_zero (close candle))).

Definition trend_ppm (close_then close_now : Q) (minutes : Z) : Q :=
  if Py.leb close_then 0 || (minutes <=? 0)%Z then 0.0
  else pct_change close_then close_now / inject_Z minutes.

(** ** Structure *)

(** The loop counting red candles. *)
Definition red_step (red_count : Z) (k : Candle) : Z :=
  let o := Py.get_or_zero (open k) in
  let c := Py.get_or_zero (close k) in
  if Py.ltb c o then (red_count + 1)%Z else red_count.

Definition structure_score_from_candles (klines : list Candle) (n : Z)
    : Py.result Q :=
  if Py.is_empty klines || (Py.len klines <? n)%Z then Py.Ok 50.0
  else
    let subset := Py.slice klines (Some (- n)%Z) None in
    let red_count := fold_left red_step subset 0%Z in
    q ← Py.div (inject_Z red_count) (inject_Z n);
    Py.Ok (q * 100).

Definition body_size_ratio (kline : Candle) : Q :=
  let o := Py.get_or_zero (open kline) in
  let c := Py.get_or_zero (close kline) in
  let h := Py.get_or_zero (high kline) in
  let l := Py.get_or_zero (low kline) in
  let body := Qabs (c - o) in
  let full := h - l in
  safe_div body full 0.5.

Definition is_doji (kline : Candle) (threshold : Q) : bool :=
  Py.ltb (body_size_ratio kline) threshold.

Definition is_hammer (kline : Candle) : bool :=
  let o := Py.get_or_zero (open kline) in
  let c := Py.get_or_zero (close kline) in
  let h := Py.get_or_zero (high kline) in
  let l := Py.get_or_zero (low kline) in
  let body := Qabs (c - o) in
  let lower_shadow := Py.min2 o c - l in
  let upper_shadow := h - Py.max2 o c in
  Py.gtb lower_shadow (body * 2) && Py.ltb upper_shadow body.

(** ** Support and resistance *)

(** [float(k.get(key, 0) or 0)] *)
Definition level_of (x : Q) : Q := Py.or_else x 0.

(** The loop of [local_extrema_levels] over the inner candles, each with
    its two neighbours. *)
Fixpoint extrema_loop (klines : list Candle) : list Q * list Q :=
  match klines with
  | prev :: ((curr :: next :: _) as rest) =>
      let h_prev := level_of (high prev) in
      let h_curr := level_of (high curr) in
      let h_next := level_of (high next) in
      let l_prev := level_of (low prev) in
      let l_curr := level_of (low curr) in
      let l_next := level_of (low next) in
      let '(highs, lows) := extrema_loop rest in
      ((if Py.gtb h_curr h_prev && Py.gtb h_curr h_next
        then h_curr :: highs else highs),
       (if Py.ltb l_curr l_prev && Py.ltb l_curr l_next
        then l_curr :: lows else lows))
  | _ => ([], [])
  end.

(** Returns [(highs, lows)]. *)
Definition local_extrema_levels (klines : list Candle) : list Q * list Q :=
  if (Py.len klines <? 3)%Z then ([], []) else extrema_loop klines.

(** [sum(cluster) / len(cluster)] *)
Definition cluster_mean (cluster : list Q) : Py.result Q :=
  Py.div (Py.sum cluster) (inject_Z (Py.len cluster)).

(** The loop of [cluster_levels] with its two lists, then the closing
    append. *)
Fixpoint cluster_loop (levels : list Q) (merge_pct : Q)
    (clusters cluster : list Q) : Py.result (list Q) :=
  match levels with
  | [] =>
      if Py.is_empty cluster then Py.Ok clusters
      else
        m ← cluster_mean cluster;
        Py.Ok (clusters ++ [m])
  | level :: rest =>
      if Py.is_empty cluster then
        m ← cluster_mean cluster;
        cluster_loop rest merge_pct (clusters ++ [m]) [level]
      else
        last ← Py.index cluster (-1);
        q ← Py.div (level - last) last;
        if Py.ltb (q * 100) merge_pct
        then cluster_loop rest merge_pct clusters (cluster ++ [level])
        else
          m ← cluster_mean cluster;
          cluster_loop rest merge_pct (clusters ++ [m]) [level]
  end.

Definition cluster_levels (levels : list Q) (merge_pct : Q)
    : Py.result (list Q) :=
  if Py.is_empty levels then Py.Ok []
  else
    let sorted_levels := Py.sorted levels in
    first ← Py.index sorted_levels 0;
    cluster_loop (Py.slice sorted_levels (Some 1%Z) None) merge_pct [] [first].

(** Returns [(supports, resistances)]. *)
Definition compute_support_resistance (klines : list Candle) (price_now : Q)
    : Py.result (list Q * list Q) :=
  let '(highs, lows) := local_extrema_levels klines in
  all_highs ← cluster_levels highs 0.5;
  all_lows ← cluster_levels lows 0.5;
  let resistances :=
    Py.sorted (List.filter (fun h => Py.gtb h price_now) all_highs) in
  let supports :=
    Py.sorted_reverse (List.filter (fun l => Py.ltb l price_now) all_lows) in
  Py.Ok (Py.slice supports None (Some 3%Z),
         Py.slice resistances None (Some 3%Z)).

End MathUtils.

(* ================================================================== *)
(** * workers/scanner_worker.py: PriceUpdateWorker.run *)
(* ================================================================== *)

Module ScannerWorker.

Import Types.
Local Open Scope Q_scope.

(** The fields of a ticker that the refresh reads, after
    [float(ticker.get(key, 0) or 0)]. *)
Record Ticker : Type := mkTicker {
  lastPrice : Q;
  highPrice24h : Q;
  lowPrice24h : Q;
  price24hPcnt : Q;
  fundingRate : Q
}.

(** The price and position part of the loop body of
    [PriceUpdateWorker.run], for a row whose ticker was found. *)
Definition refresh_prices (ticker : Ticker) (row : CoinRow)
    : Py.result CoinRow :=
  let row :=
    set_ticker_fields (lastPrice ticker) (highPrice24h ticker)
      (lowPrice24h ticker) (price24hPcnt ticker * 100) (fundingRate ticker)
      row in
  row ← (if Py.gtb (high_24h row) (low_24h row) then
           q ← Py.div (price_now row - low_24h row)
                      (high_24h row - low_24h row);
           Py.Ok (set_range_position (q * 100) row)
         else Py.Ok row);
  row ← (if Py.gtb (high_24h row) 0 then
           q ← Py.div (high_24h row - price_now row) (high_24h row);
           Py.Ok (set_dist_high_pct (q * 100) row)
         else Py.Ok row);
  Py.Ok row.

(** [s in statuses] for a tuple of strings. *)
Definition status_in (s : string) (statuses : list string) : bool :=
  existsb (String.eqb s) statuses.

(** The quick status part of the same loop body.  [now_added] and
    [now_updated] are the two answers of [time.time()]. *)
Definition refresh_status (now_added now_updated : Q) (row : CoinRow)
    : CoinRow :=
  let old_status := status row in
  let row :=
    if Py.gtb (range_position row) 90 && Py.gtb (change_24h_pct row) 5 then
      if negb (status_in (status row) ["ВХОД"])
      then set_status "Готовность" row else row
    else if Py.gtb (range_position row) 85 && Py.gtb (change_24h_pct row) 3
    then
      if negb (status_in (status row) ["Готовность"; "ВХОД"])
      then set_status "Интерес" row else row
    else if Py.gtb (range_position row) 80 && Py.gtb (change_24h_pct row) 2
    then
      if negb (status_in (status row) ["Интерес"; "Готовность"; "ВХОД"])
      then set_status "Наблюдение" row else row
    else row in
  let row :=
    if negb (String.eqb old_status (status row)) && Py.eqb (added_at row) 0
    then set_added_at now_added row else row in
  set_last_update now_updated row.

(** The whole loop body for a row whose ticker was found. *)
Definition update_row (now_added now_updated : Q) (ticker : Ticker)
    (row : CoinRow) : Py.result CoinRow :=
  row ← refresh_prices ticker row;
  Py.Ok (refresh_status now_added now_updated row).

End ScannerWorker.

(* ================================================================== *)
(** * core/engine_v2.py: indicators *)
(* ================================================================== *)

Module EngineV2.

Local Open Scope Q_scope.

(** [not l] for a list. *)
Definition is_empty {A} (l : list A) : bool :=
  match l with [] => true | _ => false end.

(** The [try] block of [calculate_volume_spike]: [Some v] when it
    returns [v], [None] when it falls through. *)
Definition volume_spike_try (klines : list Candle) (lookback : Z)
    : Py.result (option Q) :=
  last ← Py.index klines (-1);
  let current_volume := volume last in
  let history :=
    if (lookback <? Py.len klines)%Z
    then Py.slice klines (Some (- lookback - 1)%Z) (Some (-1)%Z)
    else Py.slice klines None (Some (-1)%Z) in
  if is_empty history then Py.Ok (Some 1.0)
  else
    avg_volume ← Py.div (Py.sum (map volume history))
                        (inject_Z (Py.len history));
    if Py.gtb avg_volume 0 then
      q ← Py.div current_volume avg_volume;
      Py.Ok (Some q)
    else Py.Ok None.

(** [except (KeyError, IndexError, ZeroDivisionError)] *)
Definition volume_spike_caught (e : Py.exn) : bool :=
  match e with
  | Py.IndexError | Py.ZeroDivisionError => true
  | Py.ValueError | Py.OverflowError => false
  end.

Definition calculate_volume_spike (klines : list Candle) (lookback : Z)
    : Py.result Q :=
  if is_empty klines || (Py.len klines <? 2)%Z then Py.Ok 1.0
  else
    r ← Py.try_except (volume_spike_try klines lookback)
          volume_spike_caught (Py.Ok None);
    match r with
    | Some v => Py.Ok v
    | None => Py.Ok 1.0
    end.

(** ** Float arithmetic of the z-score

    [calculate_z_score] branches on whether a variance is exactly zero,
    and it squares with [**], which raises [OverflowError] when the
    square of a finite float is out of range.  Both depend on how the
    platform rounds, so the operations of its [try] block are parameters:
    any functions that compute as the platform's floats do. *)
Record FloatOps : Type := mkFloatOps {
  f_sum : list Q -> Q;        (* [sum(l)] of a list that is not empty *)
  f_sub : Q -> Q -> Q;        (* [a - b] *)
  f_quot : Q -> Q -> Q;       (* [a / b] for [b != 0] *)
  f_square : Q -> Q;          (* [x ** 2] when it is in range *)
  f_overflows : Q -> bool;    (* [x ** 2] is out of range *)
  f_sqrt : Q -> Q             (* [math.sqrt(x)] for [x > 0] *)
}.

Section ZScore.

Variable ops : FloatOps.

(** [sum(l)]: the integer 0 for an empty list. *)
Definition float_sum (l : list Q) : Q :=
  if is_empty l then 0 else f_sum ops l.

(** [a / b] raises [ZeroDivisionError] when [b == 0]. *)
Definition float_div (a b : Q) : Py.result Q :=
  if Py.eqb b 0 then Py.Raise Py.ZeroDivisionError
  else Py.Ok (f_quot ops a b).

(** [x ** 2] raises [OverflowError] when the square is out of range. *)
Definition float_pow2 (x : Q) : Py.result Q :=
  if f_overflows ops x then Py.Raise Py.OverflowError
  else Py.Ok (f_square ops x).

(** The [try] block of [calculate_z_score]. *)
Definition z_score_try (current_price : Q) (prices : list Q) (period : Z)
    : Py.result (option Q) :=
  let sample := Py.slice prices (Some (- period)%Z) None in
  mean ← float_div (float_sum sample) (inject_Z (Py.len sample));
  squares ← Py.for_each (fun x => float_pow2 (f_sub ops x mean)) sample;
  variance ← float_div (float_sum squares) (inject_Z (Py.len sample));
  let std := if Py.gtb variance 0 then f_sqrt ops variance else 0.0 in
  if Py.gtb std 0 then
    q ← float_div (f_sub ops current_price mean) std;
    Py.Ok (Some q)
  else Py.Ok None.


(** [except (ZeroDivisionError, ValueError)] *)
Definition z_score_caught (e : Py.exn) : bool :=
  match e with
  | Py.ZeroDivisionError | Py.ValueError => true
  | Py.IndexError | Py.OverflowError => false
  end.

Definition calculate_z_score (current_price : Q) (prices : list Q)
    (period : Z) : Py.result Q :=
  if is_empty prices || (Py.len prices <? period)%Z then Py.Ok 0.0
  else
    r ← Py.try_except (z_score_try current_price prices period)
          z_score_caught (Py.Ok None);
    match r with
    | Some v => Py.Ok v
    | None => Py.Ok 0.0
    end.

End ZScore.

(** ** Price changes *)

(** The [try] block of [calculate_change_5m]: [Some v] when it returns
    [v], [None] when it falls through. *)
Definition change_5m_try (klines_1m : list Candle) : Py.result (option Q) :=
  last ← Py.index klines_1m (-1);
  let price_now := close last in
  ago ← Py.index klines_1m (-5);
  let price_5m_ago := close ago in
  if Py.gtb price_5m_ago 0 then
    q ← Py.div (price_now - price_5m_ago) price_5m_ago;
    Py.Ok (Some (q * 100))
  else Py.Ok None.

(** [except (KeyError, IndexError, ZeroDivisionError)] *)
Definition change_caught (e : Py.exn) : bool :=
  match e with
  | Py.IndexError | Py.ZeroDivisionError => true
  | Py.ValueError | Py.OverflowError => false
  end.

Definition calculate_change_5m (klines_1m : list Candle) : Py.result Q :=
  if Py.is_empty klines_1m || (Py.len klines_1m <? 5)%Z then Py.Ok 0.0
  else
    r ← Py.try_except (change_5m_try klines_1m) change_caught (Py.Ok None);
    match r with
    | Some v => Py.Ok v
    | None => Py.Ok 0.0
    end.

(** The [try] block of [calculate_change_1m]. *)
Definition change_1m_try (klines_1m : list Candle) : Py.result (option Q) :=
  last ← Py.index klines_1m (-1);
  let price_now := close last in
  ago ← Py.index klines_1m (-2);
  let price_1m_ago := close ago in
  if Py.gtb price_1m_ago 0 then
    q ← Py.div (price_now - price_1m_ago) price_1m_ago;
    Py.Ok (Some (q * 100))
  else Py.Ok None.

Definition calculate_change_1m (klines_1m : list Candle) : Py.result Q :=
  if Py.is_empty klines_1m || (Py.len klines_1m <? 2)%Z then Py.Ok 0.0
  else
    r ← Py.try_except (change_1m_try klines_1m) change_caught (Py.Ok None);
    match r with
    | Some v => Py.Ok v
    | None => Py.Ok 0.0
    end.

(** ** Falling volume *)

(** [all(last_n[i]["volume"] > last_n[i+1]["volume"]
        for i in range(len(last_n) - 1))] *)
Fixpoint volumes_falling (last_n : list Candle) : bool :=
  match last_n with
  | x :: ((y :: _) as rest) =>
      Py.gtb (volume x) (volume y) && volumes_falling rest
  | _ => true
  end.

(** The [try] block of [calculate_volume_declining]. *)
Definition volume_declining_try (klines : list Candle) (n_candles : Z)
    : Py.result bool :=
  let last_n := Py.slice klines (Some (- n_candles)%Z) None in
  newest ← Py.index last_n (-1);
  oldest ← Py.index last_n 0;
  let price_rising := Py.gtb (close newest) (close oldest) in
  let volume_falling := volumes_falling last_n in
  Py.Ok (price_rising && volume_falling).

(** [except (KeyError, IndexError)] *)
Definition volume_declining_caught (e : Py.exn) : bool :=
  match e with
  | Py.IndexError => true
  | Py.ZeroDivisionError | Py.ValueError | Py.OverflowError => false
  end.

Definition calculate_volume_declining (klines : list Candle) (n_candles : Z)
    : Py.result bool :=
  if Py.is_empty klines || (Py.len klines <? n_candles + 1)%Z
  then Py.Ok false
  else
    Py.try_except (volume_declining_try klines n_candles)
      volume_declining_caught (Py.Ok false).

Definition calculate_btc_divergence (coin_change btc_change : Q) : Q :=
  coin_change - btc_change.

(** ** Exhaustion *)

Definition calculate_exhaustion (volume_spike price_momentum : Q)
    (high_not_updated : bool) : Q :=
  let vol_factor := Py.min2 1.0 (Py.max2 0.0 ((volume_spike - 1.0) / 3.0)) in
  let mom_factor := Py.max2 0.0 (1.0 - Qabs price_momentum / 5.0) in
  let high_bonus := if high_not_updated then 0.2 else 0.0 in
  let exhaustion := vol_factor * 0.5 + mom_factor * 0.3 + high_bonus in
  Py.min2 1.0 (Py.max2 0.0 exhaustion).

(** ** Trend *)

(** [range(n)] *)
Definition range (n : Z) : list Z := map Z.of_nat (seq 0 (Z.to_nat n)).

(** [(i, closes[i]) for i in range(len(closes))]: every index is in
    range, so each read returns the element at that place. *)
Definition enumerate (closes : list Q) : list (Z * Q) :=
  combine (range (Py.len closes)) closes.

(** The [try] block of [calculate_trend]. *)
Definition trend_try (klines : list Candle) (period : Z)
    : Py.result (option Q) :=
  let sample :=
    if (period <=? Py.len klines)%Z
    then Py.slice klines (Some (- period)%Z) None
    else klines in
  let closes := map close sample in
  let n := Py.len closes in
  x_mean ← Py.div (inject_Z (n - 1)) 2;
  y_mean ← Py.div (Py.sum closes) (inject_Z n);
  let numerator :=
    Py.sum (map (fun ic => (inject_Z (fst ic) - x_mean) * (snd ic - y_mean))
                (enumerate closes)) in
  let denominator :=
    Py.sum (map (fun i => (inject_Z i - x_mean) ^ 2) (range n)) in
  if Py.gtb denominator 0 then
    slope ← Py.div numerator denominator;
    normalized ←
      (if Py.gtb y_mean 0
       then d ← Py.div y_mean 100; Py.div slope d
       else Py.Ok 0);
    Py.Ok (Some (Py.max2 (-1.0) (Py.min2 1.0 (normalized * 10))))
  else Py.Ok None.

(** [except (ZeroDivisionError, ValueError)] *)
Definition trend_caught (e : Py.exn) : bool :=
  match e with
  | Py.ZeroDivisionError | Py.ValueError => true
  | Py.IndexError | Py.OverflowError => false
  end.

Definition calculate_trend (klines : list Candle) (period : Z)
    : Py.result Q :=
  if Py.is_empty klines || (Py.len klines <? 3)%Z then Py.Ok 0.0
  else
    r ← Py.try_except (trend_try klines period) trend_caught (Py.Ok None);
    match r with
    | Some v => Py.Ok v
    | None => Py.Ok 0.0
    end.

(** ** Configuration *)

(** The constants that [from core.config_v2 import *] brings in.  The
    module is not part of the sources, so its values are parameters. *)
Record ConfigV2 : Type := mkConfigV2 {
  CLASSIC_RANGE_POSITION_MIN : Q;
  CLASSIC_CHANGE_24H_MIN : Q;
  PUMP_5M_CHANGE_MIN : Q;
  PUMP_5M_VOLUME_SPIKE_MIN : Q;
  PUMP_1M_CHANGE_MIN : Q;
  PUMP_1M_VOLUME_SPIKE_MIN : Q;
  MIN_TURNOVER_24H_M : Q;
  RW_BLOCK_THRESHOLD : Q;
  RW_EXCELLENT_THRESHOLD : Q;
  RW_GOOD_THRESHOLD : Q;
  FUNDING_BONUS_EXTREME : Q;
  FUNDING_BONUS_HIGH : Q;
  VOLUME_SPIKE_EXTREME : Q;
  VOLUME_SPIKE_GOOD : Q;
  VOLUME_SPIKE_MIN : Q;
  VOLUME_SPIKE_BONUS : Q;
  ZSCORE_EXTREME : Q;
  ZSCORE_OVERBOUGHT : Q;
  ZSCORE_BONUS : Q;
  EXHAUSTION_GOOD : Q;
  QUALITY_5_STARS_MIN_FACTORS : Z;
  QUALITY_4_STARS_MIN_FACTORS : Z;
  QUALITY_3_STARS_MIN_FACTORS : Z;
  QUALITY_2_STARS_MIN_FACTORS : Z;
  QUALITY_1_STAR_MIN_FACTORS : Z;
  STATUS_THRESHOLD_READY : Q;
  STATUS_THRESHOLD_INTEREST : Q;
  STATUS_THRESHOLD_WATCH : Q;
  SCAN_LEVEL1_INTERVAL_SEC : Q;
  SCAN_LEVEL2_INTERVAL_SEC : Q;
  SCAN_LEVEL3_INTERVAL_SEC : Q
}.

(** The dataclass [ScanMetrics]. *)
Record ScanMetrics : Type := mkScanMetrics {
  price_now : Q;
  high_24h : Q;
  low_24h : Q;
  change_24h_pct : Q;
  range_position : Q;
  dist_to_high_pct : Q;
  funding_rate : Q;
  turnover_24h_m : Q;
  change_5m : Q;
  change_1m : Q;
  volume_spike : Q;
  volume_declining : bool;
  btc_div_1h : Q;
  btc_div_3h : Q;
  trend_1h : Q;
  trend_3h : Q;
  exhaustion : Q;
  z_score : Q;
  volatility : Q;
  score : Q;
  quality_stars : Z;
  criteria_type : string;
  criteria_passed : bool
}.

(** [metrics.change_5m = x] *)
Definition set_change_5m (x : Q) (m : ScanMetrics) : ScanMetrics :=
  mkScanMetrics (price_now m) (high_24h m) (low_24h m) (change_24h_pct m)
    (range_position m) (dist_to_high_pct m) (funding_rate m) (turnover_24h_m
    m) x (change_1m m) (volume_spike m) (volume_declining m) (btc_div_1h m)
    (btc_div_3h m) (trend_1h m) (trend_3h m) (exhaustion m) (z_score m)
    (volatility m) (score m) (quality_stars m) (criteria_type m)
    (criteria_passed m).

(** [metrics.change_1m = x] *)
Definition set_change_1m (x : Q) (m : ScanMetrics) : ScanMetrics :=
  mkScanMetrics (price_now m) (high_24h m) (low_24h m) (change_24h_pct m)
    (range_position m) (dist_to_high_pct m) (funding_rate m) (turnover_24h_m
    m) (change_5m m) x (volume_spike m) (volume_declining m) (btc_div_1h m)
    (btc_div_3h m) (trend_1h m) (trend_3h m) (exhaustion m) (z_score m)
    (volatility m) (score m) (quality_stars m) (criteria_type m)
    (criteria_passed m).

(** [metrics.volume_spike = x] *)
Definition set_volume_spike (x : Q) (m : ScanMetrics) : ScanMetrics :=
  mkScanMetrics (price_now m) (high_24h m) (low_24h m) (change_24h_pct m)
    (range_position m) (dist_to_high_pct m) (funding_rate m) (turnover_24h_m
    m) (change_5m m) (change_1m m) x (volume_declining m) (btc_div_1h m)
    (btc_div_3h m) (trend_1h m) (trend_3h m) (exhaustion m) (z_score m)
    (volatility m) (score m) (quality_stars m) (criteria_type m)
    (criteria_passed m).

(** [metrics.volume_declining = x] *)
Definition set_volume_declining (x : bool) (m : ScanMetrics) : ScanMetrics :=
  mkScanMetrics (price_now m) (high_24h m) (low_24h m) (change_24h_pct m)
    (range_position m) (dist_to_high_pct m) (funding_rate m) (turnover_24h_m
    m) (change_5m m) (change_1m m) (volume_spike m) x (btc_div_1h m)
    (btc_div_3h m) (trend_1h m) (trend_3h m) (exhaustion m) (z_score m)
    (volatility m) (score m) (quality_stars m) (criteria_type m)
    (criteria_passed m).

(** [metrics.btc_div_1h = x] *)
Definition set_btc_div_1h (x : Q) (m : ScanMetrics) : ScanMetrics :=
  mkScanMetrics (price_now m) (high_24h m) (low_24h m) (change_24h_pct m)
    (range_position m) (dist_to_high_pct m) (funding_rate m) (turnover_24h_m
    m) (change_5m m) (change_1m m) (volume_spike m) (volume_declining m) x
    (btc_div_3h m) (trend_1h m) (trend_3h m) (exhaustion m) (z_score m)
    (volatility m) (score m) (quality_stars m) (criteria_type m)
    (criteria_passed m).

(** [metrics.trend_1h = x] *)
Definition set_trend_1h (x : Q) (m : ScanMetrics) : ScanMetrics :=
  mkScanMetrics (price_now m) (high_24h m) (low_24h m) (change_24h_pct m)
    (range_position m) (dist_to_high_pct m) (funding_rate m) (turnover_24h_m
    m) (change_5m m) (change_1m m) (volume_spike m) (volume_declining m)
    (btc_div_1h m) (btc_div_3h m) x (trend_3h m) (exhaustion m) (z_score m)
    (volatility m) (score m) (quality_stars m) (criteria_type m)
    (criteria_passed m).

(** [metrics.trend_3h = x] *)
Definition set_trend_3h (x : Q) (m : ScanMetrics) : ScanMetrics :=
  mkScanMetrics (price_now m) (high_24h m) (low_24h m) (change_24h_pct m)
    (range_position m) (dist_to_high_pct m) (funding_rate m) (turnover_24h_m
    m) (change_5m m) (change_1m m) (volume_spike m) (volume_declining m)
    (btc_div_1h m) (btc_div_3h m) (trend_1h m) x (exhaustion m) (z_score m)
    (volatility m) (score m) (quality_stars m) (criteria_type m)
    (criteria_passed m).

(** [metrics.exhaustion = x] *)
Definition set_exhaustion (x : Q) (m : ScanMetrics) : ScanMetrics :=
  mkScanMetrics (price_now m) (high_24h m) (low_24h m) (change_24h_pct m)
    (range_position m) (dist_to_high_pct m) (funding_rate m) (turnover_24h_m
    m) (change_5m m) (change_1m m) (volume_spike m) (volume_declining m)
    (btc_div_1h m) (btc_div_3h m) (trend_1h m) (trend_3h m) x (z_score m)
    (volatility m) (score m) (quality_stars m) (criteria_type m)
    (criteria_passed m).

(** [metrics.z_score = x] *)
Definition set_z_score (x : Q) (m : ScanMetrics) : ScanMetrics :=
  mkScanMetrics (price_now m) (high_24h m) (low_24h m) (change_24h_pct m)
    (range_position m) (dist_to_high_pct m) (funding_rate m) (turnover_24h_m
    m) (change_5m m) (change_1m m) (volume_spike m) (volume_declining m)
    (btc_div_1h m) (btc_div_3h m) (trend_1h m) (trend_3h m) (exhaustion m) x
    (volatility m) (score m) (quality_stars m) (criteria_type m)
    (criteria_passed m).

(** [metrics.score = x] *)
Definition set_score (x : Q) (m : ScanMetrics) : ScanMetrics :=
  mkScanMetrics (price_now m) (high_24h m) (low_24h m) (change_24h_pct m)
    (range_position m) (dist_to_high_pct m) (funding_rate m) (turnover_24h_m
    m) (change_5m m) (change_1m m) (volume_spike m) (volume_declining m)
    (btc_div_1h m) (btc_div_3h m) (trend_1h m) (trend_3h m) (exhaustion m)
    (z_score m) (volatility m) x (quality_stars m) (criteria_type m)
    (criteria_passed m).

(** [metrics.quality_stars = x] *)
Definition set_quality_stars (x : Z) (m : ScanMetrics) : ScanMetrics :=
  mkScanMetrics (price_now m) (high_24h m) (low_24h m) (change_24h_pct m)
    (range_position m) (dist_to_high_pct m) (funding_rate m) (turnover_24h_m
    m) (change_5m m) (change_1m m) (volume_spike m) (volume_declining m)
    (btc_div_1h m) (btc_div_3h m) (trend_1h m) (trend_3h m) (exhaustion m)
    (z_score m) (volatility m) (score m) x (criteria_type m)
    (criteria_passed m).

(** [metrics.criteria_type = x] *)
Definition set_criteria_type (x : string) (m : ScanMetrics) : ScanMetrics :=
  mkScanMetrics (price_now m) (high_24h m) (low_24h m) (change_24h_pct m)
    (range_position m) (dist_to_high_pct m) (funding_rate m) (turnover_24h_m
    m) (change_5m m) (change_1m m) (volume_spike m) (volume_declining m)
    (btc_div_1h m) (btc_div_3h m) (trend_1h m) (trend_3h m) (exhaustion m)
    (z_score m) (volatility m) (score m) (quality_stars m) x
    (criteria_passed m).

(** [metrics.criteria_passed = x] *)
Definition set_criteria_passed (x : bool) (m : ScanMetrics) : ScanMetrics :=
  mkScanMetrics (price_now m) (high_24h m) (low_24h m) (change_24h_pct m)
    (range_position m) (dist_to_high_pct m) (funding_rate m) (turnover_24h_m
    m) (change_5m m) (change_1m m) (volume_spike m) (volume_declining m)
    (btc_div_1h m) (btc_div_3h m) (trend_1h m) (trend_3h m) (exhaustion m)
    (z_score m) (volatility m) (score m) (quality_stars m) (criteria_type m)
    x.

(** [ScanMetrics()]: the dataclass defaults. *)
Definition default_metrics : ScanMetrics :=
  mkScanMetrics 0.0 0.0 0.0 0.0 0.0 0.0 0.0 0.0 0.0 0.0 0.0 false 0.0 0.0
    0.0 0.0 0.0 0.0 0.0 0.0 0%Z EmptyString false.

(** The timers of the dataclass [ScanState]; its three caches are not
    read by the functions below. *)
Record ScanState : Type := mkScanState {
  level1_last_update : Q;
  level2_last_update : Q;
  level3_last_update : Q;
  level1_remaining_sec : Z;
  level2_remaining_sec : Z;
  level3_remaining_sec : Z;
  level1_in_progress : bool;
  level2_in_progress : bool;
  level3_in_progress : bool
}.

(** [ScanState()] *)
Definition default_scan_state : ScanState :=
  mkScanState 0.0 0.0 0.0 0 0 0 false false false.

Section Scoring.

Variable cfg : ConfigV2.

(** ** Selection criterion *)

(** Returns [(type, passed)]. *)
Definition determine_criteria_type (metrics : ScanMetrics) : string * bool :=
  let passed_criteria : list string := [] in
  let passed_criteria :=
    if Py.geb (range_position metrics) (CLASSIC_RANGE_POSITION_MIN cfg)
       && Py.geb (change_24h_pct metrics) (CLASSIC_CHANGE_24H_MIN cfg)
       && Py.geb (turnover_24h_m metrics) (MIN_TURNOVER_24H_M cfg)
    then passed_criteria ++ ["КЛАСС"] else passed_criteria in
  let passed_criteria :=
    if Py.geb (change_5m metrics) (PUMP_5M_CHANGE_MIN cfg)
       && Py.geb (volume_spike metrics) (PUMP_5M_VOLUME_SPIKE_MIN cfg)
       && Py.geb (turnover_24h_m metrics) (MIN_TURNOVER_24H_M cfg)
    then passed_criteria ++ ["ПАМП-5м"] else passed_criteria in
  let passed_criteria :=
    if Py.geb (change_1m metrics) (PUMP_1M_CHANGE_MIN cfg)
       && Py.geb (volume_spike metrics) (PUMP_1M_VOLUME_SPIKE_MIN cfg)
       && Py.geb (turnover_24h_m metrics) (MIN_TURNOVER_24H_M cfg)
    then passed_criteria ++ ["ЭКСТР-1м"] else passed_criteria in
  match passed_criteria with
  | [] => (EmptyString, false)
  | first :: _ =>
      if (1 <? Py.len passed_criteria)%Z then ("КОМБО", true)
      else (first, true)
  end.

(** ** Score *)

Definition calculate_score_v2 (metrics : ScanMetrics) : Q :=
  let score := 0.0 in
  let exhaustion_score := Py.min2 20.0 (exhaustion metrics * 20 / 0.7) in
  let score := score + exhaustion_score in
  let near_high_score :=
    Py.max2 0.0 (15.0 - dist_to_high_pct metrics * 1.5) in
  let score := score + near_high_score in
  let score :=
    if Py.ltb (trend_1h metrics) 0
    then score + Py.min2 10.0 (Qabs (trend_1h metrics) * 10)
    else score in
  if Py.leb (btc_div_1h metrics) (RW_BLOCK_THRESHOLD cfg) then
    let rw_score :=
      if Py.leb (btc_div_1h metrics) (RW_EXCELLENT_THRESHOLD cfg) then 30.0
      else if Py.leb (btc_div_1h metrics) (RW_GOOD_THRESHOLD cfg) then 25.0
      else 15.0 in
    let score := score + rw_score in
    let score :=
      if Py.gtb (funding_rate metrics) 0.0015
      then score + FUNDING_BONUS_EXTREME cfg
      else if Py.gtb (funding_rate metrics) 0.0008
      then score + FUNDING_BONUS_HIGH cfg
      else if Py.gtb (funding_rate metrics) 0 then score + 5.0
      else score in
    let score :=
      if Py.geb (volume_spike metrics) (VOLUME_SPIKE_EXTREME cfg)
      then score + VOLUME_SPIKE_BONUS cfg
      else if Py.geb (volume_spike metrics) (VOLUME_SPIKE_GOOD cfg)
      then score + 7.0
      else if Py.geb (volume_spike metrics) (VOLUME_SPIKE_MIN cfg)
      then score + 4.0
      else score in
    let score :=
      if Py.geb (z_score metrics) (ZSCORE_EXTREME cfg)
      then score + ZSCORE_BONUS cfg
      else if Py.geb (z_score metrics) (ZSCORE_OVERBOUGHT cfg)
      then score + 3.0
      else score in
    Py.min2 100.0 (Py.max2 0.0 score)
  else Py.min2 29.0 score.

Definition calculate_quality_stars (metrics : ScanMetrics) : Z :=
  let factors_passed := 0%Z in
  let factors_passed :=
    if Py.geb (exhaustion metrics) (EXHAUSTION_GOOD cfg)
    then (factors_passed + 1)%Z else factors_passed in
  let factors_passed :=
    if Py.leb (btc_div_1h metrics) (RW_EXCELLENT_THRESHOLD cfg)
    then (factors_passed + 1)%Z else factors_passed in
  let factors_passed :=
    if Py.ltb (btc_div_3h metrics) (btc_div_1h metrics)
    then (factors_passed + 1)%Z else factors_passed in
  let factors_passed :=
    if volume_declining metrics
    then (factors_passed + 1)%Z else factors_passed in
  let factors_passed :=
    if Py.geb (z_score metrics) (ZSCORE_OVERBOUGHT cfg)
    then (factors_passed + 1)%Z else factors_passed in
  let factors_passed :=
    if Py.gtb (funding_rate metrics) 0.001
    then (factors_passed + 1)%Z else factors_passed in
  if (QUALITY_5_STARS_MIN_FACTORS cfg <=? factors_passed)%Z then 5%Z
  else if (QUALITY_4_STARS_MIN_FACTORS cfg <=? factors_passed)%Z then 4%Z
  else if (QUALITY_3_STARS_MIN_FACTORS cfg <=? factors_passed)%Z then 3%Z
  else if (QUALITY_2_STARS_MIN_FACTORS cfg <=? factors_passed)%Z then 2%Z
  else if (QUALITY_1_STAR_MIN_FACTORS cfg <=? factors_passed)%Z then 1%Z
  else 0%Z.

Definition determine_status_v2 (score : Q) : string :=
  if Py.geb score (STATUS_THRESHOLD_READY cfg) then "Готовность"
  else if Py.geb score (STATUS_THRESHOLD_INTEREST cfg) then "Интерес"
  else if Py.geb score (STATUS_THRESHOLD_WATCH cfg) then "Наблюдение"
  else EmptyString.

(** ** Scan timers

    The module keeps one [ScanState]; it is passed and returned here.
    [now] is what [time.time()] answers. *)

Definition ensure_scan_state_initialized (now : Q) (st : ScanState)
    : ScanState :=
  mkScanState
    (if Py.leb (level1_last_update st) 0 then now
     else level1_last_update st)
    (if Py.leb (level2_last_update st) 0 then now
     else level2_last_update st)
    (if Py.leb (level3_last_update st) 0 then now
     else level3_last_update st)
    (level1_remaining_sec st) (level2_remaining_sec st)
    (level3_remaining_sec st) (level1_in_progress st)
    (level2_in_progress st) (level3_in_progress st).

(** The clock is read twice: [init_now] by the initialisation, [now] by
    the function itself. *)
Definition update_scan_timers (init_now now : Q) (st : ScanState)
    : ScanState :=
  let state := ensure_scan_state_initialized init_now st in
  let elapsed1 := now - level1_last_update state in
  let elapsed2 := now - level2_last_update state in
  let elapsed3 := now - level3_last_update state in
  mkScanState
    (level1_last_update state) (level2_last_update state)
    (level3_last_update state)
    (Z.max 0 (Py.int (SCAN_LEVEL1_INTERVAL_SEC cfg - elapsed1)))
    (Z.max 0 (Py.int (SCAN_LEVEL2_INTERVAL_SEC cfg - elapsed2)))
    (Z.max 0 (Py.int (SCAN_LEVEL3_INTERVAL_SEC cfg - elapsed3)))
    (level1_in_progress state) (level2_in_progress state)
    (level3_in_progress state).

Definition should_run_level1 (now : Q) (st : ScanState) : bool :=
  let elapsed := now - level1_last_update st in
  Py.geb elapsed (SCAN_LEVEL1_INTERVAL_SEC cfg).

Definition should_run_level2 (now : Q) (st : ScanState) : bool :=
  let elapsed := now - level2_last_update st in
  Py.geb elapsed (SCAN_LEVEL2_INTERVAL_SEC cfg).

Definition should_run_level3 (now : Q) (st : ScanState) : bool :=
  let elapsed := now - level3_last_update st in
  Py.geb elapsed (SCAN_LEVEL3_INTERVAL_SEC cfg).

Definition mark_level_complete (now : Q) (level : Z) (st : ScanState)
    : ScanState :=
  if (level =? 1)%Z then
    mkScanState now (level2_last_update st) (level3_last_update st)
      (level1_remaining_sec st) (level2_remaining_sec st)
      (level3_remaining_sec st) false (level2_in_progress st)
      (level3_in_progress st)
  else if (level =? 2)%Z then
    mkScanState (level1_last_update st) now (level3_last_update st)
      (level1_remaining_sec st) (level2_remaining_sec st)
      (level3_remaining_sec st) (level1_in_progress st) false
      (level3_in_progress st)
  else if (level =? 3)%Z then
    mkScanState (level1_last_update st) (level2_last_update st) now
      (level1_remaining_sec st) (level2_remaining_sec st)
      (level3_remaining_sec st) (level1_in_progress st)
      (level2_in_progress st) false
  else st.

Definition mark_level_started (level : Z) (st : ScanState) : ScanState :=
  if (level =? 1)%Z then
    mkScanState (level1_last_update st) (level2_last_update st)
      (level3_last_update st) (level1_remaining_sec st)
      (level2_remaining_sec st) (level3_remaining_sec st) true
      (level2_in_progress st) (level3_in_progress st)
  else if (level =? 2)%Z then
    mkScanState (level1_last_update st) (level2_last_update st)
      (level3_last_update st) (level1_remaining_sec st)
      (level2_remaining_sec st) (level3_remaining_sec st)
      (level1_in_progress st) true (level3_in_progress st)
  else if (level =? 3)%Z then
    mkScanState (level1_last_update st) (level2_last_update st)
      (level3_last_update st) (level1_remaining_sec st)
      (level2_remaining_sec st) (level3_remaining_sec st)
      (level1_in_progress st) (level2_in_progress st) true
  else st.

(** ** Level 3 enrichment *)

(** The float arithmetic of [calculate_z_score]. *)
Variable ops : FloatOps.

(** [btc_klines_1m] is [None] or a list. *)
Definition enrich_with_klines (metrics : ScanMetrics)
    (klines_1m klines_5m : list Candle)
    (btc_klines_1m : option (list Candle)) : Py.result ScanMetrics :=
  c5 ← calculate_change_5m klines_1m;
  let metrics := set_change_5m c5 metrics in
  c1 ← calculate_change_1m klines_1m;
  let metrics := set_change_1m c1 metrics in
  vs ← calculate_volume_spike klines_1m 20;
  let metrics := set_volume_spike vs metrics in
  vd ← calculate_volume_declining klines_1m 3;
  let metrics := set_volume_declining vd metrics in
  t1 ← calculate_trend klines_1m 60;
  let metrics := set_trend_1h t1 metrics in
  metrics ←
    (if negb (Py.is_empty klines_5m)
     then t3 ← calculate_trend klines_5m 36; Py.Ok (set_trend_3h t3 metrics)
     else Py.Ok metrics);
  metrics ←
    (if negb (Py.is_empty klines_1m)
     then
       let closes := map close klines_1m in
       z ← calculate_z_score ops (price_now metrics) closes 20;
       Py.Ok (set_z_score z metrics)
     else Py.Ok metrics);
  let price_momentum := change_5m metrics in
  high_not_updated ←
    (if negb (Py.is_empty klines_1m) && (3 <=? Py.len klines_1m)%Z
     then
       let recent_highs :=
         map high (Py.slice klines_1m (Some (-3)%Z) None) in
       newest ← Py.index recent_highs (-1);
       earlier ← Py.max_list (Py.slice recent_highs None (Some (-1)%Z));
       Py.Ok (Py.leb newest earlier)
     else Py.Ok false);
  let metrics :=
    set_exhaustion
      (calculate_exhaustion (volume_spike metrics) price_momentum
         high_not_updated) metrics in
  metrics ←
    match btc_klines_1m with
    | Some btc =>
        if negb (Py.is_empty btc) && (60 <=? Py.len btc)%Z then
          btc_change_1h ←
            calculate_change_5m (Py.slice btc (Some (-60)%Z) None);
          coin_change_1h ←
            (if (60 <=? Py.len klines_1m)%Z
             then calculate_change_5m
                    (Py.slice klines_1m (Some (-60)%Z) None)
             else Py.Ok (change_5m metrics));
          Py.Ok (set_btc_div_1h
                   (calculate_btc_divergence coin_change_1h btc_change_1h)
                   metrics)
        else Py.Ok metrics
    | None => Py.Ok metrics
    end;
  let '(criteria_type, criteria_passed) :=
    determine_criteria_type metrics in
  let metrics := set_criteria_type criteria_type metrics in
  let metrics := set_criteria_passed criteria_passed metrics in
  let metrics := set_score (calculate_score_v2 metrics) metrics in
  let metrics :=
    set_quality_stars (calculate_quality_stars metrics) metrics in
  Py.Ok metrics.

End Scoring.

End EngineV2.

(* ================================================================== *)
(** * main.py: the one-second tick of MainWindow *)
(* ================================================================== *)

Module Scheduler.

Local Open Scope Z_scope.

(** The four periodic jobs of the tick. *)
Inductive Level : Type :=
| L1_FullScan
| L2_PriceUpdate
| L3_PumpDetect
| CandUpdate.

(** The attributes of [MainWindow] that the tick and the start functions
    read or write.  [rows_present] is the truth value of [self.rows];
    a worker attribute is [None], or [Some b] with [b] the answer of
    [isRunning()]; [started] lists the workers started so far, latest
    first. *)
Record MainWindow : Type := mkMainWindow {
  rows_present : bool;
  scan_in_progress : bool;
  cand_update_in_progress : bool;
  price_update_in_progress : bool;
  pump_detect_in_progress : bool;
  price_worker : option bool;
  pump_worker : option bool;
  cand_worker : option bool;
  full_countdown : Z;
  price_countdown : Z;
  pump_countdown : Z;
  cand_countdown : Z;
  started : list Level
}.

Definition set_rows_present (x : bool) (s : MainWindow) : MainWindow :=
  mkMainWindow
    x (scan_in_progress s) (cand_update_in_progress s)
    (price_update_in_progress s) (pump_detect_in_progress s) (price_worker
    s) (pump_worker s) (cand_worker s) (full_countdown s) (price_countdown
    s) (pump_countdown s) (cand_countdown s) (started s).

Definition set_scan_in_progress (x : bool) (s : MainWindow) : MainWindow :=
  mkMainWindow
    (rows_present s) x (cand_update_in_progress s)
    (price_update_in_progress s) (pump_detect_in_progress s) (price_worker
    s) (pump_worker s) (cand_worker s) (full_countdown s) (price_countdown
    s) (pump_countdown s) (cand_countdown s) (started s).

Definition set_cand_update_in_progress (x : bool) (s : MainWindow) : MainWindow :=
  mkMainWindow
    (rows_present s) (scan_in_progress s) x (price_update_in_progress s)
    (pump_detect_in_progress s) (price_worker s) (pump_worker s)
    (cand_worker s) (full_countdown s) (price_countdown s) (pump_countdown
    s) (cand_countdown s) (started s).

Definition set_price_update_in_progress (x : bool) (s : MainWindow) : MainWindow :=
  mkMainWindow
    (rows_present s) (scan_in_progress s) (cand_update_in_progress s) x
    (pump_detect_in_progress s) (price_worker s) (pump_worker s)
    (cand_worker s) (full_countdown s) (price_countdown s) (pump_countdown
    s) (cand_countdown s) (started s).

Definition set_pump_detect_in_progress (x : bool) (s : MainWindow) : MainWindow :=
  mkMainWindow
    (rows_present s) (scan_in_progress s) (cand_update_in_progress s)
    (price_update_in_progress s) x (price_worker s) (pump_worker s)
    (cand_worker s) (full_countdown s) (price_countdown s) (pump_countdown
    s) (cand_countdown s) (started s).

Definition set_price_worker (x : option bool) (s : MainWindow) : MainWindow :=
  mkMainWindow
    (rows_present s) (scan_in_progress s) (cand_update_in_progress s)
    (price_update_in_progress s) (pump_detect_in_progress s) x
    (pump_worker s) (cand_worker s) (full_countdown s) (price_countdown s)
    (pump_countdown s) (cand_countdown s) (started s).

Definition set_pump_worker (x : option bool) (s : MainWindow) : MainWindow :=
  mkMainWindow
    (rows_present s) (scan_in_progress s) (cand_update_in_progress s)
    (price_update_in_progress s) (pump_detect_in_progress s) (price_worker
    s) x (cand_worker s) (full_countdown s) (price_countdown s)
    (pump_countdown s) (cand_countdown s) (started s).

Definition set_cand_worker (x : option bool) (s : MainWindow) : MainWindow :=
  mkMainWindow
    (rows_present s) (scan_in_progress s) (cand_update_in_progress s)
    (price_update_in_progress s) (pump_detect_in_progress s) (price_worker
    s) (pump_worker s) x (full_countdown s) (price_countdown s)
    (pump_countdown s) (cand_countdown s) (started s).

Definition set_full_countdown (x : Z) (s : MainWindow) : MainWindow :=
  mkMainWindow
    (rows_present s) (scan_in_progress s) (cand_update_in_progress s)
    (price_update_in_progress s) (pump_detect_in_progress s) (price_worker
    s) (pump_worker s) (cand_worker s) x (price_countdown s)
    (pump_countdown s) (cand_countdown s) (started s).

Definition set_price_countdown (x : Z) (s : MainWindow) : MainWindow :=
  mkMainWindow
    (rows_present s) (scan_in_progress s) (cand_update_in_progress s)
    (price_update_in_progress s) (pump_detect_in_progress s) (price_worker
    s) (pump_worker s) (cand_worker s) (full_countdown s) x
    (pump_countdown s) (cand_countdown s) (started s).

Definition set_pump_countdown (x : Z) (s : MainWindow) : MainWindow :=
  mkMainWindow
    (rows_present s) (scan_in_progress s) (cand_update_in_progress s)
    (price_update_in_progress s) (pump_detect_in_progress s) (price_worker
    s) (pump_worker s) (cand_worker s) (full_countdown s) (price_countdown
    s) x (cand_countdown s) (started s).

Definition set_cand_countdown (x : Z) (s : MainWindow) : MainWindow :=
  mkMainWindow
    (rows_present s) (scan_in_progress s) (cand_update_in_progress s)
    (price_update_in_progress s) (pump_detect_in_progress s) (price_worker
    s) (pump_worker s) (cand_worker s) (full_countdown s) (price_countdown
    s) (pump_countdown s) x (started s).

Definition set_started (x : list Level) (s : MainWindow) : MainWindow :=
  mkMainWindow
    (rows_present s) (scan_in_progress s) (cand_update_in_progress s)
    (price_update_in_progress s) (pump_detect_in_progress s) (price_worker
    s) (pump_worker s) (cand_worker s) (full_countdown s) (price_countdown
    s) (pump_countdown s) (cand_countdown s) x.

(** [_start_scan] *)
Definition start_scan (s : MainWindow) : MainWindow :=
  if scan_in_progress s then s
  else
    let s := set_scan_in_progress true s in
    set_started (L1_FullScan :: started s) s.

(** [_start_price_update] *)
Definition start_price_update (s : MainWindow) : MainWindow :=
  if negb (rows_present s) then s
  else if price_update_in_progress s then s
  else if scan_in_progress s then s
  else
    match price_worker s with
    | Some true => s
    | _ =>
        let s := set_price_worker None s in
        let s := set_price_update_in_progress true s in
        let s := set_price_worker (Some true) s in
        set_started (L2_PriceUpdate :: started s) s
    end.

(** [_start_pump_detect] *)
Definition start_pump_detect (s : MainWindow) : MainWindow :=
  if negb (rows_present s) || pump_detect_in_progress s then s
  else
    match pump_worker s with
    | Some true => s
    | _ =>
        let s := set_pump_worker None s in
        let s := set_pump_detect_in_progress true s in
        let s := set_pump_worker (Some true) s in
        set_started (L3_PumpDetect :: started s) s
    end.

(** [_start_cand_update] *)
Definition start_cand_update (s : MainWindow) : MainWindow :=
  if negb (rows_present s) || cand_update_in_progress s then s
  else
    match cand_worker s with
    | Some true => s
    | _ =>
        let s := set_cand_worker None s in
        let s := set_cand_update_in_progress true s in
        let s := set_cand_worker (Some true) s in
        set_started (CandUpdate :: started s) s
    end.

(** The four blocks of [_tick_all_levels], in the order of the source.
    The calls that only redraw the interface change none of the modelled
    attributes. *)

(** Level 3: pump detector, every 10 seconds. *)
Definition tick_level3 (s : MainWindow) : MainWindow :=
  if negb (pump_detect_in_progress s) && rows_present s then
    let s := set_pump_countdown (pump_countdown s - 1) s in
    if pump_countdown s <=? 0 then
      let s := set_pump_countdown 10 s in
      start_pump_detect s
    else s
  else s.

(** Level 2: price update, every 30 seconds. *)
Definition tick_level2 (s : MainWindow) : MainWindow :=
  if negb (price_update_in_progress s) && negb (scan_in_progress s)
     && rows_present s then
    let s := set_price_countdown (price_countdown s - 1) s in
    if price_countdown s <=? 0 then
      let s := set_price_countdown 30 s in
      start_price_update s
    else s
  else s.

(** Level 1: full recompute, every 120 seconds. *)
Definition tick_level1 (s : MainWindow) : MainWindow :=
  if negb (scan_in_progress s) then
    let s := set_full_countdown (full_countdown s - 1) s in
    if full_countdown s <=? 0 then
      let s := set_full_countdown 120 s in
      let s := set_price_countdown 30 s in
      let s := set_pump_countdown 10 s in
      start_scan s
    else s
  else s.

(** Candidates, every 5 seconds. *)
Definition tick_candidates (s : MainWindow) : MainWindow :=
  if negb (scan_in_progress s) && negb (cand_update_in_progress s)
     && rows_present s then
    let s := set_cand_countdown (cand_countdown s - 1) s in
    if cand_countdown s <=? 0 then
      let s := set_cand_countdown 5 s in
      start_cand_update s
    else s
  else s.

Definition tick_all_levels (s : MainWindow) : MainWindow :=
  let s := tick_level3 s in
  let s := tick_level2 s in
  let s := tick_level1 s in
  let s := tick_candidates s in
  s.

(** A worker object that answers [isRunning()] with [True]. *)
Definition still_running (worker : option bool) : bool :=
  match worker with Some true => true | _ => false end.

(** A level fires in a tick when its block takes the branch that resets
    the countdown and calls the start function. *)
Definition fires_level3 (s : MainWindow) : bool :=
  negb (pump_detect_in_progress s) && rows_present s
  && (pump_countdown s - 1 <=? 0).
Definition fires_level2 (s : MainWindow) : bool :=
  negb (price_update_in_progress s) && negb (scan_in_progress s)
  && rows_present s && (price_countdown s - 1 <=? 0).
Definition fires_level1 (s : MainWindow) : bool :=
  negb (scan_in_progress s) && (full_countdown s - 1 <=? 0).
(** The candidates block runs after Level 1 and reads the flag Level 1
    may just have set. *)
Definition fires_candidates (s : MainWindow) : bool :=
  negb (scan_in_progress s || fires_level1 s)
  && negb (cand_update_in_progress s) && rows_present s
  && (cand_countdown s - 1 <=? 0).

(** The state [__init__] leaves. *)
Definition init : MainWindow :=
  {| rows_present := false;
     scan_in_progress := false;
     cand_update_in_progress := false;
     price_update_in_progress := false;
     pump_detect_in_progress := false;
     price_worker := None;
     pump_worker := None;
     cand_worker := None;
     full_countdown := 120;
     price_countdown := 30;
     pump_countdown := 10;
     cand_countdown := 5;
     started := [] |}.

(** ** Completion handlers

    A handler's argument is the truth value of the dictionary or list it
    is given. *)

(** [_on_finished] *)
Definition on_finished (results : bool) (s : MainWindow) : MainWindow :=
  let s := set_rows_present results s in
  let s := set_scan_in_progress false s in
  set_full_countdown 120 s.

(** [_on_error] *)
Definition on_error (s : MainWindow) : MainWindow :=
  set_scan_in_progress false s.

(** [_on_price_update_finished] *)
Definition on_price_update_finished (updated_rows : bool) (s : MainWindow)
    : MainWindow :=
  let s := set_price_update_in_progress false s in
  if updated_rows then set_rows_present updated_rows s else s.

(** [_on_price_update_error] *)
Definition on_price_update_error (s : MainWindow) : MainWindow :=
  set_price_update_in_progress false s.

(** [_on_pump_detect_finished] *)
Definition on_pump_detect_finished (s : MainWindow) : MainWindow :=
  set_pump_detect_in_progress false s.

(** [_on_pump_detect_error] *)
Definition on_pump_detect_error (s : MainWindow) : MainWindow :=
  set_pump_detect_in_progress false s.

(** [_on_cand_finished] *)
Definition on_cand_finished (updated_rows : bool) (s : MainWindow)
    : MainWindow :=
  let s := set_cand_update_in_progress false s in
  let s := if updated_rows then set_rows_present updated_rows s else s in
  set_cand_countdown 5 s.

(** [_on_cand_error] *)
Definition on_cand_error (s : MainWindow) : MainWindow :=
  set_cand_update_in_progress false s.

(** What the event loop delivers to the window: the one-second timer,
    a request for a full scan, the signals of the four workers, and the
    end of a worker thread (after it [isRunning()] answers [False]). *)
Inductive Event : Type :=
| Tick
| ScanRequested
| ScanFinished (results : bool)
| ScanError
| PriceFinished (updated_rows : bool)
| PriceError
| PumpFinished
| PumpError
| CandFinished (updated_rows : bool)
| CandError
| ThreadEnded (level : Level).

(** A thread that ended answers [False] from then on. *)
Definition thread_ended (level : Level) (s : MainWindow) : MainWindow :=
  let stop w := match w with Some _ => Some false | None => None end in
  match level with
  | L1_FullScan => s
  | L2_PriceUpdate => set_price_worker (stop (price_worker s)) s
  | L3_PumpDetect => set_pump_worker (stop (pump_worker s)) s
  | CandUpdate => set_cand_worker (stop (cand_worker s)) s
  end.

Definition handle (s : MainWindow) (e : Event) : MainWindow :=
  match e with
  | Tick => tick_all_levels s
  | ScanRequested => start_scan s
  | ScanFinished results => on_finished results s
  | ScanError => on_error s
  | PriceFinished updated_rows => on_price_update_finished updated_rows s
  | PriceError => on_price_update_error s
  | PumpFinished => on_pump_detect_finished s
  | PumpError => on_pump_detect_error s
  | CandFinished updated_rows => on_cand_finished updated_rows s
  | CandError => on_cand_error s
  | ThreadEnded level => thread_ended level s
  end.

(** The window after a sequence of events. *)
Definition run (events : list Event) (s : MainWindow) : MainWindow :=
  fold_left handle events s.

(** [n] ticks in a row. *)
Fixpoint ticks (n : nat) (s : MainWindow) : MainWindow :=
  match n with
  | O => s
  | S k => tick_all_levels (ticks k s)
  end.

(** How many times a level was started. *)
Definition starts (level : Level) (s : MainWindow) : nat :=
  List.length
    (List.filter
       (fun l => match l, level with
                 | L1_FullScan, L1_FullScan
                 | L2_PriceUpdate, L2_PriceUpdate
                 | L3_PumpDetect, L3_PumpDetect
                 | CandUpdate, CandUpdate => true
                 | _, _ => false
                 end) (started s)).

(** Each countdown is between 1 and its period. *)
Definition countdowns_in_range (s : MainWindow) : Prop :=
  1 <= full_countdown s <= 120
  /\ 1 <= price_countdown s <= 30
  /\ 1 <= pump_countdown s <= 10
  /\ 1 <= cand_countdown s <= 5.

End Scheduler.

(* ================================================================== *)
(** * core/bridge.py *)
(* ================================================================== *)

Module Bridge.

Import Types.
Local Open Scope Q_scope.

(** ** JSON values and dictionaries *)

(** The values [json.dump] is given here.  A dictionary keeps its
    insertion order. *)
#[local] Set Warnings "-register-all".
Inductive JValue : Type :=
| JInt (n : Z)
| JFloat (x : Q)
| JStr (s : string)
| JBool (b : bool)
| JList (l : list JValue)
| JDict (d : list (string * JValue)).
#[local] Set Warnings "register-all".

Definition Dict : Type := list (string * JValue).

(** [d.get(k)] *)
Fixpoint dict_get (k : string) (d : Dict) : option JValue :=
  match d with
  | [] => None
  | (k', v) :: t => if String.eqb k k' then Some v else dict_get k t
  end.

Definition dict_keys (d : Dict) : list string := map fst d.

(** ** Text *)

(** A [str] is held as its UTF-8 bytes; a byte [10xxxxxx] continues the
    character before it. *)
Definition is_continuation (c : ascii) : bool :=
  let n := nat_of_ascii c in (128 <=? n)%nat && (n <? 192)%nat.

(** [s[:n]] for [n >= 0]: the first [n] characters. *)
Fixpoint take_chars (n : nat) (s : string) : string :=
  match s with
  | EmptyString => EmptyString
  | String c t =>
      if is_continuation c then String c (take_chars n t)
      else match n with
           | O => EmptyString
           | S n' => String c (take_chars n' t)
           end
  end.

(** ** Rows to items *)

(** [_row_to_dict] *)
Definition row_to_dict (row : CoinRow) : Dict :=
  [ ("symbol", JStr (row_symbol row));
    ("status", JStr (status row));
    ("score", JFloat (score row));
    ("watch_type", JStr (watch_type row));
    ("signal", JStr (take_chars 100 (signal row)));
    ("price_now", JFloat (price_now row));
    ("high_24h", JFloat (high_24h row));
    ("low_24h", JFloat (low_24h row));
    ("change_24h_pct", JFloat (change_24h_pct row));
    ("vol24h_m", JInt (vol24_m row));
    ("range_position", JFloat (range_position row));
    ("dist_high_pct", JFloat (dist_high_pct row));
    ("entry", JFloat (entry_price row));
    ("sl", JFloat (sl_price row));
    ("tp1", JFloat (tp1 row));
    ("tp2", JFloat (tp2 row));
    ("rr", JFloat (rr row));
    ("short_prob", JFloat (short_prob row));
    ("short_conf", JFloat (short_conf row));
    ("candidate_pct", JFloat (candidate_pct row));
    ("gate0_passed", JBool (gate0_passed row));
    ("gate1_passed", JBool (gate1_passed row));
    ("gate2_passed", JBool (gate2_passed row));
    ("gate3_passed", JBool (gate3_passed row));
    ("grade", JStr (grade row)) ].

(** ** Ranking *)

(** The [status_priority] dictionary of [write]. *)
Definition status_priority : gmap string Z :=
  list_to_map [ ("ВХОД", 0%Z); ("Готовность", 1%Z); ("Интерес", 2%Z);
                ("Наблюдение", 3%Z); ("", 4%Z) ].

(** [status_priority.get(s, 99)] *)
Definition priority_of (s : string) : Z :=
  default 99%Z (status_priority !! s).

(** The sort key [(status_priority.get(x.get("status", ""), 99),
    -x.get("score", 0))].  [_row_to_dict] always stores a string under
    "status" and a float under "score"; the other shapes are not produced
    by [write]. *)
Definition item_priority (x : Dict) : Z :=
  match dict_get "status" x with
  | None => priority_of ""
  | Some (JStr s) => priority_of s
  | Some _ => 99%Z
  end.

(** [x.get("score", 0)] *)
Definition item_score (x : Dict) : Q :=
  match dict_get "score" x with
  | Some (JFloat q) => q
  | Some (JInt n) => inject_Z n
  | _ => 0
  end.

Definition item_neg_score (x : Dict) : Q := - item_score x.

(** [key(x) < key(y)] on the key tuples: the first components decide
    unless they are equal. *)
Definition key_lt (x y : Dict) : bool :=
  (item_priority x <? item_priority y)%Z
  || ((item_priority x =? item_priority y)%Z
      && Py.ltb (item_neg_score x) (item_neg_score y)).

(** The items of a snapshot: the dictionaries of the valid rows in the
    iteration order of [rows], sorted by the key, cut to [top_n]. *)
Definition collect_items (rows : list (string * CoinRow)) : list Dict :=
  map (fun kv => row_to_dict (snd kv))
      (List.filter (fun kv => valid (snd kv)) rows).

Definition ranked_items (rows : list (string * CoinRow)) (top_n : Z)
    : list Dict :=
  Py.slice (Py.sort key_lt (collect_items rows)) None (Some top_n).

(** [x] ranks before or level with [y]: a smaller status priority, or
    the same priority and a score at least as high. *)
Definition ranks_not_after (x y : Dict) : Prop :=
  (item_priority x < item_priority y)%Z
  \/ (item_priority x = item_priority y /\ item_score y <= item_score x).

(** Equal status priority and equal score. *)
Definition same_rank (x y : Dict) : bool :=
  (item_priority x =? item_priority y)%Z
  && Py.eqb (item_score x) (item_score y).

(** [x["symbol"]] *)
Definition item_symbol (x : Dict) : string :=
  match dict_get "symbol" x with
  | Some (JStr s) => s
  | _ => ""
  end.

(** Whether every two items of equal rank stand in the lexical order of
    their symbols. *)
Fixpoint ties_by_symbol (l : list Dict) : bool :=
  match l with
  | [] => true
  | x :: t =>
      forallb (fun y => implb (same_rank x y)
                          (String.leb (item_symbol x) (item_symbol y))) t
      && ties_by_symbol t
  end.

(** The payload dictionary of [write]. *)
Definition payload (ts : Z) (strategy_name : string) (items : list Dict)
    : JValue :=
  JDict [ ("ts", JInt ts);
          ("bridge_version", JStr "2.0");
          ("strategy", JStr strategy_name);
          ("top_n", JInt (Py.len items));
          ("items", JList (map JDict items)) ].

(** The field names of a parsed or written payload. *)
Definition payload_fields (v : JValue) : list string :=
  match v with
  | JDict d => dict_keys d
  | _ => []
  end.

(** [v.get(k)] on a payload. *)
Definition payload_get (k : string) (v : JValue) : option JValue :=
  match v with
  | JDict d => dict_get k d
  | _ => None
  end.

(** ** Files *)

Definition BRIDGE_FILENAME : string := "bridge_snapshot.json".

(** [os.path.join(dir, name)] *)
Definition path_join (dir name : string) : string :=
  (dir ++ "/" ++ name)%string.

Section Exchange.

(** The text [json.dump] writes and [json.load] parses.  [json_load]
    answers [None] where Python raises. *)
Context {FileData : Type}.
Variable json_dump : JValue -> FileData.
Variable json_load : FileData -> option JValue.

Record File : Type := mkFile {
  file_data : FileData;
  st_mtime_ns : Z
}.

(** The operating system as the bridge sees it: the files by path, the
    clock as [time.time()] and as nanoseconds, and whether file
    operations succeed ([io_ok = false]: every one raises [OSError]). *)
Record Sys : Type := mkSys {
  files : gmap string File;
  time_time : Q;
  time_ns : Z;
  io_ok : bool
}.

Definition set_files (fs : gmap string File) (sys : Sys) : Sys :=
  mkSys fs (time_time sys) (time_ns sys) (io_ok sys).

(** [_atomic_write]: write the temporary file, [os.replace] it over the
    bridge path, then [os.utime] the bridge path. *)
Definition atomic_write (bridge_path : string) (p : JValue) (sys : Sys)
    : option Sys :=
  if negb (io_ok sys) then None
  else
    let tmp_path := (bridge_path ++ ".tmp")%string in
    let fs := <[tmp_path := mkFile (json_dump p) (time_ns sys)]>
                (files sys) in
    match fs !! tmp_path with
    | None => None
    | Some f =>
        let fs := <[bridge_path := f]> (delete tmp_path fs) in
        let fs := <[bridge_path := mkFile (file_data f) (time_ns sys)]> fs in
        Some (set_files fs sys)
    end.

(** [BridgeWriter.write]: the new system state and the returned flag. *)
Definition write (bridge_dir : string) (rows : list (string * CoinRow))
    (top_n : Z) (strategy_name : string) (sys : Sys) : Sys * bool :=
  let bridge_path := path_join bridge_dir BRIDGE_FILENAME in
  if negb (io_ok sys) then (sys, false)
  else
    let items := ranked_items rows top_n in
    let p := payload (Py.int (time_time sys)) strategy_name items in
    match atomic_write bridge_path p sys with
    | Some sys' => (sys', true)
    | None => (sys, false)
    end.

(** [BridgeReader]: its one mutable attribute. *)
Record Reader : Type := mkReader { last_mtime_ns : Z }.

(** [BridgeReader.has_update] *)
Definition has_update (bridge_dir : string) (rd : Reader) (sys : Sys)
    : bool :=
  if negb (io_ok sys) then false
  else match files sys !! path_join bridge_dir BRIDGE_FILENAME with
       | None => false
       | Some f => (last_mtime_ns rd <? st_mtime_ns f)%Z
       end.

(** [BridgeReader.read]: the parsed dictionary or [None], and the
    reader afterwards. *)
Definition read (bridge_dir : string) (rd : Reader) (sys : Sys)
    : option JValue * Reader :=
  if negb (io_ok sys) then (None, rd)
  else match files sys !! path_join bridge_dir BRIDGE_FILENAME with
       | None => (None, rd)
       | Some f =>
           let rd := mkReader (st_mtime_ns f) in
           (json_load (file_data f), rd)
       end.

(** ** Reading items *)

(** [if data:] on a parsed JSON value. *)
Definition json_truthy (v : JValue) : bool :=
  match v with
  | JInt n => negb (n =? 0)%Z
  | JFloat x => Py.truthy x
  | JStr s => negb (String.eqb s "")
  | JBool b => b
  | JList l => negb (Py.is_empty l)
  | JDict d => negb (Py.is_empty d)
  end.

(** [BridgeReader.get_items].  [None] as the first component: an
    exception leaves the method (the parsed value is not a dictionary
    and has no [get]). *)
Definition get_items (bridge_dir : string) (rd : Reader) (sys : Sys)
    : option JValue * Reader :=
  let '(data, rd) := read bridge_dir rd sys in
  match data with
  | Some data =>
      if json_truthy data then
        match data with
        | JDict d => (Some (default (JList []) (dict_get "items" d)), rd)
        | _ => (None, rd)
        end
      else (Some (JList []), rd)
  | None => (Some (JList []), rd)
  end.

(** [x.get("status") in statuses] for a dictionary [x]. *)
Definition has_status (statuses : list string) (x : Dict) : bool :=
  match dict_get "status" x with
  | Some (JStr s) => existsb (String.eqb s) statuses
  | _ => false
  end.

(** The comprehension of [get_candidates] over a list: [None] when an
    element is not a dictionary. *)
Fixpoint select_candidates (statuses : list string) (items : list JValue)
    : option (list JValue) :=
  match items with
  | [] => Some []
  | JDict x :: rest =>
      match select_candidates statuses rest with
      | Some l => Some (if has_status statuses x then JDict x :: l else l)
      | None => None
      end
  | _ :: _ => None
  end.

(** [BridgeReader.get_candidates].  An empty string or dictionary is
    iterated without a step; a number or a truth value cannot be
    iterated. *)
Definition get_candidates (bridge_dir : string) (statuses : list string)
    (rd : Reader) (sys : Sys) : option (list JValue) * Reader :=
  let '(items, rd) := get_items bridge_dir rd sys in
  match items with
  | Some (JList l) => (select_candidates statuses l, rd)
  | Some (JDict []) => (Some [], rd)
  | Some (JStr EmptyString) => (Some [], rd)
  | _ => (None, rd)
  end.

(** The default of [statuses]. *)
Definition candidate_statuses : list string :=
  ["Интерес"; "Готовность"; "ВХОД"].

End Exchange.

End Bridge.

(* ================================================================== *)
(** * Concrete inputs *)
(* ================================================================== *)

Module Fixtures.

Import Gates.
Local Open Scope Q_scope.

(** The default parameters with chosen enabled flags and minimum
    risk-reward. *)
Definition params_with (g0 g1 g2 g3 : bool) (rr : Q) : GateParams :=
  mkGateParams 0.5 5.0 g0 1.5 3 0.3 2 g1 8 14 10 30.0 15.0 2 0.1 g2
    1.3 12 0.0 2 g3 8.0 85.0 2.0 0.0 10.0 0.5 0.3 0.5 1.0 true rr
    2 15 "DEFAULT" 1 0.0 0.0 0.

Definition world_at (t : Q) : World := mkWorld t (fun _ => default_params).

(** The result of a call that returned. *)
Definition returned (m : Py.result GatesResult) : GatesResult :=
  match m with
  | Py.Ok r => r
  | Py.Raise _ => new_result 0 "" 0
  end.

(** Ten candles ranging in 100..100.2, a close below the range low, and a
    last candle that stays below it. *)
Definition range_candle : Candle := mkCandle 0 100.1 100.2 100 100.1 10 1000.
Definition breakdown_candle : Candle := mkCandle 0 100 100.1 99.5 99.8 30 3000.
Definition retest_candle : Candle := mkCandle 0 99.8 100.0 99.5 99.7 30 3000.
Definition breakdown_candles : list Candle :=
  repeat range_candle 10 ++ [breakdown_candle; retest_candle].

(** [check_all_gates] on [breakdown_candles] at a given current price,
    with funding 0.01, no momentum and the default parameters. *)
Definition breakdown_run (t current_price : Q) : Py.result GatesResult :=
  check_all_gates (world_at t) "XUSDT" breakdown_candles current_price
    5 90 1 0.01 90 0 0 0 0 None.

(** The same with an explicit parameter set and chosen context and
    confidence inputs. *)
Definition breakdown_run_with (p : GateParams)
    (current_price btc_trend_1h momentum_10m funding_rate : Q)
    : Py.result GatesResult :=
  check_all_gates (world_at 0) "XUSDT" breakdown_candles current_price
    5 90 0 funding_rate 90 btc_trend_1h 5 momentum_10m 0 (Some p).

(** A V-recovery: ten candles ranging in 100..101.2, a close at 99 below
    the range low, and a last candle that closes back at 100.5. *)
Definition top_candle : Candle := mkCandle 0 101 101.2 100 101 10 1000.
Definition dip_candle : Candle := mkCandle 0 101 101.0 98.9 99 30 3000.
Definition recovery_candle : Candle := mkCandle 0 99 101.1 99 100.5 30 3000.
Definition v_recovery_candles_5m : list Candle :=
  repeat top_candle 10 ++ [dip_candle; recovery_candle].

Definition v_recovery_run (p : GateParams) (current_price : Q)
    : Py.result GatesResult :=
  check_all_gates (world_at 0) "XUSDT" v_recovery_candles_5m current_price
    12 85 1 0.01 90 0 0 0 0 (Some p).

(** A setup Gate 1 rejects: the range high is 101, far above the last
    highs, and only the closes decline. *)
Definition wide_candle : Candle := mkCandle 0 100.1 101 100 100.1 10 1000.
Definition no_setup_candles : list Candle :=
  repeat wide_candle 10 ++ [breakdown_candle; retest_candle].

Definition no_setup_run (p : GateParams) (current_price : Q)
    : Py.result GatesResult :=
  check_all_gates (world_at 0) "XUSDT" no_setup_candles current_price
    5 90 1 0.01 90 0 0 0 0 (Some p).

(** A row with a symbol, a status and a score. *)
Definition row_of (sym st : string) (sc : Q) : Types.CoinRow :=
  Types.mkCoinRow sym 0 0 0 0 0 0 0 0 0 0 0 0 0 0 0 0 0 0 0 0 0 0 0 0 0 0 0
    0 st "" "" sc false false false false "" 0 "" true 0 0.

(** Two rows of equal status and score, stored with "BUSDT" first. *)
Definition tie_rows : list (string * Types.CoinRow) :=
  [ ("BUSDT", row_of "BUSDT" "Интерес" 50);
    ("AUSDT", row_of "AUSDT" "Интерес" 50) ].

(** A store with every status, in no particular order. *)
Definition mixed_rows : list (string * Types.CoinRow) :=
  [ ("EUSDT", row_of "EUSDT" "" 70);
    ("BUSDT", row_of "BUSDT" "Интерес" 50);
    ("DUSDT", row_of "DUSDT" "Наблюдение" 99);
    ("AUSDT", row_of "AUSDT" "Интерес" 60);
    ("CUSDT", row_of "CUSDT" "ВХОД" 10);
    ("FUSDT", row_of "FUSDT" "Готовность" 20) ].

(** A file system that stores the JSON value itself. *)
Definition sys_at (t : Q) : Bridge.Sys (FileData := Bridge.JValue) :=
  Bridge.mkSys ∅ t 0 true.

(** A candle with a given volume. *)
Definition candle_with_volume (v : Q) : Candle := mkCandle 0 1 1 1 1 v 0.

(** A square root good to six decimals, for runs of the z-score. *)
Definition approx_sqrt (x : Q) : Q :=
  Z.sqrt (Qnum x * Z.pos (Qden x) * 1000000000000)
  # (Qden x * 1000000).

(** Arithmetic without rounding and without a largest float. *)
Definition exact_ops : EngineV2.FloatOps :=
  EngineV2.mkFloatOps Py.sum Qminus Qdiv (fun x => x ^ 2)
    (fun _ => false) approx_sqrt.

(** The largest double, [sys.float_info.max]. *)
Definition max_double : Q := inject_Z (2 ^ 1024 - 2 ^ 971).

(** Arithmetic without rounding in the range of a double: a square
    beyond the largest double overflows. *)
Definition bounded_ops : EngineV2.FloatOps :=
  EngineV2.mkFloatOps Py.sum Qminus Qdiv (fun x => x ^ 2)
    (fun x => Py.gtb (x ^ 2) max_double) approx_sqrt.

(** Arithmetic whose sum is off by [err], as a rounded sum can be. *)
Definition drifting_ops (err : Q) : EngineV2.FloatOps :=
  EngineV2.mkFloatOps (fun l => Py.sum l + err) Qminus Qdiv
    (fun x => x ^ 2) (fun _ => false) approx_sqrt.


(** Five candles that swing: local highs at 12 and 13, a local low
    at 8. *)
Definition swing_candles : list Candle :=
  [ mkCandle 0 9.5 10 9 9.5 10 100;
    mkCandle 0 11 12 10 11 10 100;
    mkCandle 0 10 11 8 10 10 100;
    mkCandle 0 12 13 11 12 10 100;
    mkCandle 0 11 12 10 11 10 100 ].

(** A configuration of the scoring engine: the selection thresholds of
    the fallback in [engine_v2], and values for the constants the
    sources leave to [config_v2]. *)
Definition sample_config : EngineV2.ConfigV2 :=
  EngineV2.mkConfigV2 70 3.0 3.0 2.0 2.0 3.0 5 0.0 (-2.0) (-1.0) 25 15
    5.0 3.0 2.0 10 3.0 2.0 5 0.6 5 4 3 2 1 70 50 30 300 30 10.

(** Metrics of a coin near its high with a turnover of [turnover]
    million and a divergence of [div] to BTC. *)
Definition sample_metrics (turnover div : Q) : EngineV2.ScanMetrics :=
  EngineV2.mkScanMetrics 100 101 90 10 95 1 0.001 turnover 5 5 5 false div
    0 (-0.5) 0 0.8 2.5 0 0 0 EmptyString false.

(** Parameters with Gate 0 disabled and an exhaustion window of no
    candles. *)
Definition no_window_params : GateParams :=
  mkGateParams 0.5 5.0 false 1.5 0 0.3 2 true 8 14 10 30.0 15.0 2 0.1 true
    1.3 12 0.0 2 true 8.0 85.0 2.0 0.0 10.0 0.5 0.3 0.5 1.0 true 1.5
    2 15 "DEFAULT" 1 0.0 0.0 0.

End Fixtures.

(* ================================================================== *)
(** * Facts about the Python primitives *)
(* ================================================================== *)

Module PyFacts.

Local Open Scope Q_scope.

Lemma ltb_lt x y : Py.ltb x y = true <-> x < y.
Proof.
  unfold Py.ltb. rewrite Qlt_alt. destruct (x ?= y); split; congruence.
Qed.

Lemma leb_le x y : Py.leb x y = true <-> x <= y.
Proof.
  unfold Py.leb. rewrite Qle_alt. destruct (x ?= y); split; congruence.
Qed.

Lemma ltb_ge x y : Py.ltb x y = false <-> y <= x.
Proof.
  rewrite <- not_true_iff_false, ltb_lt.
  split; [apply Qnot_lt_le | apply Qle_not_lt].
Qed.

Lemma leb_gt x y : Py.leb x y = false <-> y < x.
Proof.
  rewrite <- not_true_iff_false, leb_le.
  split; [apply Qnot_le_lt | apply Qlt_not_le].
Qed.

Lemma gtb_lt x y : Py.gtb x y = true <-> y < x.
Proof. apply ltb_lt. Qed.

Lemma eqb_eq x y : Py.eqb x y = true <-> x == y.
Proof. apply Qeq_bool_iff. Qed.

Lemma eqb_neq x y : Py.eqb x y = false <-> ~ x == y.
Proof. rewrite <- not_true_iff_false, eqb_eq. reflexivity. Qed.

(** [l[-1]] is the last element. *)
Lemma index_last_app {A} (l : list A) (x : A) :
  Py.index (l ++ [x]) (-1) = Py.Ok x.
Proof.
  unfold Py.index, Py.len. rewrite length_app. cbn [length].
  replace (-1 <? 0)%Z with true by reflexivity.
  destruct (_ || _)%Z eqn:E.
  - apply orb_true_iff in E as [E | E];
      [apply Z.ltb_lt in E | apply Z.leb_le in E]; lia.
  - replace (Z.to_nat (-1 + Z.of_nat (length l + 1))) with (length l) by lia.
    rewrite nth_error_app2 by lia. rewrite Nat.sub_diag. reflexivity.
Qed.

Lemma index_last_inv {A} (l : list A) (x : A) :
  Py.index l (-1) = Py.Ok x -> exists l', l = l' ++ [x].
Proof.
  destruct l as [|a l] using rev_ind.
  - discriminate.
  - rewrite index_last_app. intros [= ->]. eauto.
Qed.

(** A slice without upper bound is a suffix. *)
Lemma slice_from_suffix {A} (l : list A) (i : Z) :
  exists pre, l = pre ++ Py.slice l (Some i) None.
Proof.
  unfold Py.slice. set (a := Py.slice_bound (Py.len l) i).
  exists (firstn (Z.to_nat a) l).
  rewrite (firstn_all2 (skipn (Z.to_nat a) l)).
  - symmetry. apply firstn_skipn.
  - rewrite length_skipn. unfold Py.len. lia.
Qed.

(** The last element of a suffix is the last element of the list. *)
Lemma index_last_slice_from {A} (l : list A) (i : Z) (x : A) :
  Py.index (Py.slice l (Some i) None) (-1) = Py.Ok x ->
  Py.index l (-1) = Py.Ok x.
Proof.
  intros H. apply index_last_inv in H as [s Hs].
  destruct (slice_from_suffix l i) as [pre Hl].
  rewrite Hl, Hs, app_assoc. apply index_last_app.
Qed.

(** ** The primitives on small inputs, as Python answers *)

Example slice_negative_bounds :
  Py.slice [1; 2; 3; 4; 5]%Z (Some (-3)%Z) (Some (-1)%Z) = [3; 4]%Z.
Proof. reflexivity. Qed.

(** [l[-0:]] is the whole list. *)
Example slice_minus_zero :
  Py.slice [1; 2; 3]%Z (Some (- 0)%Z) None = [1; 2; 3]%Z.
Proof. reflexivity. Qed.

Example slice_clipped :
  Py.slice [1; 2; 3]%Z (Some (-7)%Z) (Some 2%Z) = [1; 2]%Z
  /\ Py.slice [1; 2; 3]%Z (Some 2%Z) (Some 1%Z) = [].
Proof. split; reflexivity. Qed.

Example index_bounds :
  Py.index [1; 2; 3]%Z (-3) = Py.Ok 1%Z
  /\ Py.index [1; 2; 3]%Z (-4) = Py.Raise Py.IndexError
  /\ Py.index [1; 2; 3]%Z 3 = Py.Raise Py.IndexError.
Proof. repeat split; reflexivity. Qed.

Example sorted_floats : Py.sorted [3; 1; 2; 0.5] = [0.5; 1; 2; 3].
Proof. reflexivity. Qed.

Example int_truncates : Py.int 3.7 = 3%Z /\ Py.int (-3.7) = (-3)%Z.
Proof. split; reflexivity. Qed.

Example max_keeps_first :
  Py.max_list [1; 2 # 2; 0.5] = Py.Ok 1
  /\ Py.max_list [] = Py.Raise Py.ValueError.
Proof. split; reflexivity. Qed.

(** ** When the primitives return *)

Lemma max_list_ok l : l <> [] -> exists x, Py.max_list l = Py.Ok x.
Proof. destruct l; [congruence|]. intros _. cbn. eauto. Qed.

Lemma min_list_ok l : l <> [] -> exists x, Py.min_list l = Py.Ok x.
Proof. destruct l; [congruence|]. intros _. cbn. eauto. Qed.

Lemma index_ok {A} (l : list A) (i : Z) :
  (- Py.len l <= i < Py.len l)%Z -> exists x, Py.index l i = Py.Ok x.
Proof.
  intros H. unfold Py.index. unfold Py.len in *.
  destruct (i <? 0)%Z eqn:E;
    [apply Z.ltb_lt in E | apply Z.ltb_ge in E].
  - set (n := Z.of_nat (length l)) in *.
    replace ((i + n <? 0) || (n <=? i + n))%Z with false.
    2:{ symmetry. apply orb_false_iff.
        split; [apply Z.ltb_ge | apply Z.leb_gt]; lia. }
    destruct (nth_error l _) eqn:N; [eauto|].
    apply nth_error_None in N. lia.
  - replace ((i <? 0) || (Z.of_nat (length l) <=? i))%Z with false.
    2:{ symmetry. apply orb_false_iff.
        split; [apply Z.ltb_ge | apply Z.leb_gt]; lia. }
    destruct (nth_error l _) eqn:N; [eauto|].
    apply nth_error_None in N. lia.
Qed.

Lemma slice_suffix_length {A} (l : list A) (n : Z) :
  (1 <= n <= Py.len l)%Z ->
  length (Py.slice l (Some (- n)%Z) None) = Z.to_nat n.
Proof.
  intros H. unfold Py.slice, Py.slice_bound. unfold Py.len in *.
  replace (- n <? 0)%Z with true by (symmetry; apply Z.ltb_lt; lia).
  rewrite length_firstn, length_skipn. lia.
Qed.

Lemma slice_window_length {A} (l : list A) (n : Z) :
  (1 <= n)%Z -> (n + 2 <= Py.len l)%Z ->
  length (Py.slice l (Some (- (n + 2))%Z) (Some (-2)%Z)) = Z.to_nat n.
Proof.
  intros H1 H2. unfold Py.slice, Py.slice_bound. unfold Py.len in *.
  replace (- (n + 2) <? 0)%Z with true by (symmetry; apply Z.ltb_lt; lia).
  replace (-2 <? 0)%Z with true by reflexivity.
  rewrite length_firstn, length_skipn. lia.
Qed.

Lemma nonempty_of_length {A} (l : list A) (n : nat) :
  length l = n -> (0 < n)%nat -> l <> [].
Proof. intros H Hn ->. cbn in H. lia. Qed.

End PyFacts.

(* ================================================================== *)
(** * The stable sort *)
(* ================================================================== *)

Module SortFacts.

Section Sort.

Context {A : Type} (lt : A -> A -> bool).

Local Abbreviation not_after := (Py.not_after lt).
Local Abbreviation tied := (Py.tied lt).
Local Abbreviation asymmetric := (Py.asymmetric lt).
Local Abbreviation negatively_transitive := (Py.negatively_transitive lt).

Lemma insert_perm x l : Permutation (Py.insert lt x l) (x :: l).
Proof.
  induction l as [|y t IH]; cbn [Py.insert]; [reflexivity|].
  destruct (lt y x); [|reflexivity].
  rewrite IH. apply perm_swap.
Qed.

Lemma sort_perm l : Permutation (Py.sort lt l) l.
Proof.
  induction l as [|x t IH]; cbn [Py.sort fold_right]; [reflexivity|].
  fold (Py.sort lt t). rewrite insert_perm. by constructor.
Qed.

Lemma insert_sorted x l :
  asymmetric -> negatively_transitive ->
  StronglySorted not_after l -> StronglySorted not_after (Py.insert lt x l).
Proof.
  intros Hasym Htrans. induction 1 as [|y t Hs IH Hy]; cbn [Py.insert].
  - repeat constructor.
  - destruct (lt y x) eqn:E.
    + constructor; [exact IH|].
      eapply Permutation_Forall; [symmetry; apply insert_perm|].
      constructor; [|exact Hy]. unfold Py.not_after. by apply Hasym.
    + constructor; [by constructor|].
      constructor; [exact E|].
      eapply Forall_impl; [exact Hy|].
      intros z Hz. unfold Py.not_after in *. by eapply Htrans.
Qed.

Lemma sort_sorted l :
  asymmetric -> negatively_transitive ->
  StronglySorted not_after (Py.sort lt l).
Proof.
  intros Hasym Htrans.
  induction l as [|x t IH]; cbn [Py.sort fold_right]; [constructor|].
  by apply insert_sorted.
Qed.

(** Insertion puts [x] before everything tied with it. *)
Lemma insert_stable a x l :
  negatively_transitive ->
  List.filter (tied a) (Py.insert lt x l)
  = List.filter (tied a) (x :: l).
Proof.
  intros Htrans. induction l as [|y t IH]; cbn [Py.insert]; [reflexivity|].
  destruct (lt y x) eqn:E; [|reflexivity].
  cbn [List.filter] in *. rewrite IH.
  destruct (tied a x) eqn:Tx; [|reflexivity].
  destruct (tied a y) eqn:Ty; [|reflexivity].
  exfalso. unfold Py.tied in Tx, Ty.
  apply andb_true_iff in Tx as [Tx1 Tx2], Ty as [Ty1 Ty2].
  apply negb_true_iff in Tx1, Tx2, Ty1, Ty2.
  rewrite (Htrans y a x Ty2 Tx1) in E. discriminate.
Qed.

(** The sort is stable: the elements tied with [a] keep their order. *)
Lemma sort_stable a l :
  negatively_transitive ->
  List.filter (tied a) (Py.sort lt l) = List.filter (tied a) l.
Proof.
  intros Htrans.
  induction l as [|x t IH]; cbn [Py.sort fold_right]; [reflexivity|].
  fold (Py.sort lt t). rewrite insert_stable by exact Htrans.
  cbn [List.filter]. rewrite IH. reflexivity.
Qed.

End Sort.

Lemma Forall_firstn {A} (P : A -> Prop) (n : nat) (l : list A) :
  Forall P l -> Forall P (firstn n l).
Proof.
  intros H. revert n.
  induction H as [|x t Hx Ht IH]; intros [|n]; cbn [firstn];
    constructor; auto.
Qed.

Lemma StronglySorted_firstn {A} (R : A -> A -> Prop) (n : nat) (l : list A) :
  StronglySorted R l -> StronglySorted R (firstn n l).
Proof.
  intros H. revert n.
  induction H as [|x t Hs IH Hx]; intros [|n]; cbn [firstn];
    try constructor.
  - apply IH.
  - by apply Forall_firstn.
Qed.

(** [l[:n]] is a prefix. *)
Lemma slice_to_prefix {A} (l : list A) (n : Z) :
  Py.slice l None (Some n)
  = firstn (Z.to_nat (Py.slice_bound (Py.len l) n)) l.
Proof.
  unfold Py.slice. cbn [skipn Z.to_nat]. by rewrite Z.sub_0_r.
Qed.

End SortFacts.

(* ================================================================== *)
(** * The gate pipeline *)
(* ================================================================== *)

Module GatesFacts.

Import Gates Fixtures.
Local Open Scope Q_scope.

(** Reduction of the attribute reads and writes on a result. *)
Ltac result_fields :=
  cbn [gate0 gate1 gate2 gate3 all_passed status signal_text res_timestamp
       set_gate0 set_gate1 set_gate2 set_gate3 set_all_passed set_status
       set_levels set_timestamp new_result passed default_failed
       negb mbind Py.result_bind fmap Py.result_fmap] in *.

(** One step through the body of [check_all_gates]. *)
Ltac pipeline_step :=
  cbn [gate0 gate1 gate2 gate3 set_gate0 set_gate1 set_gate2 set_gate3
       negb mbind Py.result_bind].

Section Paths.

Variables (w : World) (symbol : string) (candles_5m : list Candle).
Variables (current_price change_24h range_position dist_to_high
           funding_rate low_24h btc_trend_1h btc_change_24h momentum_10m
           prev_dist_to_high : Q).
Variable params : option GateParams.

Local Abbreviation call :=
  (check_all_gates w symbol candles_5m current_price change_24h
     range_position dist_to_high funding_rate low_24h btc_trend_1h
     btc_change_24h momentum_10m prev_dist_to_high params).
Local Abbreviation Run_here :=
  (Run w symbol candles_5m current_price change_24h range_position
     dist_to_high funding_rate low_24h btc_trend_1h btc_change_24h
     momentum_10m prev_dist_to_high params).

(** Every rule of [Run] is a run of the function. *)
Lemma run_sound path r : Run_here path r -> call = Py.Ok r.
Proof.
  intros H. unfold check_all_gates. cbn zeta.
  destruct H; pipeline_step;
    repeat match goal with
           | H : _ = _ |- _ => rewrite H; clear H; pipeline_step
           end; try reflexivity.
  - destruct (_ || _); reflexivity.
  - destruct (_ && _); reflexivity.
  - destruct (Py.ltb _ _); reflexivity.
Qed.

(** Every returned result comes from one rule. *)
Lemma run_complete r : call = Py.Ok r -> exists path, Run_here path r.
Proof.
  unfold check_all_gates. cbn zeta.
  set (p := resolve_params w symbol params).
  set (r0 := new_result _ _ _).
  set (g0 := check_gate0 _ _ _ p).
  cbn [gate0 set_gate0].
  destruct (passed g0) eqn:E0; cbn [negb].
  2:{ intros [= <-]. eexists. by apply run_gate0. }
  destruct (check_gate1 candles_5m p) as [g1|] eqn:E1;
    cbn [mbind Py.result_bind]; [|discriminate].
  cbn [gate1 set_gate1]. destruct (passed g1) eqn:P1; cbn [negb].
  2:{ intros H. exists AtGate1.
      epose proof (run_gate1 _ _ _ current_price _ range_position
                     dist_to_high funding_rate low_24h _ _ momentum_10m
                     prev_dist_to_high _ g1 E0 E1 P1) as R.
      cbn zeta in R. fold p r0 g0 in R.
      destruct (_ || _); injection H as <-; exact R. }
  destruct (check_gate2 candles_5m change_24h p) as [[[g2 rl] rh]|] eqn:E2;
    cbn [mbind Py.result_bind]; [|discriminate].
  cbn [gate2 set_gate2]. destruct (passed g2) eqn:P2; cbn [negb].
  2:{ intros H. exists AtGate2.
      epose proof (run_gate2 _ _ _ current_price _ range_position
                     dist_to_high funding_rate low_24h _ _ momentum_10m
                     prev_dist_to_high _ g1 g2 rl rh E0 E1 P1 E2 P2) as R.
      cbn zeta in R. fold p r0 g0 in R.
      destruct (_ && _); injection H as <-; exact R. }
  destruct (check_v_recovery candles_5m rl p) as [[|]|] eqn:EV;
    cbn [mbind Py.result_bind]; [| |discriminate].
  { intros [= <-]. exists AtVeto. by eapply run_veto. }
  destruct (check_gate3 candles_5m momentum_10m funding_rate dist_to_high
              prev_dist_to_high p) as [g3|] eqn:E3;
    cbn [mbind Py.result_bind]; [|discriminate].
  cbn [gate3 set_gate3]. destruct (passed g3) eqn:P3; cbn [negb].
  2:{ intros [= <-]. exists AtGate3. by eapply run_gate3. }
  destruct (calculate_trade_levels current_price rl rh low_24h p)
    as [[[[sl tp1] tp2] tp3] rr] eqn:ET.
  intros H. exists (if Py.ltb rr (min_rr p) then AtRiskReward else AtEntry).
  epose proof (run_all _ _ _ _ _ range_position _ _ _ _ _ _ _ _
                 g1 g2 rl rh g3 sl tp1 tp2 tp3 rr
                 E0 E1 P1 E2 P2 EV E3 P3 ET) as R.
  cbn zeta in R. fold p r0 g0 in R.
  destruct (Py.ltb rr (min_rr p)); injection H as <-; exact R.
Qed.

End Paths.

(** [params_with] with every gate enabled and 1.5 is [GateParams()]. *)
Lemma params_with_default :
  params_with true true true true 1.5 = default_params.
Proof. reflexivity. Qed.

(** ** No exception escapes

    With window lengths of at least one candle each gate returns. *)
Lemma check_gate1_returns cs p :
  (1 <= exhaustion_candles p)%Z -> exists g, check_gate1 cs p = Py.Ok g.
Proof.
  intros He. unfold check_gate1.
  destruct (negb _); [eauto|].
  destruct (Z.ltb_spec (Py.len cs) (exhaustion_candles p)); [eauto|].
  set (recent := Py.slice cs _ None).
  assert (L : length recent = Z.to_nat (exhaustion_candles p))
    by (apply PyFacts.slice_suffix_length; lia).
  assert (Hh : map high recent <> [])
    by (apply (PyFacts.nonempty_of_length _ (Z.to_nat (exhaustion_candles p)));
        [by rewrite length_map | lia]).
  destruct (PyFacts.max_list_ok _ Hh) as [mx ->].
  destruct (PyFacts.min_list_ok _ Hh) as [mn ->].
  cbn [mbind Py.result_bind].
  destruct (PyFacts.index_ok (map close recent) (-1)) as [cl ->];
    [unfold Py.len; rewrite length_map; lia|].
  destruct (PyFacts.index_ok (map close recent) 0) as [cf ->];
    [unfold Py.len; rewrite length_map; lia|].
  cbn [mbind Py.result_bind]. eauto.
Qed.

Lemma range_window_pos ch p :
  (1 <= range_candles_base p)%Z -> (1 <= range_candles_hot p)%Z ->
  (1 <= range_candles_mid p)%Z -> (1 <= range_window ch p)%Z.
Proof.
  intros. unfold range_window. destruct (Py.gtb _ _); [assumption|].
  destruct (Py.gtb _ _); assumption.
Qed.

Lemma check_gate2_returns cs ch p :
  (1 <= range_window ch p)%Z -> exists g, check_gate2 cs ch p = Py.Ok g.
Proof.
  intros Hn. unfold check_gate2.
  destruct (negb _); [eauto|].
  set (n := range_window ch p) in *.
  destruct (Z.ltb_spec (Py.len cs) (n + 2)); [eauto|].
  set (range_candles := Py.slice cs _ _).
  assert (L : length range_candles = Z.to_nat n)
    by (apply PyFacts.slice_window_length; lia).
  destruct (PyFacts.max_list_ok (map high range_candles)) as [mx ->];
    [apply (PyFacts.nonempty_of_length _ (Z.to_nat n));
     [by rewrite length_map | lia]|].
  destruct (PyFacts.min_list_ok (map low range_candles)) as [mn ->];
    [apply (PyFacts.nonempty_of_length _ (Z.to_nat n));
     [by rewrite length_map | lia]|].
  cbn [mbind Py.result_bind].
  destruct (PyFacts.index_ok cs (-2)) as [c2 ->]; [lia|].
  destruct (PyFacts.index_ok cs (-1)) as [c1 ->]; [lia|].
  cbn [mbind Py.result_bind]. eauto.
Qed.

Lemma check_gate3_returns cs m f d pd p :
  (1 <= volume_lookback p)%Z -> exists g, check_gate3 cs m f d pd p = Py.Ok g.
Proof.
  intros Hv. unfold check_gate3.
  destruct (negb _); [eauto|].
  destruct (Z.leb_spec (volume_lookback p) (Py.len cs)).
  2:{ cbn [mbind Py.result_bind]. eauto. }
  set (volumes := map candle_volume _).
  assert (L : length volumes = Z.to_nat (volume_lookback p)).
  { subst volumes. rewrite length_map. apply PyFacts.slice_suffix_length. lia. }
  assert (Ls : length (Py.sorted volumes) = length volumes).
  { apply Permutation_length, SortFacts.sort_perm. }
  destruct (PyFacts.index_ok (Py.sorted volumes) (Py.len (Py.sorted volumes) / 2))
    as [med ->].
  { unfold Py.len. rewrite Ls, L. split.
    - assert (0 <= Z.of_nat (Z.to_nat (volume_lookback p)) / 2)%Z
        by (apply Z.div_pos; lia). lia.
    - apply Z.div_lt; lia. }
  cbn [mbind Py.result_bind].
  destruct (PyFacts.index_ok volumes (-1)) as [lv Elv];
    [unfold Py.len; rewrite L; lia|].
  assert (match volumes with
          | [] => Py.Ok 0
          | _ :: _ => Py.index volumes (-1)
          end = Py.Ok lv) as ->.
  { destruct volumes; [cbn in L; lia | exact Elv]. }
  cbn [mbind Py.result_bind].
  destruct (Py.geb _ _); cbn [mbind Py.result_bind]; eauto.
Qed.

Lemma check_v_recovery_returns cs rl p :
  (0 <= v_recovery_candles p)%Z -> exists b, check_v_recovery cs rl p = Py.Ok b.
Proof.
  intros Hv. unfold check_v_recovery.
  destruct (Z.ltb_spec (Py.len cs) (v_recovery_candles p + 1)); [eauto|].
  set (recent := Py.slice cs _ None).
  assert (L : length recent = Z.to_nat (v_recovery_candles p + 1))
    by (apply PyFacts.slice_suffix_length; lia).
  destruct (PyFacts.index_ok recent (-1)) as [c ->]; [unfold Py.len; lia|].
  cbn [mbind Py.result_bind]. eauto.
Qed.

(** With such parameters [check_all_gates] returns a result on every
    input: no exception escapes. *)
Lemma check_all_gates_returns
    (w : World) (symbol : string) (candles_5m : list Candle)
    (current_price change_24h range_position dist_to_high funding_rate
     low_24h btc_trend_1h btc_change_24h momentum_10m prev_dist_to_high : Q)
    (params : option GateParams) :
  well_formed_windows (resolve_params w symbol params) ->
  exists r,
    check_all_gates w symbol candles_5m current_price change_24h
      range_position dist_to_high funding_rate low_24h btc_trend_1h
      btc_change_24h momentum_10m prev_dist_to_high params = Py.Ok r.
Proof.
  intros (He & Hb & Hh & Hm & Hv & Hr).
  unfold check_all_gates. cbn zeta.
  set (p := resolve_params w symbol params) in *.
  cbn [gate0 set_gate0].
  destruct (negb (passed (check_gate0 _ _ _ _))); [eauto|].
  destruct (check_gate1_returns candles_5m p He) as [g1 ->].
  cbn [mbind Py.result_bind gate1 set_gate1].
  destruct (negb (passed g1)); [destruct (_ || _); eauto|].
  destruct (check_gate2_returns candles_5m change_24h p
              (range_window_pos _ _ Hb Hh Hm)) as [[[g2 rl] rh] ->].
  cbn [mbind Py.result_bind gate2 set_gate2].
  destruct (negb (passed g2)); [destruct (_ && _); eauto|].
  destruct (check_v_recovery_returns candles_5m rl p Hr) as [v ->].
  cbn [mbind Py.result_bind].
  destruct v; [eauto|].
  destruct (check_gate3_returns candles_5m momentum_10m funding_rate
              dist_to_high prev_dist_to_high p Hv) as [g3 ->].
  cbn [mbind Py.result_bind gate3 set_gate3].
  destruct (negb (passed g3)); [eauto|].
  destruct (calculate_trade_levels _ _ _ _ _) as [[[[sl tp1] tp2] tp3] rr].
  destruct (Py.ltb _ _); eauto.
Qed.

Lemma risk_reward_eq cs cp ch l p g2 rl rh sl tp1 tp2 tp3 rr :
  check_gate2 cs ch p = Py.Ok (g2, rl, rh) ->
  calculate_trade_levels cp rl rh l p = (sl, tp1, tp2, tp3, rr) ->
  risk_reward cs cp ch l p = Py.Ok rr.
Proof.
  intros E2 ET. unfold risk_reward. rewrite E2.
  cbn [mbind Py.result_bind]. rewrite ET. reflexivity.
Qed.

(** C1.  For every input on which [check_all_gates] returns a result:
    the status is ENTRY exactly when all four gates are reported passed
    and the computed risk-reward ratio is at least [min_rr]; when all four
    gates pass and the ratio is below [min_rr] the status is READINESS;
    in particular a ratio of 1.0 against a minimum of 1.5 gives
    READINESS. *)
Theorem entry_iff_all_gates_and_risk_reward
    (w : World) (symbol : string) (candles_5m : list Candle)
    (current_price change_24h range_position dist_to_high funding_rate
     low_24h btc_trend_1h btc_change_24h momentum_10m prev_dist_to_high : Q)
    (params : option GateParams) (r : GatesResult) :
  check_all_gates w symbol candles_5m current_price change_24h
    range_position dist_to_high funding_rate low_24h btc_trend_1h
    btc_change_24h momentum_10m prev_dist_to_high params = Py.Ok r ->
  let p := resolve_params w symbol params in
  let rr_is (rr : Q) :=
    risk_reward candles_5m current_price change_24h low_24h p = Py.Ok rr in
  (status r = ST_ENTRY <->
     four_gates_passed r = true /\ exists rr, rr_is rr /\ min_rr p <= rr)
  /\ (four_gates_passed r = true ->
      forall rr, rr_is rr -> rr < min_rr p -> status r = ST_READINESS)
  /\ (four_gates_passed r = true ->
      forall rr, rr_is rr -> rr == 1.0 -> min_rr p == 1.5 ->
      status r = ST_READINESS).
Proof.
  intros Hcall p rr_is.
  assert (Hmain :
    (status r = ST_ENTRY <->
       four_gates_passed r = true /\ exists rr, rr_is rr /\ min_rr p <= rr)
    /\ (four_gates_passed r = true ->
        forall rr, rr_is rr -> rr < min_rr p -> status r = ST_READINESS)).
  { apply run_complete in Hcall as [path HR]. subst rr_is p.
    unfold four_gates_passed.
    destruct HR as [E0 | g1 E0 E1 P1 | g1 g2 rl rh E0 E1 P1 E2 P2
                   | g1 g2 rl rh E0 E1 P1 E2 P2 EV
                   | g1 g2 rl rh g3 E0 E1 P1 E2 P2 EV E3 P3
                   | g1 g2 rl rh g3 sl tp1 tp2 tp3 rr E0 E1 P1 E2 P2 EV E3
                       P3 ET];
      cbn zeta.
    - result_fields. rewrite E0. cbn [andb].
      split; [split|]; [discriminate | intros [? _]; discriminate
                       | discriminate].
    - destruct (_ || _); result_fields; rewrite E0, P1; cbn [andb];
        (split; [split|]; [discriminate | intros [? _]; discriminate
                          | discriminate]).
    - destruct (_ && _); result_fields; rewrite E0, P1, P2; cbn [andb];
        (split; [split|]; [discriminate | intros [? _]; discriminate
                          | discriminate]).
    - result_fields. rewrite E0, P1, P2. cbn [andb].
      split; [split|]; [discriminate | intros [? _]; discriminate
                       | discriminate].
    - result_fields. rewrite E0, P1, P2, P3. cbn [andb].
      split; [split|]; [discriminate | intros [? _]; discriminate
                       | discriminate].
    - pose proof (risk_reward_eq _ _ _ _ _ _ _ _ _ _ _ _ _ E2 ET) as Err.
      destruct (Py.ltb rr (min_rr _)) eqn:Elt; result_fields;
        rewrite E0, P1, P2, P3; cbn [andb].
      + apply PyFacts.ltb_lt in Elt.
        split; [split|].
        * discriminate.
        * intros [_ (rr' & Hrr' & Hle)]. rewrite Err in Hrr'.
          injection Hrr' as <-. exfalso. eapply Qlt_not_le; eauto.
        * reflexivity.
      + apply PyFacts.ltb_ge in Elt.
        split; [split|].
        * intros _. split; [reflexivity|]. exists rr. split; assumption.
        * reflexivity.
        * intros _ rr' Hrr' Hlt. rewrite Err in Hrr'.
          injection Hrr' as <-. exfalso. eapply Qlt_not_le; eauto. }
  destruct Hmain as [Hiff Hbelow]. split; [exact Hiff|]. split; [exact Hbelow|].
  intros Hall rr Hrr H1 H15. apply (Hbelow Hall rr Hrr).
  rewrite H1, H15. reflexivity.
Qed.

(** The fixture of C1: all four gates pass on [breakdown_candles], the
    ratio at price 150701/1500 is exactly 1 against the default minimum
    1.5, and the status is READINESS. *)
Lemma entry_iff_all_gates_and_risk_reward_witness :
  let call := breakdown_run 0 (150701 / 1500) in
  call = Py.Ok (returned call)
  /\ four_gates_passed (returned call) = true
  /\ risk_reward breakdown_candles (150701 / 1500) 5 90 default_params
     = Py.Ok (118293750000000000 # 118293750000000000)
  /\ status (returned call) = ST_READINESS.
Proof.
  intros call.
  assert (E : call = Py.Ok (returned call)) by (vm_compute; reflexivity).
  assert (F : four_gates_passed (returned call) = true)
    by (vm_compute; reflexivity).
  assert (R : risk_reward breakdown_candles (150701 / 1500) 5 90
                default_params
              = Py.Ok (118293750000000000 # 118293750000000000))
    by (vm_compute; reflexivity).
  split; [exact E|]. split; [exact F|]. split; [exact R|].
  destruct (entry_iff_all_gates_and_risk_reward _ _ _ _ _ _ _ _ _ _ _ _ _
              _ _ E) as (_ & _ & H).
  apply (H F _ R); reflexivity.
Defined.

(** C2.  Fail-fast: when gate N is the first gate to fail, the call
    returns a result in which every later gate is [GateResult(passed=False)]
    as constructed at the start, and the status is the one the failure
    branch of gate N assigns: none after Gate 0; OBSERVATION or none after
    Gate 1; INTEREST or OBSERVATION after Gate 2; READINESS after
    Gate 3. *)
Theorem fail_fast
    (w : World) (symbol : string) (candles_5m : list Candle)
    (current_price change_24h range_position dist_to_high funding_rate
     low_24h btc_trend_1h btc_change_24h momentum_10m prev_dist_to_high : Q)
    (params : option GateParams) :
  let p := resolve_params w symbol params in
  let call :=
    check_all_gates w symbol candles_5m current_price change_24h
      range_position dist_to_high funding_rate low_24h btc_trend_1h
      btc_change_24h momentum_10m prev_dist_to_high params in
  let g0 := check_gate0 btc_trend_1h change_24h btc_change_24h p in
  (passed g0 = false ->
   exists r, call = Py.Ok r /\ gate0 r = g0
     /\ gate1 r = default_failed /\ gate2 r = default_failed
     /\ gate3 r = default_failed /\ all_passed r = false
     /\ status r = ST_NONE)
  /\ (forall g1,
      passed g0 = true ->
      check_gate1 candles_5m p = Py.Ok g1 -> passed g1 = false ->
      exists r, call = Py.Ok r /\ gate0 r = g0 /\ gate1 r = g1
        /\ gate2 r = default_failed /\ gate3 r = default_failed
        /\ all_passed r = false
        /\ status r = if Py.gtb range_position 70 || Py.gtb change_24h 8
                      then ST_OBSERVATION else ST_NONE)
  /\ (forall g1 g2 rl rh,
      passed g0 = true ->
      check_gate1 candles_5m p = Py.Ok g1 -> passed g1 = true ->
      check_gate2 candles_5m change_24h p = Py.Ok (g2, rl, rh) ->
      passed g2 = false ->
      exists r, call = Py.Ok r /\ gate0 r = g0 /\ gate1 r = g1
        /\ gate2 r = g2 /\ gate3 r = default_failed
        /\ all_passed r = false
        /\ status r = if Py.gtb range_position 80 && Py.gtb change_24h 10
                      then ST_INTEREST else ST_OBSERVATION)
  /\ (forall g1 g2 rl rh g3,
      passed g0 = true ->
      check_gate1 candles_5m p = Py.Ok g1 -> passed g1 = true ->
      check_gate2 candles_5m change_24h p = Py.Ok (g2, rl, rh) ->
      passed g2 = true ->
      check_v_recovery candles_5m rl p = Py.Ok false ->
      check_gate3 candles_5m momentum_10m funding_rate dist_to_high
        prev_dist_to_high p = Py.Ok g3 ->
      passed g3 = false ->
      exists r, call = Py.Ok r /\ gate0 r = g0 /\ gate1 r = g1
        /\ gate2 r = g2 /\ gate3 r = g3 /\ all_passed r = false
        /\ status r = ST_READINESS).
Proof.
  intros p call g0. subst call g0 p. repeat split.
  - intros E0. eexists. split.
    + eapply run_sound. by apply run_gate0.
    + repeat split.
  - intros g1 E0 E1 P1. eexists. split.
    + eapply run_sound. by apply run_gate1.
    + cbn zeta. destruct (_ || _); repeat split.
  - intros g1 g2 rl rh E0 E1 P1 E2 P2. eexists. split.
    + eapply run_sound. by eapply run_gate2.
    + cbn zeta. destruct (_ && _); repeat split.
  - intros g1 g2 rl rh g3 E0 E1 P1 E2 P2 EV E3 P3. eexists. split.
    + eapply run_sound. by eapply run_gate3.
    + repeat split.
Qed.

(** One run per failure branch: Gate 0 rejects a rising benchmark, Gate 1
    rejects [no_setup_candles], Gate 2 rejects [v_recovery_candles_5m],
    Gate 3 rejects a run without funding and with positive momentum. *)
Lemma fail_fast_witness :
  (exists r, breakdown_run_with default_params 100.6 5 0 0.01 = Py.Ok r
     /\ gate1 r = default_failed /\ gate2 r = default_failed
     /\ gate3 r = default_failed /\ status r = ST_NONE)
  /\ (exists r, no_setup_run default_params 101.3 = Py.Ok r
        /\ gate2 r = default_failed /\ gate3 r = default_failed
        /\ status r = ST_OBSERVATION)
  /\ (exists r, v_recovery_run default_params 100 = Py.Ok r
        /\ gate3 r = default_failed /\ status r = ST_INTEREST)
  /\ (exists r, breakdown_run_with default_params 100.6 0 1 0 = Py.Ok r
        /\ status r = ST_READINESS).
Proof.
  split; [|split; [|split]].
  - destruct (fail_fast (world_at 0) "XUSDT" breakdown_candles 100.6 5 90 0
                0.01 90 5 5 0 0 (Some default_params)) as (H & _).
    destruct H as (r & E & _ & G1 & G2 & G3 & _ & S);
      [vm_compute; reflexivity|].
    exists r. repeat split; assumption.
  - destruct (fail_fast (world_at 0) "XUSDT" no_setup_candles 101.3 5 90 1
                0.01 90 0 0 0 0 (Some default_params)) as (_ & H & _).
    edestruct H as (r & E & _ & _ & G2 & G3 & _ & S);
      [vm_compute; reflexivity | vm_compute; reflexivity
       | vm_compute; reflexivity |].
    exists r. repeat split; assumption.
  - destruct (fail_fast (world_at 0) "XUSDT" v_recovery_candles_5m 100 12
                85 1 0.01 90 0 0 0 0 (Some default_params))
      as (_ & _ & H & _).
    edestruct H as (r & E & _ & _ & _ & G3 & _ & S);
      [vm_compute; reflexivity | vm_compute; reflexivity
       | vm_compute; reflexivity | vm_compute; reflexivity
       | vm_compute; reflexivity |].
    exists r. repeat split; assumption.
  - destruct (fail_fast (world_at 0) "XUSDT" breakdown_candles 100.6 5 90 0
                0 90 0 5 1 0 (Some default_params)) as (_ & _ & _ & H).
    edestruct H as (r & E & _ & _ & _ & _ & _ & S);
      [vm_compute; reflexivity | vm_compute; reflexivity
       | vm_compute; reflexivity | vm_compute; reflexivity
       | vm_compute; reflexivity | vm_compute; reflexivity
       | vm_compute; reflexivity | vm_compute; reflexivity |].
    exists r. repeat split; assumption.
Defined.

(** ** The V-recovery veto *)

(** When Gate 2 is enabled and passes, the last candle closed below the
    range low, so the V-recovery check on that range low cannot answer
    [True]: the veto branch of [check_all_gates] is not taken. *)
Lemma veto_unreachable_after_gate2
    (candles_5m : list Candle) (change_24h : Q) (p : GateParams)
    (g2 : GateResult) (rl rh : Q) :
  gate2_enabled p = true ->
  check_gate2 candles_5m change_24h p = Py.Ok (g2, rl, rh) ->
  passed g2 = true ->
  check_v_recovery candles_5m rl p <> Py.Ok true.
Proof.
  intros En E2 P2. unfold check_gate2 in E2. rewrite En in E2.
  cbn [negb] in E2.
  destruct (_ <? _)%Z in E2.
  { injection E2 as <- _ _. discriminate. }
  destruct (Py.max_list _) as [range_high|] in E2; [|discriminate].
  destruct (Py.min_list _) as [range_low|] in E2; [|discriminate].
  destruct (Py.index candles_5m (-2)) as [prev|] in E2; [|discriminate].
  destruct (Py.index candles_5m (-1)) as [last|] eqn:EL in E2;
    [|discriminate].
  cbn [mbind Py.result_bind] in E2. injection E2 as <- <- _.
  cbn [passed] in P2.
  apply andb_true_iff in P2 as [_ P2].
  apply andb_true_iff in P2 as [P2 _].
  apply PyFacts.ltb_lt in P2.
  unfold check_v_recovery.
  destruct (_ <? _)%Z; [discriminate|].
  destruct (Py.index (Py.slice _ _ _) (-1)) as [x|] eqn:EX;
    cbn [mbind Py.result_bind]; [|discriminate].
  apply PyFacts.index_last_slice_from in EX. rewrite EL in EX.
  injection EX as <-.
  assert (Py.gtb (close last) range_low = false) as ->.
  { apply PyFacts.ltb_ge. apply Qlt_le_weak. exact P2. }
  rewrite andb_false_r. discriminate.
Qed.

(** C3, evaluated on a V-recovery.  On [v_recovery_candles_5m] the range
    low is 100, the candle before the last closed at 99 and the last one
    closed back at 100.5, so [check_v_recovery] answers [True]; Gates 0
    and 1 pass.  The call returns through the failure branch of Gate 2
    with status INTEREST: the veto is placed after that return and is not
    consulted. *)
Theorem v_recovery_returns_interest :
  check_v_recovery v_recovery_candles_5m 100 default_params = Py.Ok true
  /\ (exists g2, check_gate2 v_recovery_candles_5m 12 default_params
                 = Py.Ok (g2, 100, 101.2) /\ passed g2 = false)
  /\ exists r, v_recovery_run default_params 100 = Py.Ok r
       /\ passed (gate0 r) = true /\ passed (gate1 r) = true
       /\ passed (gate2 r) = false
       /\ status r = ST_INTEREST
       /\ signal_text r = TxtExhaustionWaitBreakdown.
Proof.
  split; [vm_compute; reflexivity|].
  split; [eexists; split; vm_compute; reflexivity|].
  eexists. split; [vm_compute; reflexivity|]. repeat split.
Qed.

(** ** Determinism *)

(** C4 as stated fails: two calls with the same symbol, candles, metrics
    and parameters, made one minute apart, return different results. *)
Lemma hidden_clock_counterexample :
  breakdown_run 1700000000 100.6 <> breakdown_run 1700000060 100.6.
Proof. vm_compute. discriminate. Qed.

(** C4, amended.  For fixed symbol, candles, metrics and parameters
    (passed, or read from the same parameter store) two calls agree in
    every field except [timestamp], and [timestamp] is the clock reading
    [int(time.time())] of the call. *)
Theorem deterministic_up_to_timestamp
    (t1 t2 : Q) (store : string -> GateParams)
    (symbol : string) (candles_5m : list Candle)
    (current_price change_24h range_position dist_to_high funding_rate
     low_24h btc_trend_1h btc_change_24h momentum_10m prev_dist_to_high : Q)
    (params : option GateParams) :
  let call t :=
    check_all_gates (mkWorld t store) symbol candles_5m current_price
      change_24h range_position dist_to_high funding_rate low_24h
      btc_trend_1h btc_change_24h momentum_10m prev_dist_to_high params in
  set_timestamp 0 <$> call t1 = set_timestamp 0 <$> call t2
  /\ call t1 = set_timestamp (Py.int t1) <$> call t2.
Proof.
  intros call.
  assert (H : forall t t', call t = set_timestamp (Py.int t) <$> call t').
  { intros t t'. subst call. unfold check_all_gates. cbn zeta.
    cbn [resolve_params get_params time_time].
    set (p := resolve_params _ _ _).
    cbn [gate0 set_gate0].
    destruct (passed (check_gate0 _ _ _ _)); cbn [negb]; [|reflexivity].
    destruct (check_gate1 _ _) as [g1|]; cbn [mbind Py.result_bind];
      [|reflexivity].
    cbn [gate1 set_gate1]. destruct (passed g1); cbn [negb].
    2:{ destruct (_ || _); reflexivity. }
    destruct (check_gate2 _ _ _) as [[[g2 rl] rh]|];
      cbn [mbind Py.result_bind]; [|reflexivity].
    cbn [gate2 set_gate2]. destruct (passed g2); cbn [negb].
    2:{ destruct (_ && _); reflexivity. }
    destruct (check_v_recovery _ _ _) as [[|]|]; cbn [mbind Py.result_bind];
      [reflexivity| |reflexivity].
    destruct (check_gate3 _ _ _ _ _ _) as [g3|]; cbn [mbind Py.result_bind];
      [|reflexivity].
    cbn [gate3 set_gate3]. destruct (passed g3); cbn [negb]; [|reflexivity].
    destruct (calculate_trade_levels _ _ _ _ _) as [[[[sl tp1] tp2] tp3] rr].
    destruct (Py.ltb _ _); reflexivity. }
  split; [|apply H].
  rewrite (H t1 t2). destruct (call t2); reflexivity.
Qed.

(** ** Disabled gates *)

(** With Gate 2 disabled the range handed on is (0, 0): the stop-loss is
    0, the ratio is never positive, and no call ends in ENTRY under a
    positive [min_rr]. *)
Lemma disabled_gate2_levels cp l p sl tp1 tp2 tp3 rr :
  0 <= tp1_ratio p ->
  calculate_trade_levels cp 0 0 l p = (sl, tp1, tp2, tp3, rr) ->
  sl == 0 /\ rr <= 0.
Proof.
  intros Ht. unfold calculate_trade_levels. intros [= <- _ _ _ <-].
  split; [ring|].
  set (risk := 0 * (1 + sl_above_range_pct p / 100) - cp).
  assert (Hr : risk == - cp) by (unfold risk; ring).
  destruct (Py.gtb risk 0) eqn:E; [|discriminate].
  apply PyFacts.gtb_lt in E. apply Qle_shift_div_r; [exact E|].
  set (t := tp1_ratio p) in *. clearbody t.
  assert (cp - (cp - (cp - 0) * t) == cp * t) as -> by ring.
  assert (0 * risk == 0) as -> by ring.
  assert (Hc : cp <= 0) by lra.
  rewrite <- (Qmult_0_l t). apply Qmult_le_compat_r; assumption.
Qed.

Lemma gate2_disabled_never_entry
    w symbol candles_5m current_price change_24h range_position
    dist_to_high funding_rate low_24h btc_trend_1h btc_change_24h
    momentum_10m prev_dist_to_high params r :
  let p := resolve_params w symbol params in
  gate2_enabled p = false ->
  0 <= tp1_ratio p ->
  0 < min_rr p ->
  check_all_gates w symbol candles_5m current_price change_24h
    range_position dist_to_high funding_rate low_24h btc_trend_1h
    btc_change_24h momentum_10m prev_dist_to_high params = Py.Ok r ->
  status r <> ST_ENTRY.
Proof.
  intros p En Ht Hrr Hcall. subst p.
  apply run_complete in Hcall as [path HR].
  destruct HR as [E0 | g1 E0 E1 P1 | g1 g2 rl rh E0 E1 P1 E2 P2
                 | g1 g2 rl rh E0 E1 P1 E2 P2 EV
                 | g1 g2 rl rh g3 E0 E1 P1 E2 P2 EV E3 P3
                 | g1 g2 rl rh g3 sl tp1 tp2 tp3 rr E0 E1 P1 E2 P2 EV E3
                     P3 ET];
    cbn zeta.
  1-5: try match goal with
           | |- context [if ?c then set_status _ _ _ else _] => destruct c
           end; result_fields; discriminate.
  unfold check_gate2 in E2. rewrite En in E2. injection E2 as _ <- <-.
  destruct (disabled_gate2_levels _ _ _ _ _ _ _ _ Ht ET) as (_ & Hle).
  assert (Py.ltb rr (min_rr (resolve_params w symbol params)) = true) as ->.
  { apply PyFacts.ltb_lt. lra. }
  result_fields. discriminate.
Qed.

(** C10 as stated fails for Gate 2: with the default parameters and only
    Gate 2 disabled, a run passes all four gates and stops at READINESS,
    and no input at all reaches ENTRY. *)
Lemma disabled_gate2_counterexample :
  gate2_enabled (params_with true true false true 1.5) = false
  /\ (exists r,
        v_recovery_run (params_with true true false true 1.5) 100
        = Py.Ok r
        /\ four_gates_passed r = true
        /\ status r = ST_READINESS)
  /\ (forall w symbol candles_5m current_price change_24h range_position
             dist_to_high funding_rate low_24h btc_trend_1h btc_change_24h
             momentum_10m prev_dist_to_high r,
        check_all_gates w symbol candles_5m current_price change_24h
          range_position dist_to_high funding_rate low_24h btc_trend_1h
          btc_change_24h momentum_10m prev_dist_to_high
          (Some (params_with true true false true 1.5)) = Py.Ok r ->
        status r <> ST_ENTRY).
Proof.
  split; [reflexivity|]. split.
  - eexists. split; [vm_compute; reflexivity|].
    split; vm_compute; reflexivity.
  - intros w symbol cs cp ch rp d f l bt bc m pd r.
    apply gate2_disabled_never_entry; [reflexivity | discriminate |].
    reflexivity.
Qed.

(** C10, amended.  A gate whose enabled flag is false returns
    [passed = True] with score 100 whatever the market inputs, and a
    returned result never stops at the failure branch of a disabled gate.
    With Gate 0, Gate 1 or Gate 3 disabled there is a run that reaches
    ENTRY although the gate, if enabled with the same thresholds, rejects
    the same inputs.  With Gate 2 disabled the range handed on is (0, 0)
    and the risk-reward ratio is never positive: no run reaches ENTRY
    under a positive [min_rr] ([tp1_ratio] not negative), and one does
    with [min_rr] at 0. *)
Theorem disabled_gate_effect :
  (* the check functions *)
  (forall p btc_trend_1h alt_change_24h btc_change_24h,
      gate0_enabled p = false ->
      let g := check_gate0 btc_trend_1h alt_change_24h btc_change_24h p in
      passed g = true /\ score g = 100)
  /\ (forall p candles_5m,
      gate1_enabled p = false ->
      exists g, check_gate1 candles_5m p = Py.Ok g
                /\ passed g = true /\ score g = 100)
  /\ (forall p candles_5m change_24h,
      gate2_enabled p = false ->
      exists g, check_gate2 candles_5m change_24h p = Py.Ok (g, 0, 0)
                /\ passed g = true /\ score g = 100)
  /\ (forall p candles_5m momentum_10m funding_rate dist_to_high
             prev_dist_to_high,
      gate3_enabled p = false ->
      exists g, check_gate3 candles_5m momentum_10m funding_rate
                  dist_to_high prev_dist_to_high p = Py.Ok g
                /\ passed g = true /\ score g = 100)
  (* progression in [check_all_gates] *)
  /\ (forall w symbol candles_5m current_price change_24h range_position
             dist_to_high funding_rate low_24h btc_trend_1h btc_change_24h
             momentum_10m prev_dist_to_high params r,
      check_all_gates w symbol candles_5m current_price change_24h
        range_position dist_to_high funding_rate low_24h btc_trend_1h
        btc_change_24h momentum_10m prev_dist_to_high params = Py.Ok r ->
      let p := resolve_params w symbol params in
      (gate0_enabled p = false -> passed (gate0 r) = true)
      /\ (gate1_enabled p = false ->
          passed (gate0 r) = true -> passed (gate1 r) = true)
      /\ (gate2_enabled p = false ->
          passed (gate1 r) = true -> passed (gate2 r) = true)
      /\ (gate3_enabled p = false ->
          passed (gate2 r) = true ->
          passed (gate3 r) = true \/ signal_text r = TxtVRecovery))
  (* ENTRY with Gate 0, 1 or 3 disabled, on inputs the enabled gate
     rejects *)
  /\ (passed (check_gate0 5 5 5 default_params) = false
      /\ exists r,
           breakdown_run_with (params_with false true true true 1.5)
             100.6 5 0 0.01 = Py.Ok r
           /\ status r = ST_ENTRY)
  /\ ((exists g, check_gate1 no_setup_candles default_params = Py.Ok g
                 /\ passed g = false)
      /\ exists r,
           no_setup_run (params_with true false true true 1.5) 101.3
             = Py.Ok r
           /\ status r = ST_ENTRY)
  /\ ((exists g, check_gate3 breakdown_candles 1 0 0 0 default_params
                 = Py.Ok g /\ passed g = false)
      /\ exists r,
           breakdown_run_with (params_with true true true false 1.5)
             100.6 0 1 0 = Py.Ok r
           /\ status r = ST_ENTRY)
  (* Gate 2 disabled: no ENTRY under a positive [min_rr] *)
  /\ (forall w symbol candles_5m current_price change_24h range_position
             dist_to_high funding_rate low_24h btc_trend_1h btc_change_24h
             momentum_10m prev_dist_to_high params r,
      let p := resolve_params w symbol params in
      gate2_enabled p = false ->
      0 <= tp1_ratio p ->
      0 < min_rr p ->
      check_all_gates w symbol candles_5m current_price change_24h
        range_position dist_to_high funding_rate low_24h btc_trend_1h
        btc_change_24h momentum_10m prev_dist_to_high params = Py.Ok r ->
      status r <> ST_ENTRY)
  /\ ((exists g rl rh, check_gate2 v_recovery_candles_5m 12 default_params
                       = Py.Ok (g, rl, rh) /\ passed g = false)
      /\ exists r,
           v_recovery_run (params_with true true false true 0) 100
             = Py.Ok r
           /\ status r = ST_ENTRY).
Proof.
  split; [|split; [|split; [|split; [|split]]]].
  - intros p a b c En g. subst g. unfold check_gate0. rewrite En.
    split; reflexivity.
  - intros p cs En. unfold check_gate1. rewrite En.
    eexists. repeat split.
  - intros p cs ch En. unfold check_gate2. rewrite En.
    eexists. repeat split.
  - intros p cs m f d pd En. unfold check_gate3. rewrite En.
    eexists. repeat split.
  - intros w symbol cs cp ch rp d f l bt bc m pd params r Hcall p.
    subst p. apply run_complete in Hcall as [path HR].
    destruct HR as [E0 | g1 E0 E1 P1 | g1 g2 rl rh E0 E1 P1 E2 P2
                   | g1 g2 rl rh E0 E1 P1 E2 P2 EV
                   | g1 g2 rl rh g3 E0 E1 P1 E2 P2 EV E3 P3
                   | g1 g2 rl rh g3 sl tp1 tp2 tp3 rr E0 E1 P1 E2 P2 EV E3
                       P3 ET];
      cbn zeta;
      try match goal with
          | |- context [if ?c then set_status _ _ _ else _] => destruct c
          end;
      result_fields.
    all: repeat split; intros; try congruence; auto.
    all: try match goal with
             | En : gate0_enabled _ = false,
               H : passed (check_gate0 _ _ _ _) = false |- _ =>
                 unfold check_gate0 in H; rewrite En in H; discriminate
             | En : gate1_enabled _ = false,
               H : check_gate1 _ _ = Py.Ok ?g, P : passed ?g = false |- _ =>
                 unfold check_gate1 in H; rewrite En in H;
                 injection H as <-; discriminate
             | En : gate2_enabled _ = false,
               H : check_gate2 _ _ _ = Py.Ok (?g, _, _),
               P : passed ?g = false |- _ =>
                 unfold check_gate2 in H; rewrite En in H;
                 injection H as <- _ _; discriminate
             | En : gate3_enabled _ = false,
               H : check_gate3 _ _ _ _ _ _ = Py.Ok ?g,
               P : passed ?g = false |- _ =>
                 unfold check_gate3 in H; rewrite En in H;
                 injection H as <-; discriminate
             end.
  - split; [|split; [|split; [|split]]].
    4:{ exact gate2_disabled_never_entry. }
    all: repeat split; try (vm_compute; reflexivity);
      try (eexists; split; vm_compute; reflexivity);
      try (do 3 eexists; split; vm_compute; reflexivity).
Qed.

(** Each gate disabled in turn returns [passed] with score 100 on inputs
    the enabled gate rejects; the run with Gate 0 disabled carries the
    Gate 0 flag; and the run with Gate 2 disabled under the default
    [min_rr] of 1.5 does not end in ENTRY. *)
Lemma disabled_gate_effect_witness :
  (passed (check_gate0 5 5 5 (params_with false true true true 1.5)) = true
   /\ score (check_gate0 5 5 5 (params_with false true true true 1.5))
      = 100)
  /\ (exists g,
        check_gate1 no_setup_candles (params_with true false true true 1.5)
        = Py.Ok g
        /\ passed g = true /\ score g = 100)
  /\ (exists g,
        check_gate2 v_recovery_candles_5m 12
          (params_with true true false true 1.5)
        = Py.Ok (g, 0, 0)
        /\ passed g = true /\ score g = 100)
  /\ (exists g,
        check_gate3 breakdown_candles 1 0 0 0
          (params_with true true true false 1.5)
        = Py.Ok g
        /\ passed g = true /\ score g = 100)
  /\ passed
       (gate0
          (returned
             (breakdown_run_with (params_with false true true true 1.5)
                100.6 5 0 0.01)))
     = true
  /\ status
       (returned (v_recovery_run (params_with true true false true 1.5) 100))
     <> ST_ENTRY.
Proof.
  destruct disabled_gate_effect
    as (H0 & H1 & H2 & H3 & H & _ & _ & _ & HN & _).
  split; [apply (H0 (params_with false true true true 1.5) 5 5 5);
          reflexivity|].
  split; [apply H1; reflexivity|].
  split; [apply H2; reflexivity|].
  split; [apply H3; reflexivity|].
  split.
  - assert (E : breakdown_run_with (params_with false true true true 1.5)
                  100.6 5 0 0.01
                = Py.Ok
                    (returned
                       (breakdown_run_with
                          (params_with false true true true 1.5)
                          100.6 5 0 0.01)))
      by (vm_compute; reflexivity).
    destruct (H _ _ _ _ _ _ _ _ _ _ _ _ _ _ _ E) as (G0 & _).
    apply G0. reflexivity.
  - assert (E : v_recovery_run (params_with true true false true 1.5) 100
                = Py.Ok
                    (returned
                       (v_recovery_run
                          (params_with true true false true 1.5) 100)))
      by (vm_compute; reflexivity).
    refine (HN _ _ _ _ _ _ _ _ _ _ _ _ _ _ _ _ _ _ E);
      [reflexivity | discriminate | reflexivity].
Defined.

End GatesFacts.

(* ================================================================== *)
(** * Range position and distance to the high *)
(* ================================================================== *)

Module PositionFacts.

Import Types.
Local Open Scope Q_scope.

(** [a / b] returns when [b] is not zero. *)
Lemma div_ok a b : ~ b == 0 -> Py.div a b = Py.Ok (a / b).
Proof.
  intros H. unfold Py.div. apply PyFacts.eqb_neq in H. rewrite H.
  reflexivity.
Qed.

Lemma max2_cases a b :
  (b <= a /\ Py.max2 a b = a) \/ (a < b /\ Py.max2 a b = b).
Proof.
  unfold Py.max2, Py.gtb. destruct (Py.ltb a b) eqn:E.
  - right. apply PyFacts.ltb_lt in E. auto.
  - left. apply PyFacts.ltb_ge in E. auto.
Qed.

Lemma min2_cases a b :
  (a <= b /\ Py.min2 a b = a) \/ (b < a /\ Py.min2 a b = b).
Proof.
  unfold Py.min2. destruct (Py.ltb b a) eqn:E.
  - right. apply PyFacts.ltb_lt in E. auto.
  - left. apply PyFacts.ltb_ge in E. auto.
Qed.

(** [clamp] lands in [lo, hi]. *)
Lemma clamp_bounds x lo hi :
  lo <= hi -> lo <= MathUtils.clamp x lo hi <= hi.
Proof.
  intros H. unfold MathUtils.clamp.
  destruct (min2_cases hi x) as [[? ->] | [? ->]];
    destruct (max2_cases lo hi) as [[? E1] | [? E1]];
    destruct (max2_cases lo x) as [[? E2] | [? E2]];
    rewrite ?E1, ?E2; split; lra.
Qed.

Lemma pct_nonneg a b : 0 <= a -> 0 < b -> 0 <= a / b * 100.
Proof.
  intros Ha Hb. assert (0 <= a / b) by (apply Qle_shift_div_l; lra). lra.
Qed.

Lemma pct_le_100 a b : a <= b -> 0 < b -> a / b * 100 <= 100.
Proof.
  intros Ha Hb. assert (a / b <= 1) by (apply Qle_shift_div_r; lra). lra.
Qed.

(** C5 as stated fails: with a positive 24h high of 110 and a price of 120
    the distance to the high is negative, in [dist_to_high_pct] and in the
    price refresh alike. *)
Lemma dist_to_high_counterexample :
  0 < 110
  /\ (exists d, MathUtils.dist_to_high_pct 120 110 = Py.Ok d /\ d < 0)
  /\ (exists row,
        ScannerWorker.refresh_prices
          (ScannerWorker.mkTicker 120 110 90 0.05 0) default_row = Py.Ok row
        /\ dist_high_pct row < 0).
Proof.
  split; [reflexivity|]. split.
  - eexists. split; [vm_compute; reflexivity | reflexivity].
  - eexists. split; [vm_compute; reflexivity | reflexivity].
Qed.

(** C5, amended.  [range_position] always returns a value between 0 and
    100, and 50 when [high <= low].  [dist_to_high_pct] always returns, 0
    when the price is not positive, and a non-negative value whenever the
    price does not exceed the high.  The price refresh stores a
    non-negative distance when the 24h high is positive and the price does
    not exceed it, and a range position between 0 and 100 when the price
    lies between the 24h low and a higher 24h high. *)
Theorem position_bounds :
  (forall price low high,
      exists rp, MathUtils.range_position price low high = Py.Ok rp
                 /\ 0 <= rp <= 100
                 /\ (high <= low -> rp = 50.0))
  /\ (forall price high,
      exists d, MathUtils.dist_to_high_pct price high = Py.Ok d
                /\ (price <= 0 -> d = 0.0)
                /\ (price <= high -> 0 <= d))
  /\ (forall ticker row,
      let price := ScannerWorker.lastPrice ticker in
      let high := ScannerWorker.highPrice24h ticker in
      let low := ScannerWorker.lowPrice24h ticker in
      exists row', ScannerWorker.refresh_prices ticker row = Py.Ok row'
        /\ (0 < high -> price <= high -> 0 <= dist_high_pct row')
        /\ (low < high -> low <= price <= high ->
            0 <= range_position row' <= 100)).
Proof.
  split; [|split].
  - intros price low high. unfold MathUtils.range_position.
    destruct (Py.leb high low) eqn:E.
    + exists 50.0. split; [reflexivity|]. split; [split; discriminate|].
      reflexivity.
    + apply PyFacts.leb_gt in E. rewrite div_ok by lra.
      cbn [mbind Py.result_bind]. eexists. split; [reflexivity|].
      split; [apply clamp_bounds; discriminate|].
      intros H. lra.
  - intros price high. unfold MathUtils.dist_to_high_pct.
    destruct (Py.leb price 0) eqn:E.
    + exists 0.0. split; [reflexivity|]. split; [reflexivity|].
      intros _. discriminate.
    + apply PyFacts.leb_gt in E. rewrite div_ok by lra.
      cbn [mbind Py.result_bind]. eexists. split; [reflexivity|]. split.
      * intros H. lra.
      * intros H. apply pct_nonneg; lra.
  - intros [price high low pcnt funding] row. cbn zeta.
    unfold ScannerWorker.refresh_prices, set_dist_high_pct,
      set_range_position, set_ticker_fields.
    cbn [ScannerWorker.lastPrice ScannerWorker.highPrice24h
         ScannerWorker.lowPrice24h ScannerWorker.price24hPcnt
         ScannerWorker.fundingRate high_24h low_24h price_now].
    destruct (Py.gtb high low) eqn:EHL.
    + apply PyFacts.gtb_lt in EHL. rewrite div_ok by lra.
      cbn [mbind Py.result_bind high_24h low_24h price_now].
      destruct (Py.gtb high 0) eqn:EH.
      * apply PyFacts.gtb_lt in EH. rewrite div_ok by lra.
        cbn [mbind Py.result_bind]. eexists. split; [reflexivity|].
        cbn [dist_high_pct range_position]. split.
        -- intros _ Hp. apply pct_nonneg; lra.
        -- intros _ [Hl Hh]. split; [apply pct_nonneg | apply pct_le_100];
             lra.
      * apply PyFacts.ltb_ge in EH.
        cbn [mbind Py.result_bind]. eexists. split; [reflexivity|].
        cbn [range_position]. split.
        -- intros Hpos. lra.
        -- intros _ [Hl Hh]. split; [apply pct_nonneg | apply pct_le_100];
             lra.
    + apply PyFacts.ltb_ge in EHL.
      cbn [mbind Py.result_bind high_24h low_24h price_now].
      destruct (Py.gtb high 0) eqn:EH.
      * apply PyFacts.gtb_lt in EH. rewrite div_ok by lra.
        cbn [mbind Py.result_bind]. eexists. split; [reflexivity|].
        cbn [dist_high_pct]. split.
        -- intros _ Hp. apply pct_nonneg; lra.
        -- intros Hlt. lra.
      * apply PyFacts.ltb_ge in EH.
        cbn [mbind Py.result_bind]. eexists. split; [reflexivity|]. split.
        -- intros Hpos. lra.
        -- intros Hlt. lra.
Qed.

(** A degenerate range (high = low = 110) gives position 50; a price of
    100 under a high of 110 gives a non-negative distance; a refresh with
    the price between low and high keeps both within bounds. *)
Lemma position_bounds_witness :
  (exists rp, MathUtils.range_position 100 110 110 = Py.Ok rp /\ rp = 50.0)
  /\ (exists d, MathUtils.dist_to_high_pct 100 110 = Py.Ok d /\ 0 <= d)
  /\ (exists row,
        ScannerWorker.refresh_prices
          (ScannerWorker.mkTicker 100 110 90 0.05 0) default_row = Py.Ok row
        /\ 0 <= dist_high_pct row /\ 0 <= range_position row <= 100).
Proof.
  destruct position_bounds as (H1 & H2 & H3). split; [|split].
  - destruct (H1 100 110 110) as (rp & E & _ & H). exists rp.
    split; [exact E|]. apply H. discriminate.
  - destruct (H2 100 110) as (d & E & _ & H). exists d.
    split; [exact E|]. apply H. discriminate.
  - destruct (H3 (ScannerWorker.mkTicker 100 110 90 0.05 0) default_row)
      as (row & E & Hd & Hr).
    exists row. split; [exact E|]. split.
    + apply Hd; [reflexivity | discriminate].
    + apply Hr; [reflexivity | split; discriminate].
Defined.

End PositionFacts.

(* ================================================================== *)
(** * Indicators on short history *)
(* ================================================================== *)

Module IndicatorFacts.

Import EngineV2 Fixtures.
Local Open Scope Q_scope.

(** What the primitives can raise. *)
Lemma index_raises {A} (l : list A) i e :
  Py.index l i = Py.Raise e -> e = Py.IndexError.
Proof.
  unfold Py.index. destruct (_ || _)%Z; [congruence|].
  destruct (nth_error _ _); congruence.
Qed.

Lemma div_raises a b e : Py.div a b = Py.Raise e -> e = Py.ZeroDivisionError.
Proof. unfold Py.div. destruct (Py.eqb b 0); congruence. Qed.

Lemma div_zero a b :
  Py.eqb b 0 = true -> Py.div a b = Py.Raise Py.ZeroDivisionError.
Proof. intros H. unfold Py.div. rewrite H. reflexivity. Qed.


(** Every exception of the [try] block of [calculate_volume_spike] is one
    its [except] clause names. *)
Lemma volume_spike_try_caught klines lookback e :
  volume_spike_try klines lookback = Py.Raise e ->
  volume_spike_caught e = true.
Proof.
  unfold volume_spike_try.
  destruct (Py.index klines (-1)) as [last|e0] eqn:E0;
    cbn [mbind Py.result_bind].
  2:{ intros [= <-]. apply index_raises in E0. subst. reflexivity. }
  destruct (is_empty _); [discriminate|].
  destruct (Py.div _ _) as [avg|e1] eqn:E1; cbn [mbind Py.result_bind].
  2:{ intros [= <-]. apply div_raises in E1. subst. reflexivity. }
  destruct (Py.gtb avg 0); [|discriminate].
  destruct (Py.div _ avg) as [q|e2] eqn:E2; cbn [mbind Py.result_bind];
    [discriminate|].
  intros [= <-]. apply div_raises in E2. subst. reflexivity.
Qed.

(** What the float operations of the z-score can raise. *)
Lemma float_div_raises ops a b e :
  float_div ops a b = Py.Raise e -> e = Py.ZeroDivisionError.
Proof. unfold float_div. destruct (Py.eqb b 0); congruence. Qed.

Lemma float_pow2_raises ops x e :
  float_pow2 ops x = Py.Raise e -> e = Py.OverflowError.
Proof. unfold float_pow2. destruct (f_overflows ops x); congruence. Qed.

Lemma for_each_raises {A B} (f : A -> Py.result B) (l : list A) e0 e :
  (forall x e', f x = Py.Raise e' -> e' = e0) ->
  Py.for_each f l = Py.Raise e -> e = e0.
Proof.
  intros Hf. induction l as [|x l IH]; cbn [Py.for_each]; [discriminate|].
  destruct (f x) as [y|e1] eqn:E1; cbn [mbind Py.result_bind].
  2:{ intros [= <-]. exact (Hf _ _ E1). }
  destruct (Py.for_each f l) as [ys|e2]; cbn [mbind Py.result_bind];
    [discriminate|].
  intros [= <-]. apply IH. reflexivity.
Qed.

Lemma for_each_returns {A B} (f : A -> Py.result B) (l : list A) :
  (forall x, exists y, f x = Py.Ok y) ->
  exists ys, Py.for_each f l = Py.Ok ys.
Proof.
  intros Hf. induction l as [|x l [ys IH]]; cbn [Py.for_each]; [eauto|].
  destruct (Hf x) as [y ->]. rewrite IH. cbn [mbind Py.result_bind]. eauto.
Qed.

(** The [try] block of [calculate_z_score] raises what its [except]
    clause names, or the [OverflowError] of a square. *)
Lemma z_score_try_raises ops current_price prices period e :
  z_score_try ops current_price prices period = Py.Raise e ->
  e = Py.ZeroDivisionError \/ e = Py.OverflowError.
Proof.
  unfold z_score_try.
  destruct (float_div ops (float_sum ops _) _) as [mean|e0] eqn:E0;
    cbn [mbind Py.result_bind].
  2:{ intros [= <-]. left. exact (float_div_raises _ _ _ _ E0). }
  destruct (Py.for_each _ _) as [squares|e1] eqn:E1;
    cbn [mbind Py.result_bind].
  2:{ intros [= <-]. right.
      refine (for_each_raises _ _ _ _ _ E1).
      intros x e'. apply float_pow2_raises. }
  destruct (float_div ops (float_sum ops squares) _) as [variance|e2] eqn:E2;
    cbn [mbind Py.result_bind].
  2:{ intros [= <-]. left. exact (float_div_raises _ _ _ _ E2). }
  destruct (Py.gtb (if Py.gtb variance 0 then _ else _) 0); [|discriminate].
  destruct (float_div ops (f_sub ops current_price mean) _) as [q|e3] eqn:E3;
    cbn [mbind Py.result_bind]; [discriminate|].
  intros [= <-]. left. exact (float_div_raises _ _ _ _ E3).
Qed.

(** When no square overflows, every exception of the [try] block is one
    its [except] clause names. *)
Lemma z_score_try_caught ops current_price prices period e :
  (forall x, f_overflows ops x = false) ->
  z_score_try ops current_price prices period = Py.Raise e ->
  z_score_caught e = true.
Proof.
  intros Hno E. destruct (z_score_try_raises _ _ _ _ _ E) as [-> | ->];
    [reflexivity|].
  exfalso. revert E. unfold z_score_try.
  destruct (float_div ops (float_sum ops _) _) as [mean|e0] eqn:E0;
    cbn [mbind Py.result_bind].
  2:{ intros [= ->]. apply float_div_raises in E0. discriminate. }
  destruct (for_each_returns (fun x => float_pow2 ops (f_sub ops x mean))
              (Py.slice prices (Some (- period)%Z) None)) as [squares ->].
  { intros x. unfold float_pow2. rewrite Hno. eauto. }
  cbn [mbind Py.result_bind].
  destruct (float_div ops (float_sum ops squares) _) as [variance|e2] eqn:E2;
    cbn [mbind Py.result_bind].
  2:{ intros [= ->]. apply float_div_raises in E2. discriminate. }
  destruct (Py.gtb (if Py.gtb variance 0 then _ else _) 0); [|discriminate].
  destruct (float_div ops (f_sub ops current_price mean) _) as [q|e3] eqn:E3;
    cbn [mbind Py.result_bind]; [discriminate|].
  intros [= ->]. apply float_div_raises in E3. discriminate.
Qed.

(** [calculate_z_score] returns, or lets the [OverflowError] of a square
    through. *)
Lemma z_score_outcome ops current_price prices period :
  (exists z, calculate_z_score ops current_price prices period = Py.Ok z)
  \/ calculate_z_score ops current_price prices period
     = Py.Raise Py.OverflowError.
Proof.
  unfold calculate_z_score. destruct (_ || _); [eauto|].
  destruct (z_score_try ops current_price prices period) as [[v|]|e] eqn:E;
    cbn [Py.try_except mbind Py.result_bind]; eauto.
  destruct (z_score_try_raises _ _ _ _ _ E) as [-> | ->];
    cbn [z_score_caught mbind Py.result_bind]; eauto.
Qed.

(** It returns when no square overflows. *)
Lemma z_score_returns ops current_price prices period :
  (forall x, f_overflows ops x = false) ->
  exists z, calculate_z_score ops current_price prices period = Py.Ok z.
Proof.
  intros Hno. unfold calculate_z_score. destruct (_ || _); [eauto|].
  destruct (z_score_try ops current_price prices period) as [[v|]|e] eqn:E;
    cbn [Py.try_except mbind Py.result_bind]; eauto.
  rewrite (z_score_try_caught _ _ _ _ _ Hno E).
  cbn [mbind Py.result_bind]. eauto.
Qed.




(** In the range of a double the squares of 1e200 overflow, and the
    [OverflowError] leaves [calculate_z_score]. *)
Lemma z_score_overflow_escapes :
  calculate_z_score bounded_ops 0 [10 ^ 200; - 10 ^ 200; 0] 3
  = Py.Raise Py.OverflowError.
Proof. vm_compute. reflexivity. Qed.

(** Twenty equal prices whose sum comes out a little high: the deviation
    computed is positive, and the z-score is below 0. *)
Lemma z_score_flat_rounded :
  exists z,
    calculate_z_score (drifting_ops (1 # 1000000)) (1 # 10)
      (repeat (1 # 10) 20) 20
    = Py.Ok z
    /\ z < 0.
Proof. eexists. split; [vm_compute; reflexivity | reflexivity]. Qed.



End IndicatorFacts.

(* ================================================================== *)
(** * The scheduler tick *)
(* ================================================================== *)

Module SchedulerFacts.

Import Scheduler.
Local Open Scope Z_scope.

Ltac unfold_blocks :=
  unfold tick_candidates, tick_level1, tick_level2, tick_level3,
    start_cand_update, start_scan, start_price_update, start_pump_detect,
    fires_candidates, fires_level1, fires_level2, fires_level3, still_running;
  cbn.

(** The Level 3 block: its own countdown and flag, nothing of the others. *)
Lemma tick_level3_spec s :
  let s' := tick_level3 s in
  pump_countdown s' =
    (if negb (pump_detect_in_progress s) && rows_present s
     then if pump_countdown s - 1 <=? 0 then 10 else pump_countdown s - 1
     else pump_countdown s)
  /\ pump_detect_in_progress s' =
       pump_detect_in_progress s
       || (fires_level3 s && negb (still_running (pump_worker s)))
  /\ started s' =
       (if fires_level3 s && negb (still_running (pump_worker s))
        then [L3_PumpDetect] else []) ++ started s
  /\ price_countdown s' = price_countdown s
  /\ price_update_in_progress s' = price_update_in_progress s
  /\ price_worker s' = price_worker s
  /\ full_countdown s' = full_countdown s
  /\ scan_in_progress s' = scan_in_progress s
  /\ cand_update_in_progress s' = cand_update_in_progress s
  /\ cand_countdown s' = cand_countdown s
  /\ cand_worker s' = cand_worker s
  /\ rows_present s' = rows_present s.
Proof.
  destruct s as [rows scan cand price pump pw pumpw cw fc pc pmc cc st].
  unfold_blocks.
  destruct pump, rows, pumpw as [[|]|]; cbn;
    destruct (pmc - 1 <=? 0); cbn; repeat split; reflexivity.
Qed.

(** The Level 2 block. *)
Lemma tick_level2_spec s :
  let s' := tick_level2 s in
  price_countdown s' =
    (if negb (price_update_in_progress s) && negb (scan_in_progress s)
        && rows_present s
     then if price_countdown s - 1 <=? 0 then 30 else price_countdown s - 1
     else price_countdown s)
  /\ price_update_in_progress s' =
       price_update_in_progress s
       || (fires_level2 s && negb (still_running (price_worker s)))
  /\ started s' =
       (if fires_level2 s && negb (still_running (price_worker s))
        then [L2_PriceUpdate] else []) ++ started s
  /\ pump_countdown s' = pump_countdown s
  /\ pump_detect_in_progress s' = pump_detect_in_progress s
  /\ full_countdown s' = full_countdown s
  /\ scan_in_progress s' = scan_in_progress s
  /\ cand_update_in_progress s' = cand_update_in_progress s
  /\ cand_countdown s' = cand_countdown s
  /\ cand_worker s' = cand_worker s
  /\ rows_present s' = rows_present s.
Proof.
  destruct s as [rows scan cand price pump pw pumpw cw fc pc pmc cc st].
  unfold_blocks.
  destruct price, scan, rows, pw as [[|]|]; cbn;
    destruct (pc - 1 <=? 0); cbn; repeat split; reflexivity.
Qed.

(** The Level 1 block: on fire it also writes the two other countdowns. *)
Lemma tick_level1_spec s :
  let s' := tick_level1 s in
  full_countdown s' =
    (if negb (scan_in_progress s)
     then if full_countdown s - 1 <=? 0 then 120 else full_countdown s - 1
     else full_countdown s)
  /\ scan_in_progress s' = scan_in_progress s || fires_level1 s
  /\ started s' =
       (if fires_level1 s then [L1_FullScan] else []) ++ started s
  /\ price_countdown s' = (if fires_level1 s then 30 else price_countdown s)
  /\ pump_countdown s' = (if fires_level1 s then 10 else pump_countdown s)
  /\ price_update_in_progress s' = price_update_in_progress s
  /\ pump_detect_in_progress s' = pump_detect_in_progress s
  /\ cand_update_in_progress s' = cand_update_in_progress s
  /\ cand_countdown s' = cand_countdown s
  /\ cand_worker s' = cand_worker s
  /\ rows_present s' = rows_present s.
Proof.
  destruct s as [rows scan cand price pump pw pumpw cw fc pc pmc cc st].
  unfold_blocks.
  destruct scan; cbn; destruct (fc - 1 <=? 0); cbn; repeat split;
    reflexivity.
Qed.

(** The candidates block touches none of the three levels. *)
Lemma tick_candidates_spec s :
  let s' := tick_candidates s in
  started s' =
    (if negb (scan_in_progress s) && negb (cand_update_in_progress s)
        && rows_present s && (cand_countdown s - 1 <=? 0)
        && negb (still_running (cand_worker s))
     then [CandUpdate] else []) ++ started s
  /\ full_countdown s' = full_countdown s
  /\ scan_in_progress s' = scan_in_progress s
  /\ price_countdown s' = price_countdown s
  /\ pump_countdown s' = pump_countdown s
  /\ price_update_in_progress s' = price_update_in_progress s
  /\ pump_detect_in_progress s' = pump_detect_in_progress s
  /\ rows_present s' = rows_present s.
Proof.
  destruct s as [rows scan cand price pump pw pumpw cw fc pc pmc cc st].
  unfold_blocks.
  destruct scan, cand, rows, cw as [[|]|]; cbn;
    destruct (cc - 1 <=? 0); cbn; repeat split; reflexivity.
Qed.


End SchedulerFacts.

(* ================================================================== *)
(** * The bridge snapshot *)
(* ================================================================== *)

Module BridgeFacts.

Import Types Bridge Fixtures.
Local Open Scope Q_scope.

(** Case analysis on the comparisons of a sort key. *)
Ltac key_cases :=
  unfold key_lt, item_neg_score in *;
  repeat match goal with
         | |- context [(?a <? ?b)%Z] => destruct (Z.ltb_spec a b)
         | |- context [(?a =? ?b)%Z] => destruct (Z.eqb_spec a b)
         | H : context [(?a <? ?b)%Z] |- _ => destruct (Z.ltb_spec a b)
         | H : context [(?a =? ?b)%Z] |- _ => destruct (Z.eqb_spec a b)
         | |- context [Py.ltb ?a ?b] =>
             let E := fresh "E" in
             destruct (Py.ltb a b) eqn:E;
             [apply PyFacts.ltb_lt in E | apply PyFacts.ltb_ge in E]
         | H : context [Py.ltb ?a ?b] |- _ =>
             let E := fresh "E" in
             destruct (Py.ltb a b) eqn:E;
             [apply PyFacts.ltb_lt in E | apply PyFacts.ltb_ge in E]
         end;
  cbn [orb andb negb] in *.

Lemma key_lt_asymmetric : Py.asymmetric key_lt.
Proof.
  intros x y H. key_cases; try reflexivity; try discriminate; try lia; lra.
Qed.

Lemma key_lt_negatively_transitive : Py.negatively_transitive key_lt.
Proof.
  intros x y z H1 H2.
  key_cases; try reflexivity; try discriminate; try lia; lra.
Qed.

(** [key(y) < key(x)] is false exactly when [x] ranks before or level
    with [y]. *)
Lemma not_after_ranks x y :
  Py.not_after key_lt x y <-> ranks_not_after x y.
Proof.
  unfold Py.not_after, ranks_not_after. split.
  - intros H. key_cases; try discriminate;
      first [left; lia | right; split; [lia | lra]].
  - intros [H | [H1 H2]]; key_cases; try reflexivity; try lia; lra.
Qed.

(** Two items are tied under the key exactly when they have the same
    priority and the same score. *)
Lemma tied_same_rank x y : Py.tied key_lt x y = same_rank x y.
Proof.
  unfold Py.tied, same_rank. destruct (Py.eqb _ _) eqn:Eq;
    [apply PyFacts.eqb_eq in Eq | apply PyFacts.eqb_neq in Eq];
    key_cases; try reflexivity; try lia; try lra.
  all: exfalso; apply Eq; lra.
Qed.

(** The table of priorities. *)
Lemma priority_table s :
  priority_of s =
    if String.eqb s "ВХОД" then 0%Z
    else if String.eqb s "Готовность" then 1%Z
    else if String.eqb s "Интерес" then 2%Z
    else if String.eqb s "Наблюдение" then 3%Z
    else if String.eqb s "" then 4%Z
    else 99%Z.
Proof.
  unfold priority_of, status_priority.
  cbn [list_to_map foldr uncurry fst snd].
  repeat match goal with
         | |- context [String.eqb s ?k] =>
             destruct (String.eqb_spec s k) as [->|];
             [vm_compute; reflexivity|]
         end.
  rewrite !lookup_insert_ne by (intro; subst; congruence).
  rewrite lookup_empty.
  reflexivity.
Qed.

Lemma sorted_by_rank l :
  StronglySorted (Py.not_after key_lt) l -> StronglySorted ranks_not_after l.
Proof.
  induction 1 as [|x t Hs IH Hx]; constructor; [exact IH|].
  eapply Forall_impl; [exact Hx|]. intros y. apply not_after_ranks.
Qed.

(** C6 as stated fails: "BUSDT" and "AUSDT" have the same status and the
    same score, the store holds "BUSDT" first, and the published list
    keeps "BUSDT" before "AUSDT". *)
Lemma tie_break_counterexample :
  map item_symbol (ranked_items tie_rows 30) = ["BUSDT"; "AUSDT"]
  /\ ties_by_symbol (ranked_items tie_rows 30) = false.
Proof. split; vm_compute; reflexivity. Qed.

(** C6, amended.  The published list is a prefix of the ranking of the
    valid rows.  It is ordered by status priority ascending (ENTRY,
    READINESS, INTEREST, OBSERVATION, none, then any other status) and,
    within a priority, by score descending.  Items of equal priority and
    equal score keep the order in which the store holds them: the sort
    has no third key. *)
Theorem ranking_order (rows : list (string * CoinRow)) (top_n : Z) :
  let ranking := Py.sort key_lt (collect_items rows) in
  let items := ranked_items rows top_n in
  (exists k, items = firstn k ranking)
  /\ StronglySorted ranks_not_after items
  /\ Permutation ranking (collect_items rows)
  /\ (forall x,
      List.filter (same_rank x) ranking
      = List.filter (same_rank x) (collect_items rows))
  /\ (forall row,
      item_priority (row_to_dict row) = priority_of (status row)
      /\ item_score (row_to_dict row) = score row
      /\ item_symbol (row_to_dict row) = row_symbol row)
  /\ (forall s,
      priority_of s =
        if String.eqb s "ВХОД" then 0%Z
        else if String.eqb s "Готовность" then 1%Z
        else if String.eqb s "Интерес" then 2%Z
        else if String.eqb s "Наблюдение" then 3%Z
        else if String.eqb s "" then 4%Z
        else 99%Z).
Proof.
  intros ranking items.
  assert (Hs : StronglySorted ranks_not_after ranking).
  { apply sorted_by_rank, SortFacts.sort_sorted.
    - exact key_lt_asymmetric.
    - exact key_lt_negatively_transitive. }
  assert (Hp : items
               = firstn (Z.to_nat (Py.slice_bound (Py.len ranking) top_n))
                   ranking).
  { apply SortFacts.slice_to_prefix. }
  split; [eauto|]. split.
  { rewrite Hp. by apply SortFacts.StronglySorted_firstn. }
  split; [apply SortFacts.sort_perm|]. split.
  { intros x. subst ranking.
    rewrite <- !(filter_ext _ _ (tied_same_rank x)).
    apply SortFacts.sort_stable, key_lt_negatively_transitive. }
  split; [intros row; repeat split|].
  exact priority_table.
Qed.

(** ** Writing and reading back *)

Section Exchange.

Context {FileData : Type}.
Variable json_dump : JValue -> FileData.
Variable json_load : FileData -> option JValue.

(** [json.load] gives back what [json.dump] was given. *)
Hypothesis json_round_trip : forall v, json_load (json_dump v) = Some v.

(** C8, amended.  When file operations succeed, [write] answers [True]
    and a following [read] parses exactly the payload that was written.
    The payload has the five fields [ts], [bridge_version], [strategy],
    [top_n], [items], in this order: the version is under
    [bridge_version], [top_n] is the number of items written, and
    [items] is the ranked list. *)
Theorem bridge_round_trip
    (bridge_dir : string) (rows : list (string * CoinRow)) (top_n : Z)
    (strategy_name : string) (sys : Sys) (rd : Reader) :
  io_ok sys = true ->
  let items := ranked_items rows top_n in
  let p := payload (Py.int (time_time sys)) strategy_name items in
  exists sys',
    write json_dump bridge_dir rows top_n strategy_name sys = (sys', true)
    /\ fst (read json_load bridge_dir rd sys') = Some p
    /\ payload_fields p
       = ["ts"; "bridge_version"; "strategy"; "top_n"; "items"]
    /\ payload_get "ts" p = Some (JInt (Py.int (time_time sys)))
    /\ payload_get "bridge_version" p = Some (JStr "2.0")
    /\ payload_get "strategy" p = Some (JStr strategy_name)
    /\ payload_get "top_n" p = Some (JInt (Py.len items))
    /\ payload_get "items" p = Some (JList (map JDict items)).
Proof using json_round_trip.
  intros Hio items p. unfold write, atomic_write. rewrite Hio.
  cbn [negb]. rewrite lookup_insert_eq. eexists. split; [reflexivity|].
  split.
  - unfold read. cbn [io_ok set_files files negb].
    rewrite Hio. cbn [negb]. rewrite lookup_insert_eq.
    cbn [fst file_data]. apply json_round_trip.
  - repeat split.
Qed.

End Exchange.

(** C8 as stated fails on the field names: the payload read back has no
    field [version]. *)
Lemma version_field_counterexample :
  let sys' := fst (write id "bridge" mixed_rows 30 "ShortExhaustion"
                     (sys_at 1700000000)) in
  exists p, fst (read Some "bridge" (mkReader 0) sys') = Some p
    /\ payload_get "version" p = None
    /\ payload_fields p <> ["ts"; "version"; "strategy"; "top_n"; "items"].
Proof.
  eexists. split; [vm_compute; reflexivity|]. split; [reflexivity|].
  discriminate.
Qed.

(** A write of [mixed_rows] into an empty directory, with the file
    holding the JSON value itself, reads back field for field. *)
Lemma bridge_round_trip_witness :
  exists sys',
    write id "bridge" mixed_rows 30 "ShortExhaustion" (sys_at 1700000000)
    = (sys', true)
    /\ fst (read Some "bridge" (mkReader 0) sys')
       = Some (payload 1700000000 "ShortExhaustion"
                 (ranked_items mixed_rows 30)).
Proof.
  destruct (bridge_round_trip id Some (fun v => eq_refl) "bridge"
              mixed_rows 30 "ShortExhaustion" (sys_at 1700000000)
              (mkReader 0) eq_refl) as (sys' & W & R & _).
  exists sys'. split; [exact W | exact R].
Defined.

End BridgeFacts.

(* ================================================================== *)
(** * Lists of numbers *)
(* ================================================================== *)

Module NumFacts.

Local Open Scope Q_scope.

Lemma geb_le x y : Py.geb x y = true <-> y <= x.
Proof. apply PyFacts.leb_le. Qed.

Lemma geb_lt x y : Py.geb x y = false <-> x < y.
Proof. apply PyFacts.leb_gt. Qed.

Lemma gtb_le x y : Py.gtb x y = false <-> x <= y.
Proof. apply PyFacts.ltb_ge. Qed.

(** [x or 0] is [x]. *)
Lemma or_else_zero x : Py.or_else x 0 == x.
Proof.
  unfold Py.or_else, Py.truthy. destruct (Py.eqb x 0) eqn:E; cbn.
  - apply PyFacts.eqb_eq in E. symmetry. exact E.
  - reflexivity.
Qed.

Lemma get_or_zero_eq x : Py.get_or_zero x == x.
Proof.
  unfold Py.get_or_zero, Py.or_else at 1, Py.truthy.
  destruct (Py.eqb x 0) eqn:E; cbn.
  - apply PyFacts.eqb_eq in E. rewrite E. reflexivity.
  - reflexivity.
Qed.

Lemma max2_ge_l a b : a <= Py.max2 a b.
Proof. destruct (PositionFacts.max2_cases a b) as [[? ->]|[? ->]]; lra. Qed.

Lemma max2_ge_r a b : b <= Py.max2 a b.
Proof. destruct (PositionFacts.max2_cases a b) as [[? ->]|[? ->]]; lra. Qed.

Lemma min2_le_l a b : Py.min2 a b <= a.
Proof. destruct (PositionFacts.min2_cases a b) as [[? ->]|[? ->]]; lra. Qed.

Lemma min2_le_r a b : Py.min2 a b <= b.
Proof. destruct (PositionFacts.min2_cases a b) as [[? ->]|[? ->]]; lra. Qed.

(** The running maximum is an element and bounds every element. *)
Lemma fold_max2_spec l x :
  let m := fold_left Py.max2 l x in
  In m (x :: l) /\ x <= m /\ Forall (fun y => y <= m) l.
Proof.
  revert x. induction l as [|y l IH]; intros x; cbn.
  - split; [auto|]. split; [lra | constructor].
  - destruct (IH (Py.max2 x y)) as (Hin & Hle & Hall). cbn zeta in *.
    pose proof (max2_ge_l x y). pose proof (max2_ge_r x y).
    split; [|split; [lra | constructor; [lra | exact Hall]]].
    destruct Hin as [Hin | Hin]; [|right; right; exact Hin].
    rewrite <- Hin.
    destruct (PositionFacts.max2_cases x y) as [[_ E]|[_ E]];
      rewrite E; auto.
Qed.

Lemma fold_min2_spec l x :
  let m := fold_left Py.min2 l x in
  In m (x :: l) /\ m <= x /\ Forall (fun y => m <= y) l.
Proof.
  revert x. induction l as [|y l IH]; intros x; cbn.
  - split; [auto|]. split; [lra | constructor].
  - destruct (IH (Py.min2 x y)) as (Hin & Hle & Hall). cbn zeta in *.
    pose proof (min2_le_l x y). pose proof (min2_le_r x y).
    split; [|split; [lra | constructor; [lra | exact Hall]]].
    destruct Hin as [Hin | Hin]; [|right; right; exact Hin].
    rewrite <- Hin.
    destruct (PositionFacts.min2_cases x y) as [[_ E]|[_ E]];
      rewrite E; auto.
Qed.

(** [max(l)] is an element of [l] and bounds [l]. *)
Lemma max_list_spec l m :
  Py.max_list l = Py.Ok m -> In m l /\ Forall (fun y => y <= m) l.
Proof.
  destruct l as [|x l]; [discriminate|]. intros [= <-].
  destruct (fold_max2_spec l x) as (Hin & Hle & Hall).
  split; [exact Hin | constructor; assumption].
Qed.

Lemma min_list_spec l m :
  Py.min_list l = Py.Ok m -> In m l /\ Forall (fun y => m <= y) l.
Proof.
  destruct l as [|x l]; [discriminate|]. intros [= <-].
  destruct (fold_min2_spec l x) as (Hin & Hle & Hall).
  split; [exact Hin | constructor; assumption].
Qed.

Lemma in_firstn {A} (n : nat) (l : list A) x : In x (firstn n l) -> In x l.
Proof.
  intros H. rewrite <- (firstn_skipn n l). apply in_or_app. left. exact H.
Qed.

Lemma in_skipn {A} (n : nat) (l : list A) x : In x (skipn n l) -> In x l.
Proof.
  intros H. rewrite <- (firstn_skipn n l). apply in_or_app. right. exact H.
Qed.

(** A slice holds elements of the list. *)
Lemma slice_incl {A} (l : list A) lo hi x :
  In x (Py.slice l lo hi) -> In x l.
Proof.
  unfold Py.slice. intros H. eapply in_skipn, in_firstn, H.
Qed.

Lemma slice_Forall {A} (P : A -> Prop) (l : list A) lo hi :
  Forall P l -> Forall P (Py.slice l lo hi).
Proof.
  rewrite !List.Forall_forall. intros H x Hx. eapply H, slice_incl, Hx.
Qed.

(** [l[-n:]] for [1 <= n <= len(l)] is the last [n] elements. *)
Lemma slice_last {A} (l : list A) (n : Z) :
  (1 <= n <= Py.len l)%Z ->
  Py.slice l (Some (- n)%Z) None = skipn (length l - Z.to_nat n) l.
Proof.
  intros H. unfold Py.slice, Py.slice_bound, Py.len in *.
  destruct (- n <? 0)%Z eqn:E; [|apply Z.ltb_ge in E; lia].
  replace (Z.to_nat (Z.max (- n + Z.of_nat (length l)) 0))
    with (length l - Z.to_nat n)%nat by lia.
  apply firstn_all2. rewrite length_skipn. lia.
Qed.

(** [l[-0:]] is [l]. *)
Lemma slice_last_zero {A} (l : list A) :
  Py.slice l (Some (- 0)%Z) None = l.
Proof.
  unfold Py.slice, Py.slice_bound, Py.len. cbn.
  rewrite Z.min_l by lia. cbn. rewrite Z.sub_0_r, Nat2Z.id.
  apply firstn_all.
Qed.

Lemma sum_app l x : Py.sum (l ++ [x]) = Py.sum l + x.
Proof. unfold Py.sum. rewrite fold_left_app. reflexivity. Qed.

End NumFacts.

(* ================================================================== *)
(** * Percentages, candles and levels *)
(* ================================================================== *)

Module MathUtilsFacts.

Import MathUtils.
Local Open Scope Q_scope.

(** Case analysis on every [max] and [min] of two numbers in the goal. *)
Ltac minmax :=
  repeat match goal with
         | |- context [Py.max2 ?a ?b] =>
             let E := fresh "E" in
             destruct (PositionFacts.max2_cases a b) as [[? E]|[? E]];
             rewrite E in *; clear E
         | |- context [Py.min2 ?a ?b] =>
             let E := fresh "E" in
             destruct (PositionFacts.min2_cases a b) as [[? E]|[? E]];
             rewrite E in *; clear E
         | H : context [Py.max2 ?a ?b] |- _ =>
             let E := fresh "E" in
             destruct (PositionFacts.max2_cases a b) as [[? E]|[? E]];
             rewrite E in *; clear E
         | H : context [Py.min2 ?a ?b] |- _ =>
             let E := fresh "E" in
             destruct (PositionFacts.min2_cases a b) as [[? E]|[? E]];
             rewrite E in *; clear E
         end.

(** X1.  [clamp] returns a value of the range unchanged and the nearer
    bound for a value outside it, so clamping twice is clamping once.
    With the bounds the wrong way round it returns the lower bound
    argument, whatever the value. *)
Theorem clamp_saturates (x lo hi : Q) :
  (lo <= hi -> lo <= x <= hi -> clamp x lo hi == x)
  /\ (lo <= hi -> x <= lo -> clamp x lo hi == lo)
  /\ (lo <= hi -> hi <= x -> clamp x lo hi == hi)
  /\ (hi < lo -> clamp x lo hi = lo)
  /\ clamp (clamp x lo hi) lo hi == clamp x lo hi.
Proof.
  unfold clamp. repeat split; intros; minmax; try reflexivity; try lra;
    exfalso; lra.
Qed.

Lemma clamp_saturates_witness :
  clamp 50 0 100 == 50 /\ clamp (-3) 0 100 == 0 /\ clamp 250 0 100 == 100
  /\ clamp 50 100 0 = 100.
Proof.
  destruct (clamp_saturates 50 0 100) as (H1 & _).
  destruct (clamp_saturates (-3) 0 100) as (_ & H2 & _).
  destruct (clamp_saturates 250 0 100) as (_ & _ & H3 & _).
  destruct (clamp_saturates 50 100 0) as (_ & _ & _ & H4 & _).
  split; [apply H1; [discriminate | split; discriminate]|].
  split; [apply H2; discriminate|].
  split; [apply H3; discriminate|].
  apply H4. reflexivity.
Defined.

(** X2.  [normalize_score] always returns, its result is between 0 and
    100, it is 50 for an empty or inverted range, and for a value inside
    a proper range it is the value's place in the range in percent. *)
Theorem normalize_score_bounds (value min_val max_val : Q) :
  exists s,
    normalize_score value min_val max_val = Py.Ok s
    /\ 0 <= s <= 100
    /\ (max_val <= min_val -> s = 50.0)
    /\ (min_val < max_val -> min_val <= value <= max_val ->
        s == (value - min_val) / (max_val - min_val) * 100).
Proof.
  unfold normalize_score. destruct (Py.leb max_val min_val) eqn:E.
  - apply PyFacts.leb_le in E. exists 50.0. split; [reflexivity|].
    split; [split; discriminate|]. split; [reflexivity|]. intros H. lra.
  - apply PyFacts.leb_gt in E. rewrite PositionFacts.div_ok by lra.
    cbn [mbind Py.result_bind]. eexists. split; [reflexivity|].
    split; [apply PositionFacts.clamp_bounds; discriminate|].
    split; [intros H; lra|]. intros _ [Hl Hh].
    pose proof (PositionFacts.pct_nonneg (value - min_val)
                  (max_val - min_val)).
    pose proof (PositionFacts.pct_le_100 (value - min_val)
                  (max_val - min_val)).
    unfold clamp. minmax; lra.
Qed.

Lemma normalize_score_bounds_witness :
  exists s, normalize_score 3 5 5 = Py.Ok s /\ s = 50.0.
Proof.
  destruct (normalize_score_bounds 3 5 5) as (s & E & _ & H & _).
  exists s. split; [exact E|]. apply H. discriminate.
Defined.

Lemma safe_div_nonzero a b d : ~ b == 0 -> safe_div a b d = a / b.
Proof.
  intros H. unfold safe_div. apply PyFacts.eqb_neq in H. rewrite H.
  reflexivity.
Qed.

Lemma safe_div_zero a b d : b == 0 -> safe_div a b d = d.
Proof.
  intros H. unfold safe_div. apply PyFacts.eqb_eq in H. rewrite H.
  reflexivity.
Qed.

Lemma pct_change_pos old new :
  0 < old -> (0 < pct_change old new <-> old < new).
Proof.
  intros H. unfold pct_change.
  destruct (Py.eqb old 0) eqn:E; [apply PyFacts.eqb_eq in E; lra|].
  split; intros H1.
  - destruct (Qlt_le_dec old new) as [|Hle]; [assumption|].
    assert ((new - old) / old <= 0).
    { apply Qle_shift_div_r; lra. }
    lra.
  - assert (0 < (new - old) / old).
    { apply Qlt_shift_div_l; lra. }
    lra.
Qed.

(** X3.  [pct] and [pct_change] are the same function; both answer 0
    for a base of 0 instead of dividing, and for a positive base the
    sign of the change is the direction of the move.  [trend_ppm] is 0
    without a positive starting price and a positive number of minutes,
    and otherwise the percentage change spread over the minutes. *)
Theorem percent_change_agree (a b : Q) (minutes : Z) :
  pct a b == pct_change a b
  /\ (a == 0 -> pct_change a b = 0.0)
  /\ (0 < a -> (0 < pct_change a b <-> a < b))
  /\ (a <= 0 \/ (minutes <= 0)%Z -> trend_ppm a b minutes = 0.0)
  /\ (0 < a -> (0 < minutes)%Z ->
      trend_ppm a b minutes * inject_Z minutes == pct_change a b).
Proof.
  split; [|split; [|split; [|split]]].
  - unfold pct, pct_change, safe_div.
    destruct (Py.eqb a 0); cbn [negb]; reflexivity.
  - intros H. unfold pct_change. apply PyFacts.eqb_eq in H. rewrite H.
    reflexivity.
  - apply pct_change_pos.
  - intros H. unfold trend_ppm.
    destruct (Py.leb a 0) eqn:E; [reflexivity|]. cbn [orb].
    apply PyFacts.leb_gt in E.
    destruct H as [H | H]; [lra|].
    apply Z.leb_le in H. rewrite H. reflexivity.
  - intros Ha Hm. unfold trend_ppm.
    destruct (Py.leb a 0) eqn:E; [apply PyFacts.leb_le in E; lra|].
    destruct (Z.leb_spec minutes 0) as [|_]; [lia|]. cbn [orb].
    assert (0 < inject_Z minutes) by (rewrite <- (Zlt_Qlt 0); exact Hm).
    field. lra.
Qed.

Lemma percent_change_agree_witness :
  0 < pct_change 100 105
  /\ trend_ppm 0 105 5 = 0.0
  /\ trend_ppm 100 105 5 * inject_Z 5 == pct_change 100 105.
Proof.
  destruct (percent_change_agree 100 105 5) as (_ & _ & H1 & _ & H2).
  destruct (percent_change_agree 0 105 5) as (_ & _ & _ & H3 & _).
  split; [apply H1; reflexivity|].
  split; [apply H3; left; discriminate|].
  apply H2; reflexivity.
Defined.

(** X4.  [down] and [up] split a number into its negative and its
    positive part: [down] is never positive, [up] never negative, one of
    them is 0 and their sum is the number. *)
Theorem down_up_split (x : Q) :
  down x <= 0 /\ 0 <= up x /\ down x + up x == x
  /\ (down x == 0 \/ up x == 0).
Proof.
  unfold down, up. minmax; repeat split; try lra.
  all: first [left; lra | right; lra].
Qed.

(** ** Structure score *)

Lemma red_count_bounds l c :
  (c <= fold_left red_step l c <= c + Py.len l)%Z.
Proof.
  revert c. induction l as [|k l IH]; intros c; cbn [fold_left].
  - unfold Py.len. cbn. lia.
  - specialize (IH (red_step c k)). unfold Py.len in *.
    cbn [length] in *. unfold red_step in *.
    destruct (Py.ltb _ _); lia.
Qed.

Lemma is_empty_false {A} (l : list A) : l <> [] -> Py.is_empty l = false.
Proof. destruct l; [congruence | reflexivity]. Qed.

(** X5.  For a window of at least one candle [structure_score_from_candles]
    returns a share between 0 and 100, and 50 when there are fewer
    candles than the window.  A window of 0 on a list that is not empty
    divides by zero. *)
Theorem structure_score_bounds (klines : list Candle) (n : Z) :
  ((1 <= n)%Z ->
   exists s, structure_score_from_candles klines n = Py.Ok s
     /\ 0 <= s <= 100
     /\ ((Py.len klines < n)%Z -> s = 50.0))
  /\ (klines <> [] ->
      structure_score_from_candles klines 0 = Py.Raise Py.ZeroDivisionError).
Proof.
  split.
  - intros Hn. unfold structure_score_from_candles.
    destruct (Py.is_empty klines || (Py.len klines <? n)%Z) eqn:E.
    + exists 50.0. split; [reflexivity|]. split; [split; discriminate|].
      reflexivity.
    + apply orb_false_iff in E as [_ E]. apply Z.ltb_ge in E.
      pose proof (PyFacts.slice_suffix_length klines n (conj Hn E)) as HL.
      pose proof (red_count_bounds
                    (Py.slice klines (Some (- n)%Z) None) 0) as HB.
      unfold Py.len in HB at 1. rewrite HL, Z2Nat.id in HB by lia.
      set (rc := fold_left red_step _ 0%Z) in *.
      assert (H0 : 0 < inject_Z n) by (rewrite <- (Zlt_Qlt 0); lia).
      assert (H1 : 0 <= inject_Z rc) by (rewrite <- (Zle_Qle 0); lia).
      assert (H2 : inject_Z rc <= inject_Z n) by (rewrite <- Zle_Qle; lia).
      rewrite PositionFacts.div_ok by lra. cbn [mbind Py.result_bind].
      eexists. split; [reflexivity|]. split.
      * split; [apply PositionFacts.pct_nonneg
               | apply PositionFacts.pct_le_100]; lra.
      * intros H. lia.
  - intros H. unfold structure_score_from_candles.
    rewrite (is_empty_false _ H). cbn [orb].
    destruct (Z.ltb_spec (Py.len klines) 0) as [Hl|_];
      [unfold Py.len in Hl; lia|].
    reflexivity.
Qed.

Lemma structure_score_bounds_witness :
  (exists s,
     structure_score_from_candles
       [Fixtures.top_candle; Fixtures.dip_candle; Fixtures.recovery_candle] 2
     = Py.Ok s /\ 0 <= s <= 100)
  /\ structure_score_from_candles [Fixtures.top_candle] 0
     = Py.Raise Py.ZeroDivisionError.
Proof.
  destruct (structure_score_bounds
              [Fixtures.top_candle; Fixtures.dip_candle;
               Fixtures.recovery_candle] 2) as (H1 & _).
  destruct (structure_score_bounds [Fixtures.top_candle] 0) as (_ & H2).
  split.
  - destruct H1 as (s & E & B & _); [lia|]. exists s. split; assumption.
  - apply H2. discriminate.
Defined.

(** X6.  For a candle whose open and close lie between its low and its
    high the body ratio is between 0 and 1; for a candle with high equal
    to low it is 0.5. *)
Theorem body_size_ratio_bounds (k : Candle) :
  (low k <= open k <= high k -> low k <= close k <= high k ->
   0 <= body_size_ratio k <= 1)
  /\ (high k == low k -> body_size_ratio k = 0.5).
Proof.
  unfold body_size_ratio.
  pose proof (NumFacts.get_or_zero_eq (open k)) as Ho.
  pose proof (NumFacts.get_or_zero_eq (close k)) as Hc.
  pose proof (NumFacts.get_or_zero_eq (high k)) as Hh.
  pose proof (NumFacts.get_or_zero_eq (low k)) as Hl.
  set (o := Py.get_or_zero (open k)) in *.
  set (c := Py.get_or_zero (close k)) in *.
  set (h := Py.get_or_zero (high k)) in *.
  set (l := Py.get_or_zero (low k)) in *.
  split.
  - intros H1 H2.
    destruct (Qeq_dec (h - l) 0) as [E | E].
    + rewrite safe_div_zero by exact E. split; discriminate.
    + rewrite safe_div_nonzero by exact E.
      assert (0 < h - l) by lra.
      apply Qabs_case; intros Hs; split;
        first [apply Qle_shift_div_l | apply Qle_shift_div_r]; lra.
  - intros H. apply safe_div_zero. lra.
Qed.

Lemma body_size_ratio_bounds_witness :
  0 <= body_size_ratio Fixtures.dip_candle <= 1
  /\ body_size_ratio (Fixtures.candle_with_volume 7) = 0.5.
Proof.
  destruct (body_size_ratio_bounds Fixtures.dip_candle) as (H1 & _).
  destruct (body_size_ratio_bounds (Fixtures.candle_with_volume 7))
    as (_ & H2).
  split.
  - apply H1; split; discriminate.
  - apply H2. reflexivity.
Defined.

End MathUtilsFacts.

(* ================================================================== *)
(** * Candle history *)
(* ================================================================== *)

Module HistoryFacts.

Import MathUtils.
Local Open Scope Q_scope.

Lemma index_In {A} (l : list A) (i : Z) (x : A) :
  Py.index l i = Py.Ok x -> In x l.
Proof.
  unfold Py.index. destruct (_ || _)%bool; [discriminate|].
  destruct (nth_error l _) eqn:E; [|discriminate].
  intros [= <-]. eapply nth_error_In, E.
Qed.

(** [l[-(k+1)]] for [0 <= k < len(l)] is the element [k] places before
    the last. *)
Lemma index_from_end {A} (l : list A) (k : Z) :
  (0 <= k < Py.len l)%Z ->
  exists x, nth_error l (length l - 1 - Z.to_nat k) = Some x
            /\ Py.index l (- (k + 1)) = Py.Ok x.
Proof.
  intros H. unfold Py.index, Py.len in *.
  destruct (Z.ltb_spec (- (k + 1)) 0) as [_|]; [|lia].
  destruct (Z.ltb_spec (- (k + 1) + Z.of_nat (length l)) 0) as [|_]; [lia|].
  destruct (Z.leb_spec (Z.of_nat (length l))
              (- (k + 1) + Z.of_nat (length l))) as [|_]; [lia|].
  cbn [orb].
  replace (Z.to_nat (- (k + 1) + Z.of_nat (length l)))
    with (length l - 1 - Z.to_nat k)%nat by lia.
  destruct (nth_error l (length l - 1 - Z.to_nat k)) eqn:E.
  - eauto.
  - apply nth_error_None in E. lia.
Qed.

(** [l[-(k+1)]] of a list that ends with [x] followed by [k] more. *)
Lemma index_back {A} (pre : list A) (x : A) (post : list A) :
  Py.index (pre ++ x :: post) (- (Py.len post + 1)) = Py.Ok x.
Proof.
  destruct (index_from_end (pre ++ x :: post) (Py.len post))
    as (y & Hy & E).
  { unfold Py.len. rewrite length_app. cbn [length]. lia. }
  rewrite E. f_equal.
  rewrite length_app in Hy. cbn [length] in Hy. unfold Py.len in Hy.
  rewrite Nat2Z.id in Hy.
  replace (length pre + S (length post) - 1 - length post)%nat
    with (length pre + 0)%nat in Hy by lia.
  rewrite nth_error_app2 in Hy by lia.
  replace (length pre + 0 - length pre)%nat with 0%nat in Hy by lia.
  cbn in Hy. congruence.
Qed.

(** X7.  For a non-negative number of hours [close_hours_ago] answers
    [None] exactly when the history has no candle that many places
    before the last one, and otherwise the close of that candle.  For a
    negative [hours] it reads from the front of the list and, at
    [hours = -(len + 1)], past its end. *)
Theorem close_hours_ago_spec (klines_1h : list Candle) (hours : Z) :
  ((0 <= hours)%Z ->
   ((Py.len klines_1h <= hours)%Z ->
    close_hours_ago klines_1h hours = Py.Ok None)
   /\ ((hours < Py.len klines_1h)%Z ->
       exists c,
         nth_error klines_1h (length klines_1h - 1 - Z.to_nat hours) = Some c
         /\ close_hours_ago klines_1h hours
            = Py.Ok (Some (Py.get_or_zero (close c)))))
  /\ (klines_1h <> [] ->
      close_hours_ago klines_1h (- Py.len klines_1h - 1)
      = Py.Raise Py.IndexError).
Proof.
  split.
  - intros H0. split.
    + intros H. unfold close_hours_ago.
      destruct (Py.is_empty klines_1h); [reflexivity|]. cbn [orb].
      destruct (Z.ltb_spec (Py.len klines_1h) hours); [reflexivity|].
      destruct (Z.ltb_spec (Py.len klines_1h) (Z.abs (- (hours + 1))));
        [reflexivity | lia].
    + intros H. unfold close_hours_ago.
      rewrite MathUtilsFacts.is_empty_false
        by (intros ->; unfold Py.len in H; cbn in H; lia).
      cbn [orb].
      destruct (Z.ltb_spec (Py.len klines_1h) hours); [lia|].
      destruct (Z.ltb_spec (Py.len klines_1h) (Z.abs (- (hours + 1))));
        [lia|].
      destruct (index_from_end klines_1h hours) as (c & Hc & E); [lia|].
      rewrite E. cbn [mbind Py.result_bind]. eauto.
  - intros H. unfold close_hours_ago.
    rewrite MathUtilsFacts.is_empty_false by exact H. cbn [orb].
    assert (Hl : (1 <= Py.len klines_1h)%Z).
    { destruct klines_1h; [congruence|]. unfold Py.len. cbn [length]. lia. }
    destruct (Z.ltb_spec (Py.len klines_1h) (- Py.len klines_1h - 1));
      [lia|].
    replace (- (- Py.len klines_1h - 1 + 1))%Z with (Py.len klines_1h)
      by lia.
    destruct (Z.ltb_spec (Py.len klines_1h) (Z.abs (Py.len klines_1h)));
      [lia|].
    unfold Py.index.
    destruct (Z.ltb_spec (Py.len klines_1h) 0); [lia|].
    destruct (Z.ltb_spec (Py.len klines_1h) 0); [lia|].
    rewrite Z.leb_refl. reflexivity.
Qed.

Lemma close_hours_ago_spec_witness :
  close_hours_ago [Fixtures.top_candle; Fixtures.dip_candle] 2 = Py.Ok None
  /\ (exists c,
        close_hours_ago [Fixtures.top_candle; Fixtures.dip_candle] 1
        = Py.Ok (Some (Py.get_or_zero (close c))))
  /\ close_hours_ago [Fixtures.top_candle; Fixtures.dip_candle] (-3)
     = Py.Raise Py.IndexError.
Proof.
  destruct (close_hours_ago_spec
              [Fixtures.top_candle; Fixtures.dip_candle] 2) as (H1 & _).
  destruct (close_hours_ago_spec
              [Fixtures.top_candle; Fixtures.dip_candle] 1) as (H2 & _).
  destruct (close_hours_ago_spec
              [Fixtures.top_candle; Fixtures.dip_candle] 0) as (_ & H3).
  split; [apply H1; [lia | reflexivity]|]. split.
  - destruct H2 as (_ & H2); [lia|].
    destruct H2 as (c & _ & E); [reflexivity|]. exists c. exact E.
  - apply H3. discriminate.
Defined.

(** ** Local high and low *)

Lemma subset_window (klines : list Candle) (lookback : Z) :
  (0 <= lookback)%Z ->
  (if (lookback <=? Py.len klines)%Z
   then Py.slice klines (Some (- lookback)%Z) None
   else klines) = lookback_window klines lookback.
Proof.
  intros H. unfold lookback_window.
  destruct (Z.leb_spec lookback (Py.len klines)) as [Hl|Hl].
  - destruct (Z.leb_spec 1 lookback) as [H1|H1]; cbn [andb].
    + apply NumFacts.slice_last. lia.
    + assert (lookback = 0%Z) as -> by lia. apply NumFacts.slice_last_zero.
  - rewrite andb_false_r. reflexivity.
Qed.

Lemma window_nonempty klines lookback :
  klines <> [] -> lookback_window klines lookback <> [].
Proof.
  intros H. unfold lookback_window.
  destruct (Z.leb_spec 1 lookback) as [H1|H1]; [|exact H].
  destruct (Z.leb_spec lookback (Py.len klines)) as [H2|H2]; [|exact H].
  cbn [andb]. intros E. apply (f_equal (@length _)) in E.
  rewrite length_skipn in E. unfold Py.len in H2. cbn in E. lia.
Qed.

Lemma window_incl klines lookback k :
  In k (lookback_window klines lookback) -> In k klines.
Proof.
  unfold lookback_window.
  destruct (_ && _)%bool; [apply NumFacts.in_skipn | auto].
Qed.

(** X8.  For a non-negative [lookback], [local_high] and [local_low]
    always return; on an empty history both are 0; otherwise the local
    high is the greatest high and the local low the smallest low of the
    window, so the low is not above the high when every candle has its
    low at or below its high.  A negative [lookback] can leave an empty
    window, and [max] of nothing raises [ValueError]. *)
Theorem local_extremes (klines : list Candle) (lookback : Z) :
  ((0 <= lookback)%Z ->
   exists h l,
     local_high klines lookback = Py.Ok h
     /\ local_low klines lookback = Py.Ok l
     /\ (klines = [] -> h = 0.0 /\ l = 0.0)
     /\ (klines <> [] ->
         let window := lookback_window klines lookback in
         Forall (fun k => high k <= h /\ l <= low k) window
         /\ (exists k, In k window /\ h == high k)
         /\ (exists k, In k window /\ l == low k))
     /\ (Forall (fun k => low k <= high k) klines -> l <= h))
  /\ (klines <> [] ->
      local_high klines (- Py.len klines) = Py.Raise Py.ValueError).
Proof.
  split.
  - intros H0. unfold local_high, local_low.
    destruct klines as [|k0 klines'] eqn:Ek.
    { exists 0.0, 0.0. cbn. repeat split; try reflexivity; try congruence.
      intros _. discriminate. }
    rewrite <- Ek in *. rewrite MathUtilsFacts.is_empty_false
      by (rewrite Ek; discriminate).
    rewrite (subset_window klines lookback H0).
    pose proof (window_nonempty klines lookback) as Hne.
    destruct (lookback_window klines lookback) as [|w ws] eqn:Ew;
      [exfalso; apply Hne; [rewrite Ek; discriminate | reflexivity]|].
    clear Hne.
    destruct (PyFacts.max_list_ok
                (map (fun k => Py.get_or_zero (high k)) (w :: ws)))
      as (h & Eh); [discriminate|].
    destruct (PyFacts.min_list_ok
                (map (fun k => Py.get_or_zero (low k)) (w :: ws)))
      as (l & El); [discriminate|].
    exists h, l. rewrite Eh, El.
    apply NumFacts.max_list_spec in Eh as (Hin & Hmax).
    apply NumFacts.min_list_spec in El as (Hil & Hmin).
    apply in_map_iff in Hin as (kh & Ekh & Hkh).
    apply in_map_iff in Hil as (kl & Ekl & Hkl).
    rewrite List.Forall_map in Hmax, Hmin.
    assert (HF : Forall (fun k => high k <= h /\ l <= low k) (w :: ws)).
    { rewrite List.Forall_forall in *. intros k Hk.
      specialize (Hmax k Hk). specialize (Hmin k Hk). cbn beta in *.
      rewrite NumFacts.get_or_zero_eq in Hmax, Hmin. split; assumption. }
    split; [reflexivity|]. split; [reflexivity|].
    split; [rewrite Ek; discriminate|]. split.
    + intros _. cbn zeta. split; [exact HF|]. split.
      * exists kh. split; [exact Hkh|].
        rewrite <- Ekh. apply NumFacts.get_or_zero_eq.
      * exists kl. split; [exact Hkl|].
        rewrite <- Ekl. apply NumFacts.get_or_zero_eq.
    + intros Hc. rewrite List.Forall_forall in HF, Hc.
      destruct (HF w (or_introl eq_refl)) as (A & B).
      assert (In w klines)
        by (apply (window_incl klines lookback); rewrite Ew; left;
            reflexivity).
      specialize (Hc w ltac:(assumption)). lra.
  - intros H. unfold local_high.
    rewrite MathUtilsFacts.is_empty_false by exact H.
    destruct (Z.leb_spec (- Py.len klines) (Py.len klines)) as [_|Hl];
      [|unfold Py.len in Hl; lia].
    unfold Py.slice, Py.slice_bound. rewrite Z.opp_involutive.
    destruct (Z.ltb_spec (Py.len klines) 0) as [Hl|_];
      [unfold Py.len in Hl; lia|].
    rewrite Z.min_id, Z.sub_diag. reflexivity.
Qed.

Lemma local_extremes_witness :
  (exists h l,
     local_high Fixtures.v_recovery_candles_5m 3 = Py.Ok h
     /\ local_low Fixtures.v_recovery_candles_5m 3 = Py.Ok l
     /\ l <= h)
  /\ local_high [Fixtures.top_candle] (-1) = Py.Raise Py.ValueError.
Proof.
  destruct (local_extremes Fixtures.v_recovery_candles_5m 3) as (H1 & _).
  destruct (local_extremes [Fixtures.top_candle] 0) as (_ & H2).
  split.
  - destruct H1 as (h & l & Eh & El & _ & _ & Hle); [lia|].
    exists h, l. split; [exact Eh|]. split; [exact El|].
    apply Hle. repeat constructor; discriminate.
  - apply H2. discriminate.
Defined.

End HistoryFacts.

(* ================================================================== *)
(** * Support and resistance *)
(* ================================================================== *)

Module LevelFacts.

Import MathUtils.
Local Open Scope Q_scope.

Lemma ltb_asymmetric : Py.asymmetric Py.ltb.
Proof.
  intros x y H. apply PyFacts.ltb_lt in H. apply PyFacts.ltb_ge. lra.
Qed.

Lemma ltb_negatively_transitive : Py.negatively_transitive Py.ltb.
Proof.
  intros x y z H1 H2. apply PyFacts.ltb_ge in H1, H2. apply PyFacts.ltb_ge.
  lra.
Qed.

Lemma gtb_asymmetric : Py.asymmetric Py.gtb.
Proof. intros x y H. apply ltb_asymmetric. exact H. Qed.

Lemma gtb_negatively_transitive : Py.negatively_transitive Py.gtb.
Proof.
  intros x y z H1 H2. unfold Py.gtb in *.
  apply PyFacts.ltb_ge in H1, H2. apply PyFacts.ltb_ge. lra.
Qed.

(** [sorted(l)] is ascending, [sorted(l, reverse=True)] descending. *)
Lemma sorted_ascending l : StronglySorted Qle (Py.sorted l).
Proof.
  assert (H : StronglySorted (Py.not_after Py.ltb) (Py.sorted l)).
  { apply SortFacts.sort_sorted.
    - exact ltb_asymmetric.
    - exact ltb_negatively_transitive. }
  induction H as [|x t Hs IH Hx]; constructor; [exact IH|].
  eapply Forall_impl; [exact Hx|]. intros y Hy. apply PyFacts.ltb_ge, Hy.
Qed.

Lemma sorted_descending l :
  StronglySorted (fun a b => b <= a) (Py.sorted_reverse l).
Proof.
  assert (H : StronglySorted (Py.not_after Py.gtb) (Py.sorted_reverse l)).
  { apply SortFacts.sort_sorted.
    - exact gtb_asymmetric.
    - exact gtb_negatively_transitive. }
  induction H as [|x t Hs IH Hx]; constructor; [exact IH|].
  eapply Forall_impl; [exact Hx|]. intros y Hy.
  unfold Py.not_after, Py.gtb in Hy. apply PyFacts.ltb_ge, Hy.
Qed.

Lemma sorted_Forall (P : Q -> Prop) l : Forall P l -> Forall P (Py.sorted l).
Proof.
  intros H. eapply Permutation_Forall; [|exact H].
  symmetry. apply SortFacts.sort_perm.
Qed.

Lemma sorted_reverse_Forall (P : Q -> Prop) l :
  Forall P l -> Forall P (Py.sorted_reverse l).
Proof.
  intros H. eapply Permutation_Forall; [|exact H].
  symmetry. apply SortFacts.sort_perm.
Qed.

Lemma filter_Forall (f : Q -> bool) l :
  Forall (fun x => f x = true) (List.filter f l).
Proof.
  apply List.Forall_forall. intros x Hx. apply filter_In in Hx as [_ Hx].
  exact Hx.
Qed.

Lemma prefix_length {A} (l : list A) (n : Z) :
  (0 <= n)%Z -> (length (Py.slice l None (Some n)) <= Z.to_nat n)%nat.
Proof.
  intros H. rewrite SortFacts.slice_to_prefix, length_firstn.
  unfold Py.slice_bound. destruct (Z.ltb_spec n 0); lia.
Qed.

(** ** When the clustering returns *)

Lemma extrema_loop_step prev curr next rest :
  extrema_loop (prev :: curr :: next :: rest)
  = let '(highs, lows) := extrema_loop (curr :: next :: rest) in
    ((if Py.gtb (level_of (high curr)) (level_of (high prev))
         && Py.gtb (level_of (high curr)) (level_of (high next))
      then level_of (high curr) :: highs else highs),
     (if Py.ltb (level_of (low curr)) (level_of (low prev))
         && Py.ltb (level_of (low curr)) (level_of (low next))
      then level_of (low curr) :: lows else lows)).
Proof. reflexivity. Qed.

(** Local extremes of candles with positive prices are positive. *)
Lemma extrema_positive klines :
  Forall (fun k => 0 < high k /\ 0 < low k) klines ->
  Forall (fun x => 0 < x) (fst (extrema_loop klines))
  /\ Forall (fun x => 0 < x) (snd (extrema_loop klines)).
Proof.
  induction klines as [|a t IH]; intros H; [cbn; auto|].
  destruct t as [|b [|c r]]; [cbn; auto | cbn; auto|].
  inversion H as [|? ? Ha Ht]; subst. specialize (IH Ht).
  inversion Ht as [|? ? [Hbh Hbl] _]; subst.
  rewrite extrema_loop_step. destruct (extrema_loop (b :: c :: r)) as [hs ls].
  cbn [fst snd] in *. destruct IH as [IH1 IH2].
  pose proof (NumFacts.or_else_zero (high b)).
  pose proof (NumFacts.or_else_zero (low b)).
  unfold level_of.
  split; destruct (_ && _)%bool; try assumption; constructor;
    try assumption; lra.
Qed.

Lemma cluster_mean_ok cluster :
  cluster <> [] -> exists m, cluster_mean cluster = Py.Ok m.
Proof.
  intros H. unfold cluster_mean. rewrite PositionFacts.div_ok; [eauto|].
  assert (0 < inject_Z (Py.len cluster)); [|lra].
  rewrite <- (Zlt_Qlt 0). destruct cluster; [congruence|].
  unfold Py.len. cbn [length]. lia.
Qed.

Lemma cluster_loop_ok levels merge_pct :
  forall clusters cluster,
    cluster <> [] ->
    Forall (fun x => 0 < x) cluster ->
    Forall (fun x => 0 < x) levels ->
    exists r, cluster_loop levels merge_pct clusters cluster = Py.Ok r.
Proof.
  induction levels as [|level rest IH]; intros clusters cluster Hne Hc Hl;
    cbn [cluster_loop]; rewrite (MathUtilsFacts.is_empty_false _ Hne).
  - destruct (cluster_mean_ok cluster Hne) as (m & ->).
    cbn [mbind Py.result_bind]. eauto.
  - inversion Hl as [|? ? Hlevel Hrest]; subst.
    destruct (PyFacts.index_ok cluster (-1)) as (last & El).
    { destruct cluster; [congruence|]. unfold Py.len. cbn [length]. lia. }
    rewrite El. cbn [mbind Py.result_bind].
    assert (0 < last).
    { apply HistoryFacts.index_In in El.
      rewrite List.Forall_forall in Hc. apply Hc, El. }
    rewrite PositionFacts.div_ok by lra. cbn [mbind Py.result_bind].
    destruct (Py.ltb _ merge_pct).
    + apply IH; [destruct cluster; discriminate | | exact Hrest].
      apply Forall_app. split; [exact Hc | repeat constructor; exact Hlevel].
    + destruct (cluster_mean_ok cluster Hne) as (m & ->).
      cbn [mbind Py.result_bind].
      apply IH; [discriminate | repeat constructor; exact Hlevel
                | exact Hrest].
Qed.

Lemma cluster_levels_ok levels merge_pct :
  Forall (fun x => 0 < x) levels ->
  exists r, cluster_levels levels merge_pct = Py.Ok r.
Proof.
  intros H. unfold cluster_levels.
  destruct (Py.is_empty levels) eqn:E; [eauto|].
  pose proof (sorted_Forall _ _ H) as Hs.
  assert (Hlen : Py.len (Py.sorted levels) = Py.len levels).
  { unfold Py.len. f_equal. apply Permutation_length, SortFacts.sort_perm. }
  destruct (PyFacts.index_ok (Py.sorted levels) 0) as (first & Ef).
  { rewrite Hlen. destruct levels; [discriminate|].
    unfold Py.len. cbn [length]. lia. }
  rewrite Ef. cbn [mbind Py.result_bind].
  apply cluster_loop_ok; [discriminate | | apply NumFacts.slice_Forall, Hs].
  repeat constructor. apply HistoryFacts.index_In in Ef.
  rewrite List.Forall_forall in Hs. apply Hs, Ef.
Qed.

(** X9.  Whenever [compute_support_resistance] returns, every support is
    below the current price and every resistance above it, there are at
    most three of each, and both start with the level nearest to the
    price: supports descend, resistances ascend.  It returns for every
    history whose highs and lows are positive. *)
Theorem support_resistance_sides (klines : list Candle) (price_now : Q) :
  (forall supports resistances,
      compute_support_resistance klines price_now
      = Py.Ok (supports, resistances) ->
      Forall (fun s => s < price_now) supports
      /\ Forall (fun r => price_now < r) resistances
      /\ (length supports <= 3)%nat
      /\ (length resistances <= 3)%nat
      /\ StronglySorted (fun a b => b <= a) supports
      /\ StronglySorted Qle resistances)
  /\ (Forall (fun k => 0 < high k /\ 0 < low k) klines ->
      exists supports resistances,
        compute_support_resistance klines price_now
        = Py.Ok (supports, resistances)).
Proof.
  unfold compute_support_resistance. split.
  - intros supports resistances.
    destruct (local_extrema_levels klines) as [highs lows].
    destruct (cluster_levels highs 0.5) as [all_highs|]; [|discriminate].
    destruct (cluster_levels lows 0.5) as [all_lows|]; [|discriminate].
    cbn [mbind Py.result_bind]. intros [= <- <-].
    rewrite !SortFacts.slice_to_prefix.
    split; [|split; [|split; [|split; [|split]]]].
    + apply SortFacts.Forall_firstn, sorted_reverse_Forall.
      eapply Forall_impl; [apply filter_Forall|].
      intros x Hx. apply PyFacts.ltb_lt, Hx.
    + apply SortFacts.Forall_firstn, sorted_Forall.
      eapply Forall_impl; [apply filter_Forall|].
      intros x Hx. apply PyFacts.gtb_lt, Hx.
    + rewrite <- SortFacts.slice_to_prefix. apply (prefix_length _ 3). lia.
    + rewrite <- SortFacts.slice_to_prefix. apply (prefix_length _ 3). lia.
    + apply SortFacts.StronglySorted_firstn, sorted_descending.
    + apply SortFacts.StronglySorted_firstn, sorted_ascending.
  - intros H.
    assert (Hp : Forall (fun x => 0 < x) (fst (local_extrema_levels klines))
                 /\ Forall (fun x => 0 < x)
                      (snd (local_extrema_levels klines))).
    { unfold local_extrema_levels.
      destruct (Py.len klines <? 3)%Z; [cbn; auto|].
      apply extrema_positive, H. }
    destruct (local_extrema_levels klines) as [highs lows].
    cbn [fst snd] in Hp. destruct Hp as [Hh Hl].
    destruct (cluster_levels_ok highs 0.5 Hh) as (all_highs & ->).
    destruct (cluster_levels_ok lows 0.5 Hl) as (all_lows & ->).
    cbn [mbind Py.result_bind]. eauto.
Qed.

Lemma support_resistance_sides_witness :
  exists supports resistances,
    compute_support_resistance Fixtures.swing_candles 11.5
    = Py.Ok (supports, resistances)
    /\ Forall (fun s => s < 11.5) supports
    /\ Forall (fun r => 11.5 < r) resistances.
Proof.
  destruct (support_resistance_sides Fixtures.swing_candles 11.5)
    as (H1 & H2).
  destruct H2 as (supports & resistances & E).
  { repeat constructor. }
  exists supports, resistances. split; [exact E|].
  destruct (H1 supports resistances E) as (A & B & _).
  split; assumption.
Defined.

End LevelFacts.

(* ================================================================== *)
(** * The metrics of the scoring engine *)
(* ================================================================== *)

Module EngineFacts.

Import EngineV2.
Local Open Scope Q_scope.

(** A [try] block whose every exception is caught, followed by the
    default [return], returns. *)
Lemma try_returns {A} (body : Py.result (option A)) caught (d : A) :
  (forall e, body = Py.Raise e -> caught e = true) ->
  exists v,
    (r ← Py.try_except body caught (Py.Ok None);
     match r with Some v => Py.Ok v | None => Py.Ok d end) = Py.Ok v
    /\ (forall x, body = Py.Ok (Some x) -> v = x)
    /\ (body = Py.Ok None -> v = d).
Proof.
  intros H. destruct body as [[x|]|e]; cbn [Py.try_except mbind
    Py.result_bind].
  - exists x. split; [reflexivity|]. split; [congruence | discriminate].
  - exists d. split; [reflexivity|]. split; [discriminate | reflexivity].
  - rewrite (H e eq_refl). cbn [mbind Py.result_bind]. exists d.
    split; [reflexivity|]. split; discriminate.
Qed.

Lemma change_5m_try_caught klines e :
  change_5m_try klines = Py.Raise e -> change_caught e = true.
Proof.
  unfold change_5m_try.
  destruct (Py.index klines (-1)) as [last|e0] eqn:E0;
    cbn [mbind Py.result_bind].
  2:{ intros [= <-]. apply IndicatorFacts.index_raises in E0. subst.
      reflexivity. }
  destruct (Py.index klines (-5)) as [ago|e1] eqn:E1;
    cbn [mbind Py.result_bind].
  2:{ intros [= <-]. apply IndicatorFacts.index_raises in E1. subst.
      reflexivity. }
  destruct (Py.gtb _ 0); [|discriminate].
  destruct (Py.div _ _) as [q|e2] eqn:E2; cbn [mbind Py.result_bind];
    [discriminate|].
  intros [= <-]. apply IndicatorFacts.div_raises in E2. subst. reflexivity.
Qed.

Lemma change_1m_try_caught klines e :
  change_1m_try klines = Py.Raise e -> change_caught e = true.
Proof.
  unfold change_1m_try.
  destruct (Py.index klines (-1)) as [last|e0] eqn:E0;
    cbn [mbind Py.result_bind].
  2:{ intros [= <-]. apply IndicatorFacts.index_raises in E0. subst.
      reflexivity. }
  destruct (Py.index klines (-2)) as [ago|e1] eqn:E1;
    cbn [mbind Py.result_bind].
  2:{ intros [= <-]. apply IndicatorFacts.index_raises in E1. subst.
      reflexivity. }
  destruct (Py.gtb _ 0); [|discriminate].
  destruct (Py.div _ _) as [q|e2] eqn:E2; cbn [mbind Py.result_bind];
    [discriminate|].
  intros [= <-]. apply IndicatorFacts.div_raises in E2. subst. reflexivity.
Qed.

Lemma change_5m_returns klines :
  exists c, calculate_change_5m klines = Py.Ok c.
Proof.
  unfold calculate_change_5m. destruct (_ || _); [eauto|].
  destruct (try_returns (change_5m_try klines) change_caught 0.0
              (change_5m_try_caught klines)) as (v & E & _).
  eauto.
Qed.

Lemma change_1m_returns klines :
  exists c, calculate_change_1m klines = Py.Ok c.
Proof.
  unfold calculate_change_1m. destruct (_ || _); [eauto|].
  destruct (try_returns (change_1m_try klines) change_caught 0.0
              (change_1m_try_caught klines)) as (v & E & _).
  eauto.
Qed.

(** X10.  [calculate_change_5m] and [calculate_change_1m] never raise.
    With fewer than five (two) candles the change is 0.  Otherwise it is
    the move of the last close against the close four (one) candles
    earlier, in percent of that earlier close, and 0 when that close is
    not positive. *)
Theorem price_change_total (klines_1m : list Candle) :
  exists c5 c1,
    calculate_change_5m klines_1m = Py.Ok c5
    /\ calculate_change_1m klines_1m = Py.Ok c1
    /\ ((Py.len klines_1m < 5)%Z -> c5 = 0.0)
    /\ ((Py.len klines_1m < 2)%Z -> c1 = 0.0)
    /\ (forall pre k5 k4 k3 k2 k1,
        klines_1m = pre ++ [k5; k4; k3; k2; k1] ->
        c5 = if Py.gtb (close k5) 0
             then (close k1 - close k5) / close k5 * 100 else 0.0)
    /\ (forall pre k2 k1,
        klines_1m = pre ++ [k2; k1] ->
        c1 = if Py.gtb (close k2) 0
             then (close k1 - close k2) / close k2 * 100 else 0.0).
Proof.
  destruct (change_5m_returns klines_1m) as (c5 & E5).
  destruct (change_1m_returns klines_1m) as (c1 & E1).
  exists c5, c1. split; [exact E5|]. split; [exact E1|].
  split; [|split; [|split]].
  - intros H. unfold calculate_change_5m in E5. apply Z.ltb_lt in H.
    rewrite H, orb_true_r in E5. congruence.
  - intros H. unfold calculate_change_1m in E1. apply Z.ltb_lt in H.
    rewrite H, orb_true_r in E1. congruence.
  - intros pre k5 k4 k3 k2 k1 ->. unfold calculate_change_5m in E5.
    assert (Hl : (Py.len (pre ++ [k5; k4; k3; k2; k1]) <? 5)%Z = false).
    { apply Z.ltb_ge. unfold Py.len. rewrite length_app. cbn [length]. lia. }
    rewrite Hl, MathUtilsFacts.is_empty_false in E5
      by (destruct pre; discriminate).
    cbn [orb] in E5.
    assert (Et : change_5m_try (pre ++ [k5; k4; k3; k2; k1])
                 = if Py.gtb (close k5) 0
                   then Py.Ok (Some ((close k1 - close k5) / close k5 * 100))
                   else Py.Ok None).
    { unfold change_5m_try.
      replace (pre ++ [k5; k4; k3; k2; k1])
        with ((pre ++ [k5; k4; k3; k2]) ++ [k1])
        by (rewrite <- app_assoc; reflexivity).
      rewrite PyFacts.index_last_app.
      rewrite <- app_assoc. cbn [app mbind Py.result_bind].
      rewrite (HistoryFacts.index_back pre k5 [k4; k3; k2; k1]
               : Py.index (pre ++ k5 :: [k4; k3; k2; k1]) (-5) = _).
      cbn [mbind Py.result_bind].
      destruct (Py.gtb (close k5) 0) eqn:G; [|reflexivity].
      apply PyFacts.gtb_lt in G. rewrite PositionFacts.div_ok by lra.
      reflexivity. }
    rewrite Et in E5.
    destruct (Py.gtb (close k5) 0); cbn in E5; congruence.
  - intros pre k2 k1 ->. unfold calculate_change_1m in E1.
    assert (Hl : (Py.len (pre ++ [k2; k1]) <? 2)%Z = false).
    { apply Z.ltb_ge. unfold Py.len. rewrite length_app. cbn [length]. lia. }
    rewrite Hl, MathUtilsFacts.is_empty_false in E1
      by (destruct pre; discriminate).
    cbn [orb] in E1.
    assert (Et : change_1m_try (pre ++ [k2; k1])
                 = if Py.gtb (close k2) 0
                   then Py.Ok (Some ((close k1 - close k2) / close k2 * 100))
                   else Py.Ok None).
    { unfold change_1m_try.
      replace (pre ++ [k2; k1]) with ((pre ++ [k2]) ++ [k1])
        by (rewrite <- app_assoc; reflexivity).
      rewrite PyFacts.index_last_app. rewrite <- app_assoc.
      cbn [app mbind Py.result_bind].
      rewrite (HistoryFacts.index_back pre k2 [k1]
               : Py.index (pre ++ k2 :: [k1]) (-2) = _).
      cbn [mbind Py.result_bind].
      destruct (Py.gtb (close k2) 0) eqn:G; [|reflexivity].
      apply PyFacts.gtb_lt in G. rewrite PositionFacts.div_ok by lra.
      reflexivity. }
    rewrite Et in E1.
    destruct (Py.gtb (close k2) 0); cbn in E1; congruence.
Qed.

Lemma price_change_total_witness :
  exists c5 c1,
    calculate_change_5m Fixtures.swing_candles = Py.Ok c5
    /\ calculate_change_1m Fixtures.swing_candles = Py.Ok c1
    /\ c5 = (11 - 9.5) / 9.5 * 100
    /\ c1 = (11 - 12) / 12 * 100
    /\ calculate_change_5m [Fixtures.top_candle] = Py.Ok 0.0.
Proof.
  destruct (price_change_total Fixtures.swing_candles)
    as (c5 & c1 & E5 & E1 & _ & _ & F5 & F1).
  destruct (price_change_total [Fixtures.top_candle])
    as (d5 & d1 & D5 & _ & G5 & _).
  exists c5, c1. split; [exact E5|]. split; [exact E1|]. split; [|split].
  - apply (F5 [] _ _ _ _ _ eq_refl).
  - apply (F1 (firstn 3 Fixtures.swing_candles) _ _ eq_refl).
  - rewrite D5, G5; reflexivity.
Defined.

(** ** Exhaustion *)

(** X11.  [calculate_exhaustion] is between 0 and 1, and its weighted
    sum never needs the final clamp: the volume factor counts for at
    most 0.5, the momentum factor for at most 0.3 and the bonus for 0.2.
    It is 0 without a volume spike, with a move of 5 percent or more and
    without the bonus, and 1 for a fourfold volume, no move and the
    bonus. *)
Theorem exhaustion_bounds (volume_spike price_momentum : Q)
    (high_not_updated : bool) :
  let vol_factor :=
    Py.min2 1.0 (Py.max2 0.0 ((volume_spike - 1.0) / 3.0)) in
  let mom_factor := Py.max2 0.0 (1.0 - Qabs price_momentum / 5.0) in
  let e := calculate_exhaustion volume_spike price_momentum
             high_not_updated in
  0 <= e <= 1
  /\ e == vol_factor * 0.5 + mom_factor * 0.3
          + (if high_not_updated then 0.2 else 0.0)
  /\ 0 <= vol_factor <= 1 /\ 0 <= mom_factor <= 1
  /\ (volume_spike <= 1 -> 5 <= Qabs price_momentum ->
      high_not_updated = false -> e == 0)
  /\ (4 <= volume_spike -> price_momentum == 0 ->
      high_not_updated = true -> e == 1).
Proof.
  cbn zeta. unfold calculate_exhaustion.
  pose proof (Qabs_nonneg price_momentum) as Ha.
  set (a := Qabs price_momentum) in *.
  assert (Hz : price_momentum == 0 -> a == 0).
  { intros H. subst a. rewrite H. reflexivity. }
  set (v := (volume_spike - 1.0) / 3.0).
  assert (Hv : v * 3 == volume_spike - 1) by (subst v; field).
  set (m := a / 5.0).
  assert (Hm : m * 5 == a) by (subst m; field).
  clearbody v m a.
  destruct high_not_updated; MathUtilsFacts.minmax;
    repeat split; intros; try discriminate; try lra.
Qed.

Lemma exhaustion_bounds_witness :
  calculate_exhaustion 1 5 false == 0 /\ calculate_exhaustion 4 0 true == 1.
Proof.
  destruct (exhaustion_bounds 1 5 false) as (_ & _ & _ & _ & H1 & _).
  destruct (exhaustion_bounds 4 0 true) as (_ & _ & _ & _ & _ & H2).
  split.
  - apply H1; [discriminate | discriminate | reflexivity].
  - apply H2; [discriminate | reflexivity | reflexivity].
Defined.

(** ** Trend *)

Lemma trend_try_caught klines period e :
  trend_try klines period = Py.Raise e -> trend_caught e = true.
Proof.
  unfold trend_try.
  destruct (Py.div _ 2) as [x_mean|e0] eqn:E0; cbn [mbind Py.result_bind].
  2:{ intros [= <-]. apply IndicatorFacts.div_raises in E0. subst.
      reflexivity. }
  destruct (Py.div (Py.sum _) _) as [y_mean|e1] eqn:E1;
    cbn [mbind Py.result_bind].
  2:{ intros [= <-]. apply IndicatorFacts.div_raises in E1. subst.
      reflexivity. }
  destruct (Py.gtb _ 0); [|discriminate].
  destruct (Py.div (Py.sum (map _ (enumerate _))) _) as [slope|e2] eqn:E2;
    cbn [mbind Py.result_bind].
  2:{ intros [= <-]. apply IndicatorFacts.div_raises in E2. subst.
      reflexivity. }
  destruct (Py.gtb y_mean 0); cbn [mbind Py.result_bind]; [|discriminate].
  destruct (Py.div y_mean 100) as [d|e3] eqn:E3; cbn [mbind Py.result_bind].
  2:{ intros [= <-]. apply IndicatorFacts.div_raises in E3. subst.
      reflexivity. }
  destruct (Py.div slope d) as [q|e4] eqn:E4; cbn [mbind Py.result_bind];
    [discriminate|].
  intros [= <-]. apply IndicatorFacts.div_raises in E4. subst. reflexivity.
Qed.

Lemma div_inv a b q : Py.div a b = Py.Ok q -> q = a / b /\ ~ b == 0.
Proof.
  unfold Py.div. destruct (Py.eqb b 0) eqn:E; [discriminate|].
  intros [= <-]. split; [reflexivity|]. apply PyFacts.eqb_neq, E.
Qed.

Lemma trend_try_range klines period x :
  trend_try klines period = Py.Ok (Some x) -> -1 <= x <= 1.
Proof.
  unfold trend_try.
  destruct (Py.div _ 2) as [x_mean|]; cbn [mbind Py.result_bind];
    [|discriminate].
  destruct (Py.div (Py.sum _) _) as [y_mean|]; cbn [mbind Py.result_bind];
    [|discriminate].
  destruct (Py.gtb _ 0); [|discriminate].
  destruct (Py.div (Py.sum (map _ (enumerate _))) _) as [slope|];
    cbn [mbind Py.result_bind]; [|discriminate].
  destruct (if Py.gtb y_mean 0 then _ else _) as [normalized|];
    cbn [mbind Py.result_bind]; [|discriminate].
  intros [= <-]. MathUtilsFacts.minmax; lra.
Qed.

Lemma fold_sum_zero (l : list Q) a :
  Forall (fun x => x == 0) l -> fold_left Qplus l a == a.
Proof.
  revert a. induction l as [|x l IH]; intros a H; cbn [fold_left].
  - reflexivity.
  - inversion H as [|? ? Hx Hl]; subst. rewrite (IH _ Hl). lra.
Qed.

Lemma fold_sum_const (l : list Q) c a :
  Forall (fun x => x == c) l ->
  fold_left Qplus l a == a + inject_Z (Py.len l) * c.
Proof.
  revert a. induction l as [|x l IH]; intros a H; cbn [fold_left].
  - unfold Py.len. cbn [length Z.of_nat]. change (inject_Z 0) with 0. ring.
  - inversion H as [|? ? Hx Hl]; subst. rewrite (IH _ Hl).
    unfold Py.len. cbn [length]. rewrite Nat2Z.inj_succ.
    unfold Z.succ. rewrite inject_Z_plus, Hx.
    change (inject_Z 1) with 1. ring.
Qed.

(** On closes that are all the same the regression line is level. *)
Lemma trend_try_flat klines period c x :
  Forall (fun k => close k == c) klines ->
  trend_try klines period = Py.Ok (Some x) -> x == 0.
Proof.
  intros Hflat. unfold trend_try.
  set (sample := if (period <=? Py.len klines)%Z then _ else klines).
  assert (Hs : Forall (fun k => close k == c) sample).
  { subst sample. destruct (period <=? Py.len klines)%Z;
      [apply NumFacts.slice_Forall|]; exact Hflat. }
  assert (Hc : Forall (fun y => y == c) (map close sample)).
  { apply List.Forall_map. exact Hs. }
  clearbody sample. set (closes := map close sample) in *.
  destruct (Py.div _ 2) as [x_mean|]; cbn [mbind Py.result_bind];
    [|discriminate].
  destruct (Py.div (Py.sum closes) _) as [y_mean|] eqn:Ey;
    cbn [mbind Py.result_bind]; [|discriminate].
  apply div_inv in Ey as [Ey Hn].
  assert (Hy : y_mean == c).
  { rewrite Ey. unfold Py.sum. rewrite (fold_sum_const _ c 0 Hc).
    field. exact Hn. }
  set (numerator := Py.sum (map _ (enumerate closes))).
  assert (Hnum : numerator == 0).
  { subst numerator. unfold Py.sum. apply fold_sum_zero.
    apply List.Forall_map, List.Forall_forall. intros [i y] Hin.
    cbn [fst snd]. unfold enumerate in Hin. apply in_combine_r in Hin.
    rewrite List.Forall_forall in Hc. rewrite (Hc y Hin), Hy. lra. }
  clearbody numerator.
  destruct (Py.gtb _ 0); [|discriminate].
  destruct (Py.div numerator _) as [slope|] eqn:Es;
    cbn [mbind Py.result_bind]; [|discriminate].
  apply div_inv in Es as [Es Hd].
  assert (Hslope : slope == 0).
  { rewrite Es, Hnum. field. exact Hd. }
  destruct (Py.gtb y_mean 0).
  - destruct (Py.div y_mean 100) as [d|] eqn:Ed;
      cbn [mbind Py.result_bind]; [|discriminate].
    destruct (Py.div slope d) as [normalized|] eqn:En;
      cbn [mbind Py.result_bind]; [|discriminate].
    apply div_inv in En as [En Hd0].
    assert (Hnorm : normalized == 0).
    { rewrite En, Hslope. field. exact Hd0. }
    intros [= <-]. MathUtilsFacts.minmax; lra.
  - cbn [mbind Py.result_bind]. intros [= <-].
    MathUtilsFacts.minmax; lra.
Qed.

(** X12.  [calculate_trend] never raises and answers a value between -1
    and 1, and 0 with fewer than three candles.  A history whose closes
    are all equal has trend 0. *)
Theorem trend_bounds (klines : list Candle) (period : Z) :
  exists t,
    calculate_trend klines period = Py.Ok t
    /\ -1 <= t <= 1
    /\ ((Py.len klines < 3)%Z -> t = 0.0)
    /\ (forall c, Forall (fun k => close k == c) klines -> t == 0).
Proof.
  unfold calculate_trend.
  destruct (Py.is_empty klines || (Py.len klines <? 3)%Z) eqn:E.
  - exists 0.0. split; [reflexivity|]. split; [split; discriminate|].
    split; reflexivity.
  - destruct (try_returns (trend_try klines period) trend_caught 0.0
                (trend_try_caught klines period)) as (t & Et & Hs & Hn).
    exists t. split; [exact Et|].
    apply orb_false_iff in E as [_ E]. apply Z.ltb_ge in E.
    destruct (trend_try klines period) as [[x|]|e] eqn:Eb.
    + rewrite (Hs x eq_refl). split; [eapply trend_try_range, Eb|].
      split; [lia|]. intros c Hc. eapply trend_try_flat; eassumption.
    + rewrite (Hn eq_refl). split; [split; discriminate|].
      split; reflexivity.
    + assert (t = 0.0) as ->.
      { cbn [Py.try_except] in Et. rewrite (trend_try_caught _ _ _ Eb) in Et.
        cbn in Et. congruence. }
      split; [split; discriminate|]. split; reflexivity.
Qed.

Lemma trend_bounds_witness :
  exists t,
    calculate_trend (repeat Fixtures.top_candle 10) 60 = Py.Ok t /\ t == 0.
Proof.
  destruct (trend_bounds (repeat Fixtures.top_candle 10) 60)
    as (t & E & _ & _ & H).
  exists t. split; [exact E|].
  apply (H 101). repeat constructor.
Defined.

(** ** Selection criterion, score and status *)

(** X13.  [determine_criteria_type] passes a coin exactly when it names a
    type.  Below the minimum turnover no path passes, whatever the other
    metrics.  The type is one of the three path names or, when two or
    three paths hold, the combined one. *)
Theorem criteria_type_cases (cfg : ConfigV2) (m : ScanMetrics) :
  let classic :=
    Py.geb (range_position m) (CLASSIC_RANGE_POSITION_MIN cfg)
    && Py.geb (change_24h_pct m) (CLASSIC_CHANGE_24H_MIN cfg) in
  let pump_5m :=
    Py.geb (change_5m m) (PUMP_5M_CHANGE_MIN cfg)
    && Py.geb (volume_spike m) (PUMP_5M_VOLUME_SPIKE_MIN cfg) in
  let pump_1m :=
    Py.geb (change_1m m) (PUMP_1M_CHANGE_MIN cfg)
    && Py.geb (volume_spike m) (PUMP_1M_VOLUME_SPIKE_MIN cfg) in
  let ty := fst (determine_criteria_type cfg m) in
  let passed := snd (determine_criteria_type cfg m) in
  (passed = true <-> ty <> EmptyString)
  /\ (turnover_24h_m m < MIN_TURNOVER_24H_M cfg ->
      determine_criteria_type cfg m = (EmptyString, false))
  /\ (MIN_TURNOVER_24H_M cfg <= turnover_24h_m m ->
      passed = classic || pump_5m || pump_1m
      /\ (ty = "КОМБО"
          <-> (classic && pump_5m) || (classic && pump_1m)
              || (pump_5m && pump_1m) = true)
      /\ (ty = "КЛАСС" <-> classic && negb pump_5m && negb pump_1m = true)
      /\ (ty = "ПАМП-5м" <-> negb classic && pump_5m && negb pump_1m = true)
      /\ (ty = "ЭКСТР-1м"
          <-> negb classic && negb pump_5m && pump_1m = true)).
Proof.
  cbn zeta. unfold determine_criteria_type.
  set (classic := Py.geb (range_position m) _ && Py.geb (change_24h_pct m) _).
  set (pump_5m := Py.geb (change_5m m) _ && Py.geb (volume_spike m) _).
  set (pump_1m := Py.geb (change_1m m) _ && Py.geb (volume_spike m) _).
  destruct (Py.geb (turnover_24h_m m) (MIN_TURNOVER_24H_M cfg)) eqn:T.
  - apply NumFacts.geb_le in T. rewrite !andb_true_r.
    split; [|split; [intros H; lra|]].
    + destruct classic, pump_5m, pump_1m; cbn; split; intros H;
        first [reflexivity | discriminate | exfalso; apply H; reflexivity].
    + intros _.
      destruct classic, pump_5m, pump_1m; cbn; repeat split; intros H;
        first [reflexivity | discriminate].
  - apply NumFacts.geb_lt in T. rewrite !andb_false_r. cbn.
    split; [split; intros H; [discriminate | exfalso; apply H; reflexivity]|].
    split; [reflexivity|]. intros H. lra.
Qed.

Lemma criteria_type_cases_witness :
  determine_criteria_type Fixtures.sample_config
    (Fixtures.sample_metrics 4 0)
  = (EmptyString, false).
Proof.
  apply (criteria_type_cases Fixtures.sample_config
           (Fixtures.sample_metrics 4 0)).
  reflexivity.
Defined.

(** The score is between 0 and 100 for a non-negative exhaustion, and at
    most 29 when the relative-weakness filter blocks. *)
Lemma score_range (cfg : ConfigV2) (m : ScanMetrics) :
  calculate_score_v2 cfg m <= 100
  /\ (RW_BLOCK_THRESHOLD cfg < btc_div_1h m -> calculate_score_v2 cfg m <= 29)
  /\ (btc_div_1h m <= RW_BLOCK_THRESHOLD cfg -> 0 <= calculate_score_v2 cfg m)
  /\ (0 <= exhaustion m -> 0 <= calculate_score_v2 cfg m).
Proof.
  unfold calculate_score_v2.
  pose proof (Qabs_nonneg (trend_1h m)) as Ha.
  set (a := Qabs (trend_1h m)) in *.
  set (e := exhaustion m * 20 / 0.7).
  assert (He : e * 0.7 == exhaustion m * 20) by (subst e; field).
  clearbody e a.
  destruct (Py.leb (btc_div_1h m) (RW_BLOCK_THRESHOLD cfg)) eqn:B;
    [apply PyFacts.leb_le in B | apply PyFacts.leb_gt in B].
  - split; [|split; [|split]]; intros; MathUtilsFacts.minmax; lra.
  - destruct (Py.ltb (trend_1h m) 0);
      (split; [|split; [|split]]); intros; MathUtilsFacts.minmax; lra.
Qed.

(** X14.  [calculate_score_v2] never exceeds 100.  When the coin is not
    weaker than BTC (divergence above the block threshold) the score is
    capped at 29, whatever the other factors and whatever the bonus
    constants.  When the filter passes the score is at least 0, and so
    it is in every case for a non-negative exhaustion. *)
Theorem score_v2_bounds (cfg : ConfigV2) (m : ScanMetrics) :
  calculate_score_v2 cfg m <= 100
  /\ (RW_BLOCK_THRESHOLD cfg < btc_div_1h m -> calculate_score_v2 cfg m <= 29)
  /\ (btc_div_1h m <= RW_BLOCK_THRESHOLD cfg -> 0 <= calculate_score_v2 cfg m)
  /\ (0 <= exhaustion m -> 0 <= calculate_score_v2 cfg m).
Proof. apply score_range. Qed.

Lemma score_v2_bounds_witness :
  calculate_score_v2 Fixtures.sample_config (Fixtures.sample_metrics 50 1)
    <= 29
  /\ 0 <= calculate_score_v2 Fixtures.sample_config
            (Fixtures.sample_metrics 50 (-3)).
Proof.
  destruct (score_v2_bounds Fixtures.sample_config
              (Fixtures.sample_metrics 50 1)) as (_ & H1 & _).
  destruct (score_v2_bounds Fixtures.sample_config
              (Fixtures.sample_metrics 50 (-3))) as (_ & _ & H2 & _).
  split; [apply H1; reflexivity | apply H2; discriminate].
Defined.

Lemma status_v2_cases cfg s :
  determine_status_v2 cfg s = "Готовность"
  \/ determine_status_v2 cfg s = "Интерес"
  \/ determine_status_v2 cfg s = "Наблюдение"
  \/ determine_status_v2 cfg s = EmptyString.
Proof.
  unfold determine_status_v2.
  destruct (Py.geb s _); [auto|].
  destruct (Py.geb s _); [auto|].
  destruct (Py.geb s _); auto.
Qed.

(** X15.  [determine_status_v2] never answers the entry status.  With
    the thresholds in ascending order a higher score never gets a status
    that the bridge ranks lower.  With the interest threshold above 29 a
    coin blocked by the relative-weakness filter gets at most the
    observation status. *)
Theorem status_v2_ranks (cfg : ConfigV2) :
  (forall s, determine_status_v2 cfg s <> "ВХОД")
  /\ (STATUS_THRESHOLD_WATCH cfg <= STATUS_THRESHOLD_INTEREST cfg ->
      STATUS_THRESHOLD_INTEREST cfg <= STATUS_THRESHOLD_READY cfg ->
      forall s1 s2, s1 <= s2 ->
        (Bridge.priority_of (determine_status_v2 cfg s2)
         <= Bridge.priority_of (determine_status_v2 cfg s1))%Z)
  /\ (29 < STATUS_THRESHOLD_INTEREST cfg ->
      STATUS_THRESHOLD_INTEREST cfg <= STATUS_THRESHOLD_READY cfg ->
      forall m, RW_BLOCK_THRESHOLD cfg < btc_div_1h m ->
        determine_status_v2 cfg (calculate_score_v2 cfg m) = "Наблюдение"
        \/ determine_status_v2 cfg (calculate_score_v2 cfg m)
           = EmptyString).
Proof.
  split; [|split].
  - intros s.
    destruct (status_v2_cases cfg s) as [-> | [-> | [-> | ->]]];
      discriminate.
  - intros H1 H2 s1 s2 Hs. unfold determine_status_v2.
    repeat match goal with
           | |- context [Py.geb ?a ?b] =>
               let E := fresh "E" in
               destruct (Py.geb a b) eqn:E;
               [apply NumFacts.geb_le in E | apply NumFacts.geb_lt in E]
           end;
      try (exfalso; lra); vm_compute; discriminate.
  - intros H1 H2 m Hb.
    destruct (score_range cfg m) as (_ & Hs & _). specialize (Hs Hb).
    unfold determine_status_v2.
    set (score := calculate_score_v2 cfg m) in *.
    destruct (Py.geb score (STATUS_THRESHOLD_READY cfg)) eqn:E1;
      [apply NumFacts.geb_le in E1; lra|].
    destruct (Py.geb score (STATUS_THRESHOLD_INTEREST cfg)) eqn:E2;
      [apply NumFacts.geb_le in E2; lra|].
    destruct (Py.geb score (STATUS_THRESHOLD_WATCH cfg)); auto.
Qed.

Lemma status_v2_ranks_witness :
  (Bridge.priority_of (determine_status_v2 Fixtures.sample_config 75)
   <= Bridge.priority_of (determine_status_v2 Fixtures.sample_config 40))%Z
  /\ (determine_status_v2 Fixtures.sample_config
        (calculate_score_v2 Fixtures.sample_config
           (Fixtures.sample_metrics 50 1)) = "Наблюдение"
      \/ determine_status_v2 Fixtures.sample_config
           (calculate_score_v2 Fixtures.sample_config
              (Fixtures.sample_metrics 50 1)) = EmptyString).
Proof.
  destruct (status_v2_ranks Fixtures.sample_config) as (_ & H1 & H2).
  split.
  - apply H1; discriminate.
  - apply H2; [reflexivity | discriminate | reflexivity].
Defined.

(** ** Scan timers *)

Lemma int_nonpos (x : Q) : x <= 0 -> (Py.int x <= 0)%Z.
Proof.
  destruct x as [n d]. unfold Qle, Py.int. cbn. intros H.
  assert (Hn : (n <= 0)%Z) by lia.
  rewrite <- (Z.opp_involutive n), Z.quot_opp_l by lia.
  assert (0 <= - n ÷ Z.pos d)%Z; [|lia].
  apply Z.quot_pos; lia.
Qed.

Lemma int_nonneg (x : Q) : 0 <= x -> (0 <= Py.int x)%Z.
Proof.
  destruct x as [n d]. unfold Qle, Py.int. cbn. intros H.
  apply Z.quot_pos; lia.
Qed.

Lemma int_at_least_one (x : Q) : 1 <= x -> (1 <= Py.int x)%Z.
Proof.
  destruct x as [n d]. unfold Qle, Py.int. cbn. intros H.
  apply Z.quot_le_lower_bound; lia.
Qed.

(** X16.  After [update_scan_timers] no remaining time is negative.  For
    a level that has run before (a positive last-update time), the
    remaining time is 0 exactly when its [should_run] test at the same
    clock reading is true, up to the part of a second that [int] drops.
    For a level that has never run, the timer starts from the first
    clock reading although [should_run] is already true.  After
    [mark_level_complete] the level is due again once its interval has
    passed, and the other levels are as before. *)
Theorem scan_timer_consistency (cfg : ConfigV2) (init_now now : Q)
    (st : ScanState) :
  let st' := update_scan_timers cfg init_now now st in
  (0 <= level1_remaining_sec st' /\ 0 <= level2_remaining_sec st'
   /\ 0 <= level3_remaining_sec st')%Z
  /\ (0 < level1_last_update st ->
      (should_run_level1 cfg now st = true -> level1_remaining_sec st' = 0%Z)
      /\ (level1_remaining_sec st' = 0%Z ->
          SCAN_LEVEL1_INTERVAL_SEC cfg - (now - level1_last_update st) < 1))
  /\ (0 < level2_last_update st ->
      (should_run_level2 cfg now st = true -> level2_remaining_sec st' = 0%Z)
      /\ (level2_remaining_sec st' = 0%Z ->
          SCAN_LEVEL2_INTERVAL_SEC cfg - (now - level2_last_update st) < 1))
  /\ (0 < level3_last_update st ->
      (should_run_level3 cfg now st = true -> level3_remaining_sec st' = 0%Z)
      /\ (level3_remaining_sec st' = 0%Z ->
          SCAN_LEVEL3_INTERVAL_SEC cfg - (now - level3_last_update st) < 1))
  /\ (level1_last_update st <= 0 -> level1_last_update st' = init_now)
  /\ (forall t,
      let done := mark_level_complete now 1 st in
      should_run_level1 cfg t done
      = Py.geb (t - now) (SCAN_LEVEL1_INTERVAL_SEC cfg)
      /\ level1_in_progress done = false
      /\ should_run_level2 cfg t done = should_run_level2 cfg t st
      /\ should_run_level3 cfg t done = should_run_level3 cfg t st).
Proof.
  cbn zeta. unfold update_scan_timers, ensure_scan_state_initialized,
    should_run_level1, should_run_level2, should_run_level3,
    mark_level_complete.
  cbn [level1_last_update level2_last_update level3_last_update
       level1_remaining_sec level2_remaining_sec level3_remaining_sec
       level1_in_progress Z.eqb].
  split; [lia|].
  assert (Hcase : forall interval last,
             0 < last ->
             (Py.geb (now - last) interval = true ->
              Z.max 0 (Py.int (interval
                               - (now - (if Py.leb last 0 then init_now
                                         else last)))) = 0%Z)
             /\ (Z.max 0 (Py.int (interval
                                  - (now - (if Py.leb last 0 then init_now
                                            else last)))) = 0%Z ->
                 interval - (now - last) < 1)).
  { intros interval last Hl.
    destruct (Py.leb last 0) eqn:E; [apply PyFacts.leb_le in E; lra|].
    split.
    - intros H. apply NumFacts.geb_le in H.
      apply Z.max_l, int_nonpos. lra.
    - intros H.
      destruct (Qlt_le_dec (interval - (now - last)) 1) as [|Hge];
        [assumption|].
      pose proof (int_at_least_one (interval - (now - last)) Hge). lia. }
  split; [apply Hcase|]. split; [apply Hcase|]. split; [apply Hcase|].
  split.
  - intros H. apply PyFacts.leb_le in H. rewrite H. reflexivity.
  - intros t. repeat split.
Qed.

Lemma scan_timer_consistency_witness :
  let st := mkScanState 1000 1000 1000 0 0 0 false false false in
  level1_remaining_sec
    (update_scan_timers Fixtures.sample_config 1400 1400 st) = 0%Z
  /\ level1_last_update
       (update_scan_timers Fixtures.sample_config 1400 1400
          default_scan_state) = 1400.
Proof.
  cbn zeta.
  destruct (scan_timer_consistency Fixtures.sample_config 1400 1400
              (mkScanState 1000 1000 1000 0 0 0 false false false))
    as (_ & H1 & _).
  destruct (scan_timer_consistency Fixtures.sample_config 1400 1400
              default_scan_state) as (_ & _ & _ & _ & H2 & _).
  split.
  - apply H1; reflexivity.
  - apply H2. discriminate.
Defined.

(** ** Level 3 enrichment *)

Lemma trend_range klines period :
  exists t, calculate_trend klines period = Py.Ok t /\ -1 <= t <= 1.
Proof.
  unfold calculate_trend. destruct (_ || _).
  - exists 0.0. split; [reflexivity | split; discriminate].
  - destruct (try_returns (trend_try klines period) trend_caught 0.0
                (trend_try_caught klines period)) as (t & Et & Hs & Hn).
    exists t. split; [exact Et|].
    destruct (trend_try klines period) as [[x|]|e] eqn:Eb.
    + rewrite (Hs x eq_refl). eapply trend_try_range, Eb.
    + rewrite (Hn eq_refl). split; discriminate.
    + cbn [Py.try_except] in Et. rewrite (trend_try_caught _ _ _ Eb) in Et.
      cbn in Et. injection Et as <-. split; discriminate.
Qed.

Lemma exhaustion_range volume_spike price_momentum high_not_updated :
  0 <= calculate_exhaustion volume_spike price_momentum high_not_updated
    <= 1.
Proof.
  unfold calculate_exhaustion.
  set (e := _ + (if high_not_updated then _ else _)). clearbody e.
  MathUtilsFacts.minmax; lra.
Qed.

Lemma volume_spike_returns klines lookback :
  exists v, calculate_volume_spike klines lookback = Py.Ok v.
Proof.
  unfold calculate_volume_spike. destruct (_ || _); [eauto|].
  destruct (try_returns (volume_spike_try klines lookback)
              volume_spike_caught 1.0
              (IndicatorFacts.volume_spike_try_caught klines lookback))
    as (v & E & _).
  eauto.
Qed.

Lemma volume_declining_returns klines n_candles :
  exists b, calculate_volume_declining klines n_candles = Py.Ok b.
Proof.
  unfold calculate_volume_declining. destruct (_ || _); [eauto|].
  unfold volume_declining_try.
  destruct (Py.index _ (-1)) as [newest|e] eqn:E1;
    cbn [mbind Py.result_bind Py.try_except].
  2:{ apply IndicatorFacts.index_raises in E1. subst. cbn. eauto. }
  destruct (Py.index _ 0) as [oldest|e] eqn:E2;
    cbn [mbind Py.result_bind Py.try_except].
  2:{ apply IndicatorFacts.index_raises in E2. subst. cbn. eauto. }
  eauto.
Qed.

(** The test whether the newest of the last three highs is a new high
    returns when there are three candles. *)
Lemma recent_highs_return (klines_1m : list Candle) :
  (3 <= Py.len klines_1m)%Z ->
  let recent_highs := map high (Py.slice klines_1m (Some (-3)%Z) None) in
  exists b,
    (newest ← Py.index recent_highs (-1);
     earlier ← Py.max_list (Py.slice recent_highs None (Some (-1)%Z));
     Py.Ok (Py.leb newest earlier)) = Py.Ok b.
Proof.
  intros H. cbn zeta.
  pose proof (PyFacts.slice_suffix_length klines_1m 3 ltac:(lia)) as HL.
  change (- (3))%Z with (-3)%Z in HL.
  destruct (Py.slice klines_1m (Some (-3)%Z) None)
    as [|a [|b [|c [|d r]]]]; try discriminate.
  cbn. eauto.
Qed.

Lemma criteria_passed_iff cfg m :
  snd (determine_criteria_type cfg m) = true
  <-> fst (determine_criteria_type cfg m) <> EmptyString.
Proof.
  unfold determine_criteria_type.
  destruct (_ && _ && _), (_ && _ && _), (_ && _ && _); cbn; split;
    intros H;
    first [reflexivity | discriminate | exfalso; apply H; reflexivity].
Qed.

Lemma criteria_low_turnover cfg m :
  turnover_24h_m m < MIN_TURNOVER_24H_M cfg ->
  determine_criteria_type cfg m = (EmptyString, false).
Proof.
  intros H. apply NumFacts.geb_lt in H. unfold determine_criteria_type.
  rewrite H, !andb_false_r. reflexivity.
Qed.

(** One step of the enrichment: a call that returns. *)
Ltac returns L :=
  let x := fresh "x" in
  let E := fresh "E" in
  destruct L as (x & E); rewrite E; clear E;
  cbn [mbind Py.result_bind].

(** [enrich_with_klines] returns metrics in range, unless a square of the
    z-score overflows: that [OverflowError] no [except] clause on the way
    catches. *)
Lemma enrich_with_klines_outcome (cfg : ConfigV2) (ops : FloatOps)
    (m : ScanMetrics) (klines_1m klines_5m : list Candle)
    (btc_klines_1m : option (list Candle)) :
  (exists m',
      enrich_with_klines cfg ops m klines_1m klines_5m btc_klines_1m
      = Py.Ok m'
      /\ 0 <= score m' <= 100
      /\ 0 <= exhaustion m' <= 1
      /\ -1 <= trend_1h m' <= 1
      /\ (criteria_passed m' = true <-> criteria_type m' <> EmptyString)
      /\ (turnover_24h_m m < MIN_TURNOVER_24H_M cfg ->
          criteria_passed m' = false)
      /\ (RW_BLOCK_THRESHOLD cfg < btc_div_1h m' -> score m' <= 29)
      /\ price_now m' = price_now m
      /\ turnover_24h_m m' = turnover_24h_m m
      /\ funding_rate m' = funding_rate m)
  \/ (enrich_with_klines cfg ops m klines_1m klines_5m btc_klines_1m
      = Py.Raise Py.OverflowError
      /\ calculate_z_score ops (price_now m) (map close klines_1m) 20
         = Py.Raise Py.OverflowError).
Proof.
  unfold enrich_with_klines.
  returns (change_5m_returns klines_1m).
  returns (change_1m_returns klines_1m).
  returns (volume_spike_returns klines_1m 20).
  returns (volume_declining_returns klines_1m 3).
  destruct (trend_range klines_1m 60) as (t1 & E & Ht1). rewrite E. clear E.
  cbn [mbind Py.result_bind].
  set (m1 := set_trend_1h _ _).
  assert (I1 : -1 <= trend_1h m1 <= 1
               /\ price_now m1 = price_now m
               /\ turnover_24h_m m1 = turnover_24h_m m
               /\ funding_rate m1 = funding_rate m).
  { subst m1. repeat split; apply Ht1. }
  clearbody m1.
  assert (exists m2,
             (if negb (Py.is_empty klines_5m)
              then t3 ← calculate_trend klines_5m 36;
                   Py.Ok (set_trend_3h t3 m1)
              else Py.Ok m1) = Py.Ok m2
             /\ -1 <= trend_1h m2 <= 1
             /\ price_now m2 = price_now m
             /\ turnover_24h_m m2 = turnover_24h_m m
             /\ funding_rate m2 = funding_rate m) as (m2 & E & I2).
  { destruct (negb _); [|eauto].
    destruct (trend_range klines_5m 36) as (t3 & E & _). rewrite E.
    cbn [mbind Py.result_bind]. eauto. }
  rewrite E. clear E I1 m1. cbn [mbind Py.result_bind].
  assert ((exists m3,
              (if negb (Py.is_empty klines_1m)
               then z ← calculate_z_score ops (price_now m2)
                          (map close klines_1m) 20;
                    Py.Ok (set_z_score z m2)
               else Py.Ok m2) = Py.Ok m3
              /\ -1 <= trend_1h m3 <= 1
              /\ price_now m3 = price_now m
              /\ turnover_24h_m m3 = turnover_24h_m m
              /\ funding_rate m3 = funding_rate m)
          \/ ((if negb (Py.is_empty klines_1m)
               then z ← calculate_z_score ops (price_now m2)
                          (map close klines_1m) 20;
                    Py.Ok (set_z_score z m2)
               else Py.Ok m2) = Py.Raise Py.OverflowError
              /\ calculate_z_score ops (price_now m2) (map close klines_1m)
                   20
                 = Py.Raise Py.OverflowError))
    as [(m3 & E & I3) | (E & Ez)].
  { destruct (negb _); [|eauto].
    destruct (IndicatorFacts.z_score_outcome ops (price_now m2)
                (map close klines_1m) 20) as [[z Ez] | Ez];
      rewrite Ez; cbn [mbind Py.result_bind]; eauto. }
  2:{ right. rewrite E. destruct I2 as (_ & <- & _).
      split; [reflexivity | exact Ez]. }
  left. rewrite E. clear E I2 m2. cbn [mbind Py.result_bind].
  assert (exists b,
             (if negb (Py.is_empty klines_1m)
                 && (3 <=? Py.len klines_1m)%Z
              then
                newest ← Py.index
                           (map high
                              (Py.slice klines_1m (Some (-3)%Z) None)) (-1);
                earlier ← Py.max_list
                            (Py.slice
                               (map high
                                  (Py.slice klines_1m (Some (-3)%Z) None))
                               None (Some (-1)%Z));
                Py.Ok (Py.leb newest earlier)
              else Py.Ok false) = Py.Ok b) as (hnu & E).
  { destruct (negb _); cbn [andb]; [|eauto].
    destruct (Z.leb_spec 3 (Py.len klines_1m)); [|eauto].
    apply recent_highs_return. assumption. }
  rewrite E. clear E. cbn [mbind Py.result_bind].
  set (m4 := set_exhaustion _ m3).
  assert (I4 : 0 <= exhaustion m4 <= 1
               /\ -1 <= trend_1h m4 <= 1
               /\ price_now m4 = price_now m
               /\ turnover_24h_m m4 = turnover_24h_m m
               /\ funding_rate m4 = funding_rate m).
  { subst m4. split; [apply exhaustion_range | exact I3]. }
  clearbody m4. clear I3 m3.
  assert (exists m5,
             match btc_klines_1m with
             | Some btc =>
                 if negb (Py.is_empty btc) && (60 <=? Py.len btc)%Z then
                   btc_change_1h ←
                     calculate_change_5m (Py.slice btc (Some (-60)%Z) None);
                   coin_change_1h ←
                     (if (60 <=? Py.len klines_1m)%Z
                      then calculate_change_5m
                             (Py.slice klines_1m (Some (-60)%Z) None)
                      else Py.Ok (change_5m m4));
                   Py.Ok (set_btc_div_1h
                            (calculate_btc_divergence coin_change_1h
                               btc_change_1h) m4)
                 else Py.Ok m4
             | None => Py.Ok m4
             end = Py.Ok m5
             /\ 0 <= exhaustion m5 <= 1
             /\ -1 <= trend_1h m5 <= 1
             /\ price_now m5 = price_now m
             /\ turnover_24h_m m5 = turnover_24h_m m
             /\ funding_rate m5 = funding_rate m) as (m5 & E & I5).
  { destruct btc_klines_1m as [btc|]; [|eauto].
    destruct (_ && _); [|eauto].
    returns (change_5m_returns (Py.slice btc (Some (-60)%Z) None)).
    destruct (60 <=? Py.len klines_1m)%Z.
    - returns (change_5m_returns (Py.slice klines_1m (Some (-60)%Z) None)).
      eauto.
    - cbn [mbind Py.result_bind]. eauto. }
  rewrite E. clear E I4 m4. cbn [mbind Py.result_bind].
  destruct I5 as (Ie & It & Ip & Iu & If).
  pose proof (criteria_passed_iff cfg m5) as Hc.
  pose proof (criteria_low_turnover cfg m5) as Hl.
  destruct (determine_criteria_type cfg m5) as [ty passed].
  cbn [fst snd] in Hc, Hl.
  set (m6 := set_criteria_passed passed (set_criteria_type ty m5)).
  destruct (score_range cfg m6) as (S1 & S2 & _ & S3).
  eexists. split; [reflexivity|].
  cbn [score exhaustion trend_1h criteria_passed criteria_type
       btc_div_1h price_now turnover_24h_m funding_rate
       set_quality_stars set_score].
  split; [split; [apply S3; exact (proj1 Ie) | exact S1]|].
  split; [exact Ie|]. split; [exact It|]. split; [exact Hc|].
  split; [intros H; rewrite Iu in Hl; exact (f_equal snd (Hl H))|].
  split; [exact S2|]. auto.
Qed.

(** It returns when no square overflows. *)
Lemma enrich_with_klines_returns (cfg : ConfigV2) (ops : FloatOps)
    (m : ScanMetrics) (klines_1m klines_5m : list Candle)
    (btc_klines_1m : option (list Candle)) :
  (forall x, f_overflows ops x = false) ->
  exists m',
    enrich_with_klines cfg ops m klines_1m klines_5m btc_klines_1m
    = Py.Ok m'.
Proof.
  intros Hno.
  destruct (enrich_with_klines_outcome cfg ops m klines_1m klines_5m
              btc_klines_1m) as [(m' & E & _) | E]; [eauto|].
  destruct E as (_ & E).
  destruct (IndicatorFacts.z_score_returns ops (price_now m)
              (map close klines_1m) 20 Hno) as (z & Ez).
  congruence.
Qed.

(** X17.  The metrics that [enrich_with_klines] returns have a score
    between 0 and 100, an exhaustion between 0 and 1 and a one-hour trend
    between -1 and 1; the selection flag is set exactly when a criterion
    is named, and never below the minimum turnover; a divergence above
    the block threshold caps the score at 29.  The price, turnover and
    funding rate taken from the ticker are left as they were. *)
Theorem enrich_with_klines_bounds (cfg : ConfigV2) (ops : FloatOps)
    (m : ScanMetrics) (klines_1m klines_5m : list Candle)
    (btc_klines_1m : option (list Candle)) (m' : ScanMetrics) :
  enrich_with_klines cfg ops m klines_1m klines_5m btc_klines_1m
  = Py.Ok m' ->
  0 <= score m' <= 100
  /\ 0 <= exhaustion m' <= 1
  /\ -1 <= trend_1h m' <= 1
  /\ (criteria_passed m' = true <-> criteria_type m' <> EmptyString)
  /\ (turnover_24h_m m < MIN_TURNOVER_24H_M cfg ->
      criteria_passed m' = false)
  /\ (RW_BLOCK_THRESHOLD cfg < btc_div_1h m' -> score m' <= 29)
  /\ price_now m' = price_now m
  /\ turnover_24h_m m' = turnover_24h_m m
  /\ funding_rate m' = funding_rate m.
Proof.
  intros E.
  destruct (enrich_with_klines_outcome cfg ops m klines_1m klines_5m
              btc_klines_1m) as [(m'' & E' & H) | (E' & _)];
    rewrite E in E'; [|discriminate].
  injection E' as <-. exact H.
Qed.

(** A run on five candles returns, and below the minimum turnover it
    selects nothing. *)
Lemma enrich_with_klines_bounds_witness :
  exists m',
    enrich_with_klines Fixtures.sample_config Fixtures.exact_ops
      (Fixtures.sample_metrics 4 0) Fixtures.swing_candles [] None
    = Py.Ok m'
    /\ 0 <= score m' <= 100
    /\ criteria_passed m' = false.
Proof.
  destruct (enrich_with_klines_returns Fixtures.sample_config
              Fixtures.exact_ops (Fixtures.sample_metrics 4 0)
              Fixtures.swing_candles [] None (fun _ => eq_refl))
    as (m' & E).
  exists m'. split; [exact E|].
  destruct (enrich_with_klines_bounds _ _ _ _ _ _ _ E)
    as (Hs & _ & _ & _ & H & _).
  split; [exact Hs|]. apply H. reflexivity.
Defined.

End EngineFacts.

(* ================================================================== *)
(** * The gate pipeline: scores, trade plan, veto *)
(* ================================================================== *)

Module PipelineFacts.

Import Gates Fixtures.
Local Open Scope Q_scope.

(** Case analysis on every test of the goal. *)
Ltac split_tests :=
  repeat match goal with
         | |- context [if ?b then _ else _] => destruct b eqn:?
         end.

(** Closed comparisons of numbers, by computation. *)
Ltac concrete :=
  vm_compute; repeat split; intros;
  first [ reflexivity
        | discriminate
        | match goal with
          | H : _ -> False |- _ => exfalso; apply H; reflexivity
          end ].

Lemma gate0_score btc_trend_1h alt_change_24h btc_change_24h p :
  let g := check_gate0 btc_trend_1h alt_change_24h btc_change_24h p in
  0 <= score g <= 100 /\ (passed g = true <-> 50 <= score g).
Proof.
  cbn zeta. unfold check_gate0.
  destruct (negb _); [concrete|].
  destruct (Py.leb _ _), (Py.geb _ _); concrete.
Qed.

Lemma gate1_score cs p g :
  check_gate1 cs p = Py.Ok g -> 0 <= score g <= 100.
Proof.
  unfold check_gate1.
  destruct (negb _); [intros [= <-]; split; discriminate|].
  destruct (_ <? _)%Z; [intros [= <-]; split; discriminate|].
  destruct (Py.max_list _); cbn [mbind Py.result_bind]; [|discriminate].
  destruct (Py.min_list _); cbn [mbind Py.result_bind]; [|discriminate].
  destruct (Py.index _ (-1)); cbn [mbind Py.result_bind]; [|discriminate].
  destruct (Py.index _ 0); cbn [mbind Py.result_bind]; [|discriminate].
  intros [= <-]. cbn [score].
  split_tests; vm_compute; split; discriminate.
Qed.

Lemma gate2_score cs ch p g rl rh :
  check_gate2 cs ch p = Py.Ok (g, rl, rh) ->
  0 <= score g <= 100 /\ (passed g = true <-> score g == 100).
Proof.
  unfold check_gate2.
  destruct (negb _); [intros [= <- _ _]; concrete|].
  destruct (_ <? _)%Z; [intros [= <- _ _]; concrete|].
  destruct (Py.max_list _); cbn [mbind Py.result_bind]; [|discriminate].
  destruct (Py.min_list _); cbn [mbind Py.result_bind]; [|discriminate].
  destruct (Py.index _ (-2)); cbn [mbind Py.result_bind]; [|discriminate].
  destruct (Py.index _ (-1)); cbn [mbind Py.result_bind]; [|discriminate].
  intros [= <- _ _]. cbn [score passed].
  split_tests; concrete.
Qed.

Lemma gate3_score cs m f d pd p g :
  check_gate3 cs m f d pd p = Py.Ok g -> 0 <= score g <= 100.
Proof.
  unfold check_gate3.
  destruct (negb _); [intros [= <-]; split; discriminate|].
  destruct (if (_ <=? _)%Z then _ else _) as [[sg cm]|] eqn:E;
    cbn [mbind Py.result_bind]; [|discriminate].
  assert (Hcm : cm = 0%Z \/ cm = 1%Z \/ cm = 2%Z).
  { destruct (_ <=? _)%Z in E.
    - destruct (Py.index (Py.sorted _) _) in E;
        cbn [mbind Py.result_bind] in E; [|discriminate].
      destruct (match _ with [] => _ | _ => _ end) in E;
        cbn [mbind Py.result_bind] in E; [|discriminate].
      destruct (Py.leb _ _) in E; destruct (Py.geb _ _) in E;
        injection E as _ <-; auto.
    - destruct (Py.leb _ _) in E; injection E as _ <-; auto. }
  intros [= <-]. cbn [score].
  destruct Hcm as [-> | [-> | ->]]; split_tests; vm_compute; split;
    discriminate.
Qed.

Section Call.

Variables (w : World) (symbol : string) (candles_5m : list Candle).
Variables (current_price change_24h range_position dist_to_high
           funding_rate low_24h btc_trend_1h btc_change_24h momentum_10m
           prev_dist_to_high : Q).
Variable params : option GateParams.

Local Abbreviation call :=
  (check_all_gates w symbol candles_5m current_price change_24h
     range_position dist_to_high funding_rate low_24h btc_trend_1h
     btc_change_24h momentum_10m prev_dist_to_high params).
Local Abbreviation p := (resolve_params w symbol params).

(** Every returned result, with the path it came through. *)
Ltac by_path H :=
  let path := fresh "path" in
  let R := fresh "R" in
  apply GatesFacts.run_complete in H as [path R];
  destruct R; cbn zeta.

(** X18.  In every result [check_all_gates] returns, the score of each of
    the four gates is between 0 and 100; Gate 0 is reported passed
    exactly when its score is at least 50, and Gate 2 exactly when its
    score is 100. *)
Theorem gate_scores_in_range (r : GatesResult) :
  call = Py.Ok r ->
  0 <= score (gate0 r) <= 100
  /\ 0 <= score (gate1 r) <= 100
  /\ 0 <= score (gate2 r) <= 100
  /\ 0 <= score (gate3 r) <= 100
  /\ (passed (gate0 r) = true <-> 50 <= score (gate0 r))
  /\ (passed (gate2 r) = true <-> score (gate2 r) == 100).
Proof.
  intros H.
  pose proof (gate0_score btc_trend_1h change_24h btc_change_24h p) as G0.
  cbn zeta in G0. destruct G0 as (G0 & G0').
  assert (D : 0 <= score default_failed <= 100) by concrete.
  assert (D2 : passed default_failed = true <-> score default_failed == 100)
    by concrete.
  by_path H; split_tests; GatesFacts.result_fields;
    repeat match goal with
           | E : check_gate1 _ _ = Py.Ok _ |- _ => apply gate1_score in E
           | E : check_gate2 _ _ _ = Py.Ok _ |- _ =>
               apply gate2_score in E as [? ?]
           | E : check_gate3 _ _ _ _ _ _ = Py.Ok _ |- _ =>
               apply gate3_score in E
           end;
    repeat split; try assumption; try apply D; try apply D2;
    try apply G0'; try (apply <- G0'); tauto.
Qed.

(** X19.  A result carries a trade plan only with status ENTRY: in
    every other result the entry, stop, the three targets and the
    risk-reward ratio are all 0.0, also when all four gates passed and
    only the ratio was too low.  With status ENTRY the entry is the
    current price and the other five numbers are what
    [calculate_trade_levels] gives for the range of Gate 2.  The flag
    [all_passed] is set exactly when the four gates are reported
    passed. *)
Theorem trade_plan_only_on_entry (r : GatesResult) :
  call = Py.Ok r ->
  (all_passed r = true <-> four_gates_passed r = true)
  /\ (status r <> ST_ENTRY ->
      entry_price r = 0.0 /\ sl_price r = 0.0 /\ tp1_price r = 0.0
      /\ tp2_price r = 0.0 /\ tp3_price r = 0.0 /\ rr_ratio r = 0.0)
  /\ (status r = ST_ENTRY ->
      all_passed r = true
      /\ entry_price r = current_price
      /\ min_rr p <= rr_ratio r
      /\ exists g2 range_low range_high,
           check_gate2 candles_5m change_24h p
           = Py.Ok (g2, range_low, range_high)
           /\ calculate_trade_levels current_price range_low range_high
                low_24h p
              = (sl_price r, tp1_price r, tp2_price r, tp3_price r,
                 rr_ratio r)).
Proof.
  intros H. by_path H; unfold four_gates_passed; split_tests;
    GatesFacts.result_fields;
    repeat match goal with
           | E : passed _ = _ |- _ => rewrite E; clear E
           end;
    rewrite ?andb_false_r; cbn [andb];
    cbn [entry_price sl_price tp1_price tp2_price tp3_price rr_ratio];
    (split; [split; intros; first [reflexivity | discriminate]|]).
  all: try (split;
            [intros _; repeat split; reflexivity
            | intros Hs; vm_compute in Hs; discriminate Hs]).
  split; [intros Hs; exfalso; apply Hs; reflexivity|].
  intros _. split; [reflexivity|]. split; [reflexivity|].
  split; [|eauto].
  match goal with
  | E : Py.ltb _ _ = false |- _ => apply PyFacts.ltb_ge in E; exact E
  end.
Qed.

(** X20.  An ENTRY plan is ordered as a short trade needs it, when the
    minimum risk-reward ratio and the first-target ratio are positive:
    the entry lies above the range low (the second target) and below the
    stop, and the first target lies below the entry.  With a first-target
    ratio of at most 1 the first target is not below the second, and for
    a positive range low the third target is below the second. *)
Theorem entry_plan_ordered (r : GatesResult) :
  call = Py.Ok r ->
  status r = ST_ENTRY ->
  0 < min_rr p ->
  0 < tp1_ratio p ->
  tp2_price r < entry_price r < sl_price r
  /\ tp1_price r < entry_price r
  /\ (tp1_ratio p <= 1 -> tp2_price r <= tp1_price r)
  /\ (0 < tp2_price r -> tp3_price r < tp2_price r).
Proof.
  intros H Hs Hmin Ht. revert Hs.
  by_path H; split_tests; GatesFacts.result_fields;
    try (intros Hs; vm_compute in Hs; discriminate Hs).
  intros _.
  cbn [entry_price sl_price tp1_price tp2_price tp3_price rr_ratio
       set_status set_levels].
  match goal with
  | E : Py.ltb _ _ = false |- _ => apply PyFacts.ltb_ge in E; rename E into Hrr
  end.
  match goal with
  | E : calculate_trade_levels _ _ _ _ _ = _ |- _ =>
      unfold calculate_trade_levels in E;
      injection E as Esl Etp1 Etp2 Etp3 Err
  end.
  subst tp2.
  set (t := tp1_ratio p) in *.
  set (risk := sl - current_price).
  assert (Hreward : current_price - tp1 == (current_price - rl) * t)
    by (rewrite <- Etp1; ring).
  rewrite Esl, Etp1 in Err. fold risk in Err.
  destruct (Py.gtb risk 0) eqn:Hrisk; [|rewrite <- Err in Hrr; lra].
  apply PyFacts.gtb_lt in Hrisk.
  assert (Hpos : 0 < current_price - tp1).
  { destruct (Qlt_le_dec 0 (current_price - tp1)) as [|Hle]; [assumption|].
    assert (Hq : (current_price - tp1) / risk <= 0).
    { apply Qle_shift_div_r; [exact Hrisk|]. rewrite Qmult_0_l. exact Hle. }
    rewrite Err in Hq. lra. }
  assert (Hgap : 0 < current_price - rl).
  { apply (Qmult_lt_r 0 (current_price - rl) t Ht). lra. }
  split; [subst risk; split; lra|]. split; [lra|]. split.
  - intros Ht1.
    assert (0 <= (current_price - rl) * (1 - t))
      by (apply Qmult_le_0_compat; lra).
    lra.
  - intros Hrl. rewrite <- Etp3.
    destruct (_ && _) eqn:E3.
    + apply andb_true_iff in E3 as [_ E3]. apply PyFacts.ltb_lt in E3.
      exact E3.
    + lra.
Qed.

(** X21.  The V-recovery branch of [check_all_gates] is never taken: no
    result has the V-recovery text, when Gate 2 is enabled (a passing
    Gate 2 needs the last close below the range low, and a V-recovery
    needs it above) and also when Gate 2 is disabled and no close is
    negative (the range low is then 0). *)
Theorem veto_branch_dead (r : GatesResult) :
  call = Py.Ok r ->
  gate2_enabled p = true \/ Forall (fun c => 0 <= close c) candles_5m ->
  signal_text r <> TxtVRecovery.
Proof.
  intros H Hor.
  by_path H; split_tests; GatesFacts.result_fields; try discriminate.
  exfalso.
  destruct (gate2_enabled p) eqn:En.
  - eapply GatesFacts.veto_unreachable_after_gate2; eassumption.
  - destruct Hor as [|HF]; [discriminate|].
    match goal with
    | E : check_gate2 _ _ _ = _ |- _ =>
        unfold check_gate2 in E; rewrite En in E; cbn [negb] in E;
        injection E as _ <- _
    end.
    match goal with
    | E : check_v_recovery _ _ _ = Py.Ok true |- _ =>
        unfold check_v_recovery in E; rename E into EV
    end.
    destruct (_ <? _)%Z in EV; [discriminate|].
    destruct (Py.index _ (-1)) in EV; cbn [mbind Py.result_bind] in EV;
      [|discriminate].
    injection EV as EV. apply andb_true_iff in EV as [EV _].
    apply existsb_exists in EV as (c & Hc & Hlt).
    apply PyFacts.ltb_lt in Hlt.
    apply NumFacts.slice_incl, NumFacts.slice_incl in Hc.
    rewrite List.Forall_forall in HF. specialize (HF c Hc). lra.
Qed.

(** X22.  With every window parameter at least one candle long (and a
    V-recovery span that is not negative) [check_all_gates] returns a
    result on every input: no exception escapes.  Without that it can
    raise: with Gate 0 disabled, Gate 1 enabled, an exhaustion window of
    0 and no candles, [max] of an empty list raises [ValueError]. *)
Theorem gates_never_raise :
  (well_formed_windows p -> exists r, call = Py.Ok r)
  /\ (candles_5m = [] -> gate0_enabled p = false ->
      gate1_enabled p = true -> exhaustion_candles p = 0%Z ->
      call = Py.Raise Py.ValueError).
Proof.
  split.
  - apply GatesFacts.check_all_gates_returns.
  - intros -> E0 E1 Ex. unfold check_all_gates. cbn zeta.
    cbn [gate0 set_gate0]. unfold check_gate0 at 1. rewrite E0.
    cbn [negb passed disabled_result]. unfold check_gate1.
    rewrite E1, Ex. reflexivity.
Qed.

End Call.

Lemma gate_scores_in_range_witness :
  let r := returned (breakdown_run 0 100.1) in
  0 <= score (gate3 r) <= 100
  /\ (passed (gate2 r) = true <-> score (gate2 r) == 100).
Proof.
  cbn zeta.
  assert (E : breakdown_run 0 100.1
              = Py.Ok (returned (breakdown_run 0 100.1)))
    by (vm_compute; reflexivity).
  destruct (gate_scores_in_range _ _ _ _ _ _ _ _ _ _ _ _ _ _ _ E)
    as (_ & _ & _ & H3 & _ & H2).
  split; [exact H3 | exact H2].
Defined.

Lemma trade_plan_only_on_entry_witness :
  let waiting := returned (breakdown_run 0 100.1) in
  let entered :=
    returned (breakdown_run_with (params_with true true true true 0.1)
                100.15 0 0 0.01) in
  all_passed waiting = true
  /\ entry_price waiting = 0.0 /\ rr_ratio waiting = 0.0
  /\ entry_price entered = 100.15.
Proof.
  cbn zeta.
  assert (E1 : breakdown_run 0 100.1
               = Py.Ok (returned (breakdown_run 0 100.1)))
    by (vm_compute; reflexivity).
  assert (E2 : breakdown_run_with (params_with true true true true 0.1)
                 100.15 0 0 0.01
               = Py.Ok (returned
                          (breakdown_run_with
                             (params_with true true true true 0.1)
                             100.15 0 0 0.01)))
    by (vm_compute; reflexivity).
  destruct (trade_plan_only_on_entry _ _ _ _ _ _ _ _ _ _ _ _ _ _ _ E1)
    as (A1 & Z1 & _).
  destruct (trade_plan_only_on_entry _ _ _ _ _ _ _ _ _ _ _ _ _ _ _ E2)
    as (_ & _ & P2).
  split; [apply A1; vm_compute; reflexivity|].
  destruct Z1 as (Ze & _ & _ & _ & _ & Zr);
    [vm_compute; discriminate|].
  split; [exact Ze|]. split; [exact Zr|].
  destruct P2 as (_ & Pe & _); [vm_compute; reflexivity | exact Pe].
Defined.

Lemma entry_plan_ordered_witness :
  let entered :=
    returned (breakdown_run_with (params_with true true true true 0.1)
                100.15 0 0 0.01) in
  tp2_price entered < entry_price entered < sl_price entered
  /\ tp1_price entered < entry_price entered.
Proof.
  cbn zeta.
  assert (E : breakdown_run_with (params_with true true true true 0.1)
                100.15 0 0 0.01
              = Py.Ok (returned
                         (breakdown_run_with
                            (params_with true true true true 0.1)
                            100.15 0 0 0.01)))
    by (vm_compute; reflexivity).
  destruct (entry_plan_ordered _ _ _ _ _ _ _ _ _ _ _ _ _ _ _ E)
    as (H1 & H2 & _); try reflexivity.
  split; [exact H1 | exact H2].
Defined.

Lemma veto_branch_dead_witness :
  signal_text (returned (v_recovery_run default_params 100.5))
  <> TxtVRecovery.
Proof.
  assert (E : v_recovery_run default_params 100.5
              = Py.Ok (returned (v_recovery_run default_params 100.5)))
    by (vm_compute; reflexivity).
  apply (veto_branch_dead _ _ _ _ _ _ _ _ _ _ _ _ _ _ _ E).
  left. reflexivity.
Defined.

Lemma gates_never_raise_witness :
  (exists r, breakdown_run 0 100.1 = Py.Ok r)
  /\ check_all_gates (world_at 0) "XUSDT" [] 100 5 90 1 0.01 90 0 0 0 0
       (Some no_window_params)
     = Py.Raise Py.ValueError.
Proof.
  destruct (gates_never_raise (world_at 0) "XUSDT" breakdown_candles 100.1
              5 90 1 0.01 90 0 0 0 0 None) as (H1 & _).
  destruct (gates_never_raise (world_at 0) "XUSDT" [] 100
              5 90 1 0.01 90 0 0 0 0 (Some no_window_params)) as (_ & H2).
  split.
  - apply H1. cbv. repeat split; discriminate.
  - apply H2; reflexivity.
Defined.

(** ** Gate 2 on its window *)

(** The slice Gate 2 takes: the candles before the last two. *)
Lemma range_slice {A} (pre win : list A) (prev last : A) :
  win <> [] ->
  Py.slice (pre ++ win ++ [prev; last]) (Some (- (Py.len win + 2))%Z)
    (Some (-2)%Z) = win.
Proof.
  intros Hw. unfold Py.slice, Py.slice_bound, Py.len.
  rewrite !length_app. cbn [length].
  destruct (Z.ltb_spec (- (Z.of_nat (length win) + 2)) 0); [|lia].
  destruct (Z.ltb_spec (-2) 0); [|lia].
  replace (Z.to_nat (Z.max (- (Z.of_nat (length win) + 2)
                            + Z.of_nat (length pre + (length win + 2))) 0))
    with (length pre) by lia.
  replace (Z.to_nat (Z.max (-2 + Z.of_nat (length pre + (length win + 2))) 0
                     - Z.max (- (Z.of_nat (length win) + 2)
                              + Z.of_nat (length pre + (length win + 2))) 0))
    with (length win) by lia.
  rewrite skipn_app, skipn_all, Nat.sub_diag, skipn_O. cbn [app].
  rewrite firstn_app, firstn_all, Nat.sub_diag, firstn_O.
  apply app_nil_r.
Qed.

(** X23.  On a history that ends with a window of the adaptive length
    followed by two candles, an enabled Gate 2 returns; its range low is
    the smallest low and its range high the greatest high of the window;
    and it passes exactly when the candle before the last closed below
    the range low by the confirmation margin and the last candle closed
    below the range low with its high under 1.005 times the range low. *)
Theorem gate2_reads_range (pre win : list Candle) (prev last : Candle)
    (change_24h : Q) (p : GateParams) :
  gate2_enabled p = true ->
  win <> [] ->
  Py.len win = range_window change_24h p ->
  exists g range_low range_high,
    check_gate2 (pre ++ win ++ [prev; last]) change_24h p
    = Py.Ok (g, range_low, range_high)
    /\ Forall (fun c => range_low <= low c /\ high c <= range_high) win
    /\ (exists c, In c win /\ range_low = low c)
    /\ (exists c, In c win /\ range_high = high c)
    /\ (passed g = true
        <-> close prev < range_low * (1 - breakdown_confirm_pct p / 100)
            /\ close last < range_low
            /\ high last < range_low * 1.005).
Proof.
  intros En Hw Hlen. unfold check_gate2. rewrite En. cbn [negb].
  rewrite <- Hlen.
  destruct (Z.ltb_spec (Py.len (pre ++ win ++ [prev; last]))
              (Py.len win + 2)) as [Hl|_].
  { unfold Py.len in Hl. rewrite !length_app in Hl. cbn [length] in Hl.
    lia. }
  rewrite (range_slice pre win prev last Hw).
  destruct (PyFacts.max_list_ok (map high win)) as (rh & Eh);
    [destruct win; [congruence | discriminate]|].
  destruct (PyFacts.min_list_ok (map low win)) as (rl & El);
    [destruct win; [congruence | discriminate]|].
  rewrite Eh, El. cbn [mbind Py.result_bind].
  replace (pre ++ win ++ [prev; last])
    with ((pre ++ win) ++ prev :: [last])
    by (rewrite <- app_assoc; reflexivity).
  rewrite (HistoryFacts.index_back (pre ++ win) prev [last]
           : Py.index ((pre ++ win) ++ prev :: [last]) (-2) = _).
  replace ((pre ++ win) ++ prev :: [last])
    with (((pre ++ win) ++ [prev]) ++ [last])
    by (rewrite <- !app_assoc; reflexivity).
  rewrite PyFacts.index_last_app. cbn [mbind Py.result_bind].
  eexists _, rl, rh. split; [reflexivity|].
  apply NumFacts.max_list_spec in Eh as (Hin & Hmax).
  apply NumFacts.min_list_spec in El as (Hil & Hmin).
  apply in_map_iff in Hin as (ch & Ech & Hch).
  apply in_map_iff in Hil as (cl & Ecl & Hcl).
  rewrite List.Forall_map in Hmax, Hmin.
  split.
  { rewrite List.Forall_forall in *. intros c Hc. split; auto. }
  split; [eauto|]. split; [eauto|].
  cbn [passed]. rewrite !andb_true_iff, !PyFacts.ltb_lt. tauto.
Qed.

Lemma gate2_reads_range_witness :
  exists g range_low range_high,
    check_gate2 breakdown_candles 5 default_params
    = Py.Ok (g, range_low, range_high)
    /\ Forall (fun c => range_low <= low c /\ high c <= range_high)
         (repeat range_candle 8).
Proof.
  destruct (gate2_reads_range (repeat range_candle 2) (repeat range_candle 8)
              breakdown_candle retest_candle 5 default_params)
    as (g & rl & rh & E & H & _); [reflexivity | discriminate | reflexivity|].
  exists g, rl, rh. split; [exact E | exact H].
Defined.

End PipelineFacts.

(* ================================================================== *)
(** * The scheduler over time *)
(* ================================================================== *)

Module TimelineFacts.

Import Scheduler.
Local Open Scope Z_scope.

Lemma tick_level3_range s :
  countdowns_in_range s -> countdowns_in_range (tick_level3 s).
Proof.
  destruct (SchedulerFacts.tick_level3_spec s)
    as (A1 & _ & _ & A2 & _ & _ & A3 & _ & _ & A4 & _).
  cbn zeta in *. unfold countdowns_in_range. rewrite A1, A2, A3, A4.
  intros (H1 & H2 & H3 & H4).
  split; [exact H1|]. split; [exact H2|]. split; [|exact H4].
  destruct (negb _ && _); [|exact H3].
  destruct (Z.leb_spec (pump_countdown s - 1) 0); lia.
Qed.

Lemma tick_level2_range s :
  countdowns_in_range s -> countdowns_in_range (tick_level2 s).
Proof.
  destruct (SchedulerFacts.tick_level2_spec s)
    as (A1 & _ & _ & A2 & _ & A3 & _ & _ & A4 & _).
  cbn zeta in *. unfold countdowns_in_range. rewrite A1, A2, A3, A4.
  intros (H1 & H2 & H3 & H4).
  split; [exact H1|]. split; [|split; [exact H3 | exact H4]].
  destruct (negb _ && negb _ && _); [|exact H2].
  destruct (Z.leb_spec (price_countdown s - 1) 0); lia.
Qed.

Lemma tick_level1_range s :
  countdowns_in_range s -> countdowns_in_range (tick_level1 s).
Proof.
  destruct (SchedulerFacts.tick_level1_spec s)
    as (A1 & _ & _ & A2 & A3 & _ & _ & _ & A4 & _).
  cbn zeta in *. unfold countdowns_in_range. rewrite A1, A2, A3, A4.
  intros (H1 & H2 & H3 & H4).
  split; [|split; [|split; [|exact H4]]].
  - destruct (negb _); [|exact H1].
    destruct (Z.leb_spec (full_countdown s - 1) 0); lia.
  - destruct (fires_level1 s); [lia | exact H2].
  - destruct (fires_level1 s); [lia | exact H3].
Qed.

(** The countdowns after the candidates block. *)
Lemma tick_candidates_countdowns s :
  let s' := tick_candidates s in
  cand_countdown s' =
    (if negb (scan_in_progress s) && negb (cand_update_in_progress s)
        && rows_present s
     then if cand_countdown s - 1 <=? 0 then 5 else cand_countdown s - 1
     else cand_countdown s)
  /\ full_countdown s' = full_countdown s
  /\ price_countdown s' = price_countdown s
  /\ pump_countdown s' = pump_countdown s.
Proof.
  destruct s as [rows scan cand price pump pw pumpw cw fc pc pmc cc st].
  SchedulerFacts.unfold_blocks.
  destruct scan, cand, rows, cw as [[|]|]; cbn;
    destruct (cc - 1 <=? 0); cbn; repeat split; reflexivity.
Qed.

Lemma tick_candidates_range s :
  countdowns_in_range s -> countdowns_in_range (tick_candidates s).
Proof.
  destruct (tick_candidates_countdowns s) as (A1 & A2 & A3 & A4).
  cbn zeta in *. unfold countdowns_in_range. rewrite A1, A2, A3, A4.
  intros (H1 & H2 & H3 & H4).
  split; [exact H1|]. split; [exact H2|]. split; [exact H3|].
  destruct (negb _ && negb _ && _); [|exact H4].
  destruct (Z.leb_spec (cand_countdown s - 1) 0); lia.
Qed.

Lemma handle_range s e :
  countdowns_in_range s -> countdowns_in_range (handle s e).
Proof.
  intros H. destruct e; cbn [handle].
  - unfold tick_all_levels.
    apply tick_candidates_range, tick_level1_range, tick_level2_range,
      tick_level3_range, H.
  - unfold start_scan. destruct (scan_in_progress s); exact H.
  - destruct H as (_ & H). split; [cbn; lia | exact H].
  - exact H.
  - unfold on_price_update_finished. destruct updated_rows; exact H.
  - exact H.
  - exact H.
  - exact H.
  - destruct H as (H1 & H2 & H3 & _). unfold on_cand_finished.
    destruct updated_rows; (split; [exact H1|]; split; [exact H2|];
      split; [exact H3 | cbn; lia]).
  - exact H.
  - destruct level; exact H.
Qed.

(** X24.  Whatever the order of timer ticks, scan requests, worker
    signals and thread ends after start-up, every countdown stays within
    its period: the full recompute between 1 and 120, the price update
    between 1 and 30, the pump detector between 1 and 10 and the
    candidates update between 1 and 5.  No countdown is ever shown at 0
    or below. *)
Theorem countdowns_stay_in_range (events : list Event) :
  countdowns_in_range (run events init).
Proof.
  unfold run.
  assert (H : countdowns_in_range init) by (cbv; repeat split; discriminate).
  revert H. generalize init.
  induction events as [|e events IH]; intros s H; cbn [fold_left].
  - exact H.
  - apply IH, handle_range, H.
Qed.

(** ** The Level 1 period *)

Lemma starts_cons level l s :
  starts level (set_started (l :: started s) s)
  = ((if match l, level with
         | L1_FullScan, L1_FullScan
         | L2_PriceUpdate, L2_PriceUpdate
         | L3_PumpDetect, L3_PumpDetect
         | CandUpdate, CandUpdate => true
         | _, _ => false
         end then 1 else 0) + starts level s)%nat.
Proof. unfold starts. cbn. destruct l, level; reflexivity. Qed.

(** What one tick does to Level 1. *)
Lemma tick_level1_view s :
  let s' := tick_all_levels s in
  full_countdown s' =
    (if negb (scan_in_progress s)
     then if full_countdown s - 1 <=? 0 then 120 else full_countdown s - 1
     else full_countdown s)
  /\ scan_in_progress s' = scan_in_progress s || fires_level1 s
  /\ starts L1_FullScan s'
     = ((if fires_level1 s then 1 else 0) + starts L1_FullScan s)%nat
  /\ (fires_level1 s = true ->
      price_countdown s' = 30 /\ pump_countdown s' = 10).
Proof.
  cbn zeta. unfold tick_all_levels.
  destruct (SchedulerFacts.tick_level3_spec s)
    as (A1 & A2 & A0 & A3 & A4 & A5 & A6 & A7 & Ac1 & Ac2 & Ac3 & A8).
  cbn zeta in *. set (s3 := tick_level3 s) in *.
  destruct (SchedulerFacts.tick_level2_spec s3)
    as (B1 & B2 & B0 & B3 & B4 & B5 & B6 & Bc1 & Bc2 & Bc3 & B7).
  cbn zeta in *. set (s2 := tick_level2 s3) in *.
  destruct (SchedulerFacts.tick_level1_spec s2)
    as (C1 & C2 & C0 & C3 & C4 & C5 & C6 & Cc1 & Cc2 & Cc3 & C7).
  cbn zeta in *. set (s1 := tick_level1 s2) in *.
  destruct (SchedulerFacts.tick_candidates_spec s1)
    as (D0 & D1 & D2 & D3 & D4 & D5 & D6 & D7).
  cbn zeta in *.
  assert (F1 : fires_level1 s2 = fires_level1 s).
  { unfold fires_level1. rewrite B6, B5, A7, A6. reflexivity. }
  split; [rewrite D1, C1, B6, B5, A7, A6; reflexivity|].
  split; [rewrite D2, C2, F1, B6, A7; reflexivity|].
  split.
  - unfold starts. rewrite D0, C0, B0, A0, F1.
    rewrite !List.filter_app, !length_app.
    repeat match goal with
           | |- context [if ?b then [?x] else []] => destruct b
           end; reflexivity.
  - intros F. rewrite D3, D4, C3, C4, F1, F. split; reflexivity.
Qed.

(** X25.  Level 1 keeps its period.  From a state with no scan in
    progress and a full countdown of [c] seconds, [n < c] ticks start no
    full scan and leave the countdown at [c - n]; the tick number [c]
    starts exactly one full scan, marks it in progress, and puts the
    three level countdowns back to 120, 30 and 10.  So after a finished
    scan (countdown 120, flag cleared) the next full scan starts at the
    120th tick and not before. *)
Theorem level1_fires_on_time (n : nat) (s : MainWindow) :
  scan_in_progress s = false ->
  1 <= full_countdown s ->
  (Z.of_nat n < full_countdown s ->
   let s' := ticks n s in
   scan_in_progress s' = false
   /\ full_countdown s' = full_countdown s - Z.of_nat n
   /\ starts L1_FullScan s' = starts L1_FullScan s)
  /\ (Z.of_nat n = full_countdown s ->
      let s' := ticks n s in
      scan_in_progress s' = true
      /\ full_countdown s' = 120
      /\ price_countdown s' = 30
      /\ pump_countdown s' = 10
      /\ starts L1_FullScan s' = S (starts L1_FullScan s)).
Proof.
  intros Hscan Hc.
  assert (Hbefore : forall k : nat,
             Z.of_nat k < full_countdown s ->
             scan_in_progress (ticks k s) = false
             /\ full_countdown (ticks k s) = full_countdown s - Z.of_nat k
             /\ starts L1_FullScan (ticks k s) = starts L1_FullScan s).
  { induction k as [|k IH]; intros Hk.
    - cbn. repeat split; [exact Hscan | lia].
    - destruct IH as (I1 & I2 & I3); [lia|].
      cbn [ticks].
      destruct (tick_level1_view (ticks k s))
        as (V1 & V2 & V3 & _).
      cbn zeta in *.
      assert (F : fires_level1 (ticks k s) = false).
      { unfold fires_level1. rewrite I1, I2. cbn [negb andb].
        apply Z.leb_gt. lia. }
      rewrite V1, V2, V3, F, I1, I2, I3. cbn [negb orb].
      destruct (Z.leb_spec (full_countdown s - Z.of_nat k - 1) 0); [lia|].
      repeat split. lia. }
  split; [exact (Hbefore n)|].
  intros Hn. destruct n as [|k]; [cbn in Hn; lia|].
  destruct (Hbefore k) as (I1 & I2 & I3); [lia|].
  cbn zeta. cbn [ticks].
  destruct (tick_level1_view (ticks k s))
    as (V1 & V2 & V3 & V4).
  cbn zeta in *.
  assert (F : fires_level1 (ticks k s) = true).
  { unfold fires_level1. rewrite I1, I2. cbn [negb andb].
    apply Z.leb_le. lia. }
  destruct (V4 F) as (V5 & V6).
  rewrite V1, V2, V3, V5, V6, F, I1, I2, I3. cbn [negb orb].
  destruct (Z.leb_spec (full_countdown s - Z.of_nat k - 1) 0); [|lia].
  repeat split.
Qed.

Lemma level1_fires_on_time_witness :
  let s := on_finished true (start_scan init) in
  starts L1_FullScan (ticks 119 s) = starts L1_FullScan s
  /\ starts L1_FullScan (ticks 120 s) = S (starts L1_FullScan s)
  /\ scan_in_progress (ticks 120 s) = true.
Proof.
  cbn zeta.
  destruct (level1_fires_on_time 119 (on_finished true (start_scan init)))
    as (H1 & _); [reflexivity | cbn; lia|].
  destruct (level1_fires_on_time 120 (on_finished true (start_scan init)))
    as (_ & H2); [reflexivity | cbn; lia|].
  destruct H1 as (_ & _ & H1); [cbn; lia|].
  destruct H2 as (H2 & _ & _ & _ & H3); [reflexivity|].
  split; [exact H1|]. split; [exact H3 | exact H2].
Defined.

End TimelineFacts.

(* ================================================================== *)
(** * Statuses: the quick refresh, the enumerations, the reader *)
(* ================================================================== *)

Module StatusFacts.

Import Types.
Local Open Scope Q_scope.

Lemma priority_entry s : Bridge.priority_of s = 0%Z -> s = "ВХОД".
Proof.
  rewrite BridgeFacts.priority_table.
  destruct (String.eqb_spec s "ВХОД"); [auto|].
  repeat match goal with
         | |- context [String.eqb s ?k] => destruct (String.eqb s k)
         end; discriminate.
Qed.

Lemma priority_at_least_one s :
  s <> "ВХОД" -> (1 <= Bridge.priority_of s)%Z.
Proof.
  intros H. rewrite BridgeFacts.priority_table.
  destruct (String.eqb_spec s "ВХОД"); [contradiction|].
  repeat match goal with
         | |- context [String.eqb s ?k] => destruct (String.eqb s k)
         end; lia.
Qed.

Lemma priority_at_least_two s :
  s <> "ВХОД" -> s <> "Готовность" -> (2 <= Bridge.priority_of s)%Z.
Proof.
  intros H1 H2. rewrite BridgeFacts.priority_table.
  destruct (String.eqb_spec s "ВХОД"); [contradiction|].
  destruct (String.eqb_spec s "Готовность"); [contradiction|].
  repeat match goal with
         | |- context [String.eqb s ?k] => destruct (String.eqb s k)
         end; lia.
Qed.

Lemma priority_at_least_three s :
  s <> "ВХОД" -> s <> "Готовность" -> s <> "Интерес" ->
  (3 <= Bridge.priority_of s)%Z.
Proof.
  intros H1 H2 H3. rewrite BridgeFacts.priority_table.
  destruct (String.eqb_spec s "ВХОД"); [contradiction|].
  destruct (String.eqb_spec s "Готовность"); [contradiction|].
  destruct (String.eqb_spec s "Интерес"); [contradiction|].
  repeat match goal with
         | |- context [String.eqb s ?k] => destruct (String.eqb s k)
         end; lia.
Qed.

Lemma known_priorities :
  Bridge.priority_of "Готовность" = 1%Z
  /\ Bridge.priority_of "Интерес" = 2%Z
  /\ Bridge.priority_of "Наблюдение" = 3%Z.
Proof. repeat split; vm_compute; reflexivity. Qed.

(** The status the refresh decides on, from the old status and the three
    tests on position and change. *)
Lemma status_step (st : string) (c1 c2 c3 : bool) :
  let st' :=
    if c1 then
      if negb (String.eqb st "ВХОД") then "Готовность" else st
    else if c2 then
      if negb (String.eqb st "Готовность" || String.eqb st "ВХОД")
      then "Интерес" else st
    else if c3 then
      if negb (String.eqb st "Интерес" || String.eqb st "Готовность"
               || String.eqb st "ВХОД")
      then "Наблюдение" else st
    else st in
  (Bridge.priority_of st' <= Bridge.priority_of st)%Z
  /\ (st = "ВХОД" -> st' = "ВХОД")
  /\ (st' = st \/ st' = "Готовность" \/ st' = "Интерес"
      \/ st' = "Наблюдение").
Proof.
  destruct known_priorities as (P1 & P2 & P3). cbn zeta.
  destruct c1; [|destruct c2; [|destruct c3]].
  - destruct (String.eqb_spec st "ВХОД") as [->|N]; cbn [negb].
    + split; [lia|]. split; auto.
    + rewrite P1. split; [apply priority_at_least_one, N|].
      split; [contradiction | auto].
  - destruct (String.eqb_spec st "Готовность") as [->|N1]; cbn [negb orb].
    { split; [lia|]. split; [discriminate | auto]. }
    destruct (String.eqb_spec st "ВХОД") as [->|N2]; cbn [negb].
    { split; [lia|]. split; auto. }
    rewrite P2. split; [apply priority_at_least_two; assumption|].
    split; [contradiction | auto].
  - destruct (String.eqb_spec st "Интерес") as [->|N0]; cbn [negb orb].
    { split; [lia|]. split; [discriminate | auto]. }
    destruct (String.eqb_spec st "Готовность") as [->|N1]; cbn [negb orb].
    { split; [lia|]. split; [discriminate | auto]. }
    destruct (String.eqb_spec st "ВХОД") as [->|N2]; cbn [negb].
    { split; [lia|]. split; auto. }
    rewrite P3. split; [apply priority_at_least_three; assumption|].
    split; [contradiction | auto].
  - split; [lia|]. split; auto.
Qed.

(** What the three assignments of the refresh leave alone. *)
Lemma set_status_fields x r :
  status (set_status x r) = x
  /\ added_at (set_status x r) = added_at r
  /\ price_now (set_status x r) = price_now r
  /\ range_position (set_status x r) = range_position r
  /\ change_24h_pct (set_status x r) = change_24h_pct r
  /\ score (set_status x r) = score r.
Proof. destruct r. repeat split; reflexivity. Qed.

Lemma set_added_at_fields x r :
  status (set_added_at x r) = status r
  /\ added_at (set_added_at x r) = x
  /\ price_now (set_added_at x r) = price_now r
  /\ range_position (set_added_at x r) = range_position r
  /\ change_24h_pct (set_added_at x r) = change_24h_pct r
  /\ score (set_added_at x r) = score r.
Proof. destruct r. repeat split; reflexivity. Qed.

Lemma set_last_update_fields x r :
  status (set_last_update x r) = status r
  /\ added_at (set_last_update x r) = added_at r
  /\ last_update (set_last_update x r) = x
  /\ price_now (set_last_update x r) = price_now r
  /\ range_position (set_last_update x r) = range_position r
  /\ change_24h_pct (set_last_update x r) = change_24h_pct r
  /\ score (set_last_update x r) = score r.
Proof. destruct r. repeat split; reflexivity. Qed.

(** A conditional status assignment changes the status only. *)
Lemma assign_status_fields (b : bool) x r :
  let r' := if b then set_status x r else r in
  status r' = (if b then x else status r)
  /\ added_at r' = added_at r
  /\ price_now r' = price_now r
  /\ range_position r' = range_position r
  /\ change_24h_pct r' = change_24h_pct r
  /\ score r' = score r.
Proof.
  cbn zeta. destruct b; [apply set_status_fields | repeat split].
Qed.

(** The fields of a refreshed row. *)
Lemma refresh_fields (now_added now_updated : Q) (row : CoinRow) :
  let row' := ScannerWorker.refresh_status now_added now_updated row in
  let st := status row in
  status row' =
    (if Py.gtb (range_position row) 90 && Py.gtb (change_24h_pct row) 5 then
       if negb (String.eqb st "ВХОД") then "Готовность" else st
     else if Py.gtb (range_position row) 85 && Py.gtb (change_24h_pct row) 3
     then
       if negb (String.eqb st "Готовность" || String.eqb st "ВХОД")
       then "Интерес" else st
     else if Py.gtb (range_position row) 80 && Py.gtb (change_24h_pct row) 2
     then
       if negb (String.eqb st "Интерес" || String.eqb st "Готовность"
                || String.eqb st "ВХОД")
       then "Наблюдение" else st
     else st)
  /\ added_at row' =
       (if negb (String.eqb st (status row')) && Py.eqb (added_at row) 0
        then now_added else added_at row)
  /\ last_update row' = now_updated
  /\ price_now row' = price_now row
  /\ range_position row' = range_position row
  /\ change_24h_pct row' = change_24h_pct row
  /\ score row' = score row.
Proof.
  cbn zeta. unfold ScannerWorker.refresh_status, ScannerWorker.status_in.
  cbn [existsb]. rewrite !orb_false_r, !orb_assoc.
  set (row1 := if Py.gtb (range_position row) 90 && _ then _ else _).
  assert (H1 : status row1 =
               (if Py.gtb (range_position row) 90
                   && Py.gtb (change_24h_pct row) 5 then
                  if negb (String.eqb (status row) "ВХОД")
                  then "Готовность" else status row
                else if Py.gtb (range_position row) 85
                        && Py.gtb (change_24h_pct row) 3
                then
                  if negb (String.eqb (status row) "Готовность"
                           || String.eqb (status row) "ВХОД")
                  then "Интерес" else status row
                else if Py.gtb (range_position row) 80
                        && Py.gtb (change_24h_pct row) 2
                then
                  if negb (String.eqb (status row) "Интерес"
                           || String.eqb (status row) "Готовность"
                           || String.eqb (status row) "ВХОД")
                  then "Наблюдение" else status row
                else status row)
               /\ added_at row1 = added_at row
               /\ price_now row1 = price_now row
               /\ range_position row1 = range_position row
               /\ change_24h_pct row1 = change_24h_pct row
               /\ score row1 = score row).
  { subst row1.
    destruct (Py.gtb (range_position row) 90 && _);
      [apply assign_status_fields|].
    destruct (Py.gtb (range_position row) 85 && _);
      [apply assign_status_fields|].
    destruct (Py.gtb (range_position row) 80 && _);
      [apply assign_status_fields|].
    repeat split. }
  clearbody row1. destruct H1 as (S1 & A1 & P1 & R1 & C1 & Sc1).
  set (row2 := if negb _ && _ then set_added_at now_added row1 else row1).
  assert (H2 : status row2 = status row1
               /\ added_at row2 =
                    (if negb (String.eqb (status row) (status row1))
                        && Py.eqb (added_at row1) 0
                     then now_added else added_at row1)
               /\ price_now row2 = price_now row1
               /\ range_position row2 = range_position row1
               /\ change_24h_pct row2 = change_24h_pct row1
               /\ score row2 = score row1).
  { subst row2. destruct (negb _ && _); [apply set_added_at_fields|].
    repeat split. }
  clearbody row2. destruct H2 as (S2 & A2 & P2 & R2 & C2 & Sc2).
  destruct (set_last_update_fields now_updated row2)
    as (S3 & A3 & L3 & P3 & R3 & C3 & Sc3).
  rewrite S3, A3, L3, P3, R3, C3, Sc3, S2, A2, P2, R2, C2, Sc2, A1, P1, R1,
    C1, Sc1.
  split; [exact S1|]. repeat split.
Qed.

(** X26.  The quick status refresh of the price update never lowers a
    row in the bridge ranking: the new status has a priority at least as
    good as the old one, an ENTRY row stays ENTRY, and a changed status
    is one of READINESS, INTEREST and OBSERVATION.  [last_update] takes
    the clock reading; [added_at] is set only when the status changed
    and it was 0; the price fields and the score are not touched. *)
Theorem refresh_status_never_lowers (now_added now_updated : Q)
    (row : CoinRow) :
  let row' := ScannerWorker.refresh_status now_added now_updated row in
  (Bridge.priority_of (status row') <= Bridge.priority_of (status row))%Z
  /\ (status row = "ВХОД" -> status row' = "ВХОД")
  /\ (status row' = status row
      \/ status row' = "Готовность" \/ status row' = "Интерес"
      \/ status row' = "Наблюдение")
  /\ last_update row' = now_updated
  /\ (added_at row' = added_at row
      \/ (status row' <> status row /\ added_at row == 0
          /\ added_at row' = now_added))
  /\ price_now row' = price_now row
  /\ range_position row' = range_position row
  /\ change_24h_pct row' = change_24h_pct row
  /\ score row' = score row.
Proof.
  cbn zeta.
  destruct (refresh_fields now_added now_updated row)
    as (Es & Ea & El & Ep & Er & Ec & Esc).
  cbn zeta in *.
  pose proof (status_step (status row)
                (Py.gtb (range_position row) 90
                 && Py.gtb (change_24h_pct row) 5)
                (Py.gtb (range_position row) 85
                 && Py.gtb (change_24h_pct row) 3)
                (Py.gtb (range_position row) 80
                 && Py.gtb (change_24h_pct row) 2)) as St.
  cbn zeta in St. rewrite <- Es in St. destruct St as (S1 & S2 & S3).
  split; [exact S1|]. split; [exact S2|]. split; [exact S3|].
  split; [exact El|]. split; [|auto].
  rewrite Ea.
  destruct (String.eqb_spec (status row)
              (status (ScannerWorker.refresh_status now_added now_updated
                         row))) as [E|N]; cbn [negb andb]; [auto|].
  destruct (Py.eqb (added_at row) 0) eqn:E0; [|auto].
  right. apply PyFacts.eqb_eq in E0. repeat split; [congruence | exact E0].
Qed.

Lemma refresh_status_never_lowers_witness :
  status (ScannerWorker.refresh_status 5 6
            (Fixtures.row_of "XUSDT" "ВХОД" 50)) = "ВХОД".
Proof.
  destruct (refresh_status_never_lowers 5 6
              (Fixtures.row_of "XUSDT" "ВХОД" 50)) as (_ & H & _).
  apply H. reflexivity.
Defined.

(** ** The enumerations *)

(** X27.  [Status.from_string] gives back every status from its text,
    and OBSERVATION for a text that is no status; [WatchType.from_string]
    does the same with NONE as the fallback.  The four status texts are
    the ones the bridge ranks, in the order ENTRY, READINESS, INTEREST,
    OBSERVATION, all before a row without status. *)
Theorem status_round_trip :
  (forall s, Status.from_string (Status.value s) = s)
  /\ (forall x, (forall s, Status.value s <> x) ->
        Status.from_string x = Status.OBSERVATION)
  /\ (forall w, WatchType.from_string (WatchType.value w) = w)
  /\ (forall x, (forall w, WatchType.value w <> x) ->
        WatchType.from_string x = WatchType.NONE)
  /\ (Bridge.priority_of (Status.value Status.ENTRY)
      < Bridge.priority_of (Status.value Status.READINESS)
      < Bridge.priority_of (Status.value Status.INTEREST))%Z
  /\ (Bridge.priority_of (Status.value Status.INTEREST)
      < Bridge.priority_of (Status.value Status.OBSERVATION)
      < Bridge.priority_of EmptyString)%Z.
Proof.
  split; [intros []; vm_compute; reflexivity|].
  split.
  { intros x H. unfold Status.from_string, Status.members. cbn [find].
    repeat match goal with
           | |- context [String.eqb (Status.value ?s) x] =>
               destruct (String.eqb_spec (Status.value s) x) as [E|_];
               [exfalso; exact (H s E)|]
           end.
    reflexivity. }
  split; [intros []; vm_compute; reflexivity|].
  split.
  { intros x H. unfold WatchType.from_string, WatchType.members.
    cbn [find].
    repeat match goal with
           | |- context [String.eqb (WatchType.value ?s) x] =>
               destruct (String.eqb_spec (WatchType.value s) x) as [E|_];
               [exfalso; exact (H s E)|]
           end.
    reflexivity. }
  split; vm_compute; split; reflexivity.
Qed.

Lemma status_round_trip_witness :
  Status.from_string "Покупка" = Status.OBSERVATION
  /\ WatchType.from_string "Флэт" = WatchType.NONE.
Proof.
  destruct status_round_trip as (_ & H1 & _ & H2 & _).
  split.
  - apply H1. intros []; discriminate.
  - apply H2. intros []; discriminate.
Defined.

End StatusFacts.

(* ================================================================== *)
(** * The bridge reader *)
(* ================================================================== *)

Module ReaderFacts.

Import Types Bridge.
Local Open Scope Q_scope.

(** X28.  The published list never holds more than [top_n] items for a
    [top_n] that is not negative, and every item is the dictionary of a
    valid row of the store.  When [top_n] covers all valid rows the list
    is a rearrangement of all of them.  A negative [top_n] does not
    publish nothing: it drops that many items from the end of the
    ranking. *)
Theorem published_items_valid (rows : list (string * CoinRow)) (top_n : Z) :
  let items := ranked_items rows top_n in
  ((0 <= top_n)%Z -> (Py.len items <= top_n)%Z)
  /\ (forall x, In x items ->
        exists kv, In kv rows /\ valid (snd kv) = true
                   /\ x = row_to_dict (snd kv))
  /\ ((Py.len (collect_items rows) <= top_n)%Z ->
      Permutation items (collect_items rows))
  /\ ((top_n < 0)%Z ->
      Py.len items = Z.max 0 (Py.len (collect_items rows) + top_n)).
Proof.
  cbn zeta. unfold ranked_items.
  set (ranking := Py.sort key_lt (collect_items rows)).
  assert (Hp : Permutation ranking (collect_items rows))
    by apply SortFacts.sort_perm.
  assert (Hl : Py.len ranking = Py.len (collect_items rows)).
  { unfold Py.len. f_equal. apply Permutation_length, Hp. }
  rewrite SortFacts.slice_to_prefix, Hl. unfold Py.slice_bound, Py.len.
  rewrite length_firstn.
  split; [|split; [|split]].
  - intros H. destruct (Z.ltb_spec top_n 0); lia.
  - intros x Hx. apply NumFacts.in_firstn in Hx.
    apply (Permutation_in _ Hp) in Hx. unfold collect_items in Hx.
    apply in_map_iff in Hx as (kv & <- & Hkv).
    apply filter_In in Hkv as [Hin Hv]. eauto.
  - intros H. destruct (Z.ltb_spec top_n 0) as [Hn|Hn].
    + assert (E : collect_items rows = []).
      { destruct (collect_items rows); [reflexivity|].
        unfold Py.len in H. cbn [length] in H. lia. }
      rewrite E in *. symmetry in Hp. apply Permutation_nil in Hp.
      rewrite Hp.
      destruct (Z.to_nat _); reflexivity.
    + rewrite firstn_all2; [exact Hp|].
      unfold Py.len in Hl, H. lia.
  - intros H. destruct (Z.ltb_spec top_n 0); [|lia].
    unfold Py.len in Hl. lia.
Qed.

Lemma published_items_valid_witness :
  (Py.len (ranked_items Fixtures.mixed_rows 3) <= 3)%Z
  /\ Py.len (ranked_items Fixtures.mixed_rows (-1)) = 5%Z.
Proof.
  destruct (published_items_valid Fixtures.mixed_rows 3) as (H1 & _).
  destruct (published_items_valid Fixtures.mixed_rows (-1))
    as (_ & _ & _ & H2).
  split; [apply H1; lia | apply H2; lia].
Defined.

Section Exchange.

Context {FileData : Type}.
Variable json_dump : JValue -> FileData.
Variable json_load : FileData -> option JValue.
Hypothesis json_round_trip : forall v, json_load (json_dump v) = Some v.

(** The bridge file after a write that succeeded. *)
Lemma written_file bridge_dir rows top_n strategy_name (sys : Sys) :
  io_ok sys = true ->
  let sys' := fst (write json_dump bridge_dir rows top_n strategy_name sys) in
  io_ok sys' = true
  /\ files sys' !! path_join bridge_dir BRIDGE_FILENAME
     = Some (mkFile
               (json_dump (payload (Py.int (time_time sys)) strategy_name
                             (ranked_items rows top_n)))
               (time_ns sys)).
Proof.
  intros Hio. cbn zeta. unfold write, atomic_write. rewrite Hio.
  cbn [negb]. rewrite lookup_insert_eq. cbn [fst set_files io_ok files].
  split; [exact Hio|]. rewrite lookup_insert_eq. reflexivity.
Qed.

(** X29.  The reader's update test follows the file's modification
    time.  After a write that succeeded, a reader that has not yet seen
    a file this new is told there is an update; once it has read, it is
    told there is none; and after a later write it is told so again
    exactly when the clock has advanced in between: a second write within
    the same nanosecond reading is not noticed. *)
Theorem reader_sees_each_update
    (bridge_dir : string) (rows rows2 : list (string * CoinRow))
    (top_n : Z) (strategy_name : string) (sys sys2 : Sys) (rd : Reader) :
  io_ok sys = true ->
  io_ok sys2 = true ->
  let sys' := fst (write json_dump bridge_dir rows top_n strategy_name sys) in
  let rd' := snd (read json_load bridge_dir rd sys') in
  let sys2' :=
    fst (write json_dump bridge_dir rows2 top_n strategy_name sys2) in
  has_update bridge_dir rd sys' = (last_mtime_ns rd <? time_ns sys)%Z
  /\ last_mtime_ns rd' = time_ns sys
  /\ has_update bridge_dir rd' sys' = false
  /\ has_update bridge_dir rd' sys2' = (time_ns sys <? time_ns sys2)%Z.
Proof using Type.
  intros Hio Hio2. cbn zeta.
  destruct (written_file bridge_dir rows top_n strategy_name sys Hio)
    as (Ho & Hf).
  destruct (written_file bridge_dir rows2 top_n strategy_name sys2 Hio2)
    as (Ho2 & Hf2).
  cbn zeta in *. unfold has_update, read.
  rewrite Ho, Ho2, Hf, Hf2. cbn [negb snd last_mtime_ns st_mtime_ns].
  rewrite Z.ltb_irrefl. repeat split.
Qed.

Lemma select_candidates_dicts statuses (l : list Dict) :
  select_candidates statuses (map JDict l)
  = Some (map JDict (List.filter (has_status statuses) l)).
Proof.
  induction l as [|x l IH]; [reflexivity|].
  cbn [map select_candidates List.filter]. rewrite IH.
  destruct (has_status statuses x); reflexivity.
Qed.

Lemma StronglySorted_filter {A} (R : A -> A -> Prop) (f : A -> bool) l :
  StronglySorted R l -> StronglySorted R (List.filter f l).
Proof.
  induction 1 as [|x l Hs IH Hx]; cbn [List.filter]; [constructor|].
  destruct (f x); [|exact IH]. constructor; [exact IH|].
  rewrite List.Forall_forall in *. intros y Hy.
  apply filter_In in Hy as [Hy _]. auto.
Qed.

(** X30.  After a write that succeeded, [get_items] answers the
    published list and [get_candidates] the items of it whose status is
    one of the wanted ones, in the order of the ranking: best status
    first, higher score first within a status.  Without a bridge file
    both answer an empty list. *)
Theorem candidates_after_write
    (bridge_dir : string) (rows : list (string * CoinRow)) (top_n : Z)
    (strategy_name : string) (statuses : list string) (sys : Sys)
    (rd : Reader) :
  (io_ok sys = true ->
   let sys' :=
     fst (write json_dump bridge_dir rows top_n strategy_name sys) in
   let items := ranked_items rows top_n in
   let candidates := List.filter (has_status statuses) items in
   fst (get_items json_load bridge_dir rd sys') = Some (JList (map JDict items))
   /\ fst (get_candidates json_load bridge_dir statuses rd sys')
      = Some (map JDict candidates)
   /\ StronglySorted ranks_not_after candidates
   /\ Forall (fun x => exists s, dict_get "status" x = Some (JStr s)
                                 /\ In s statuses) candidates)
  /\ (files sys !! path_join bridge_dir BRIDGE_FILENAME = None ->
      fst (get_items json_load bridge_dir rd sys) = Some (JList [])
      /\ fst (get_candidates json_load bridge_dir statuses rd sys)
         = Some []).
Proof using json_round_trip.
  split.
  - intros Hio. cbn zeta.
    destruct (written_file bridge_dir rows top_n strategy_name sys Hio)
      as (Ho & Hf).
    cbn zeta in *.
    assert (Hi : get_items json_load bridge_dir rd
                   (fst (write json_dump bridge_dir rows top_n
                           strategy_name sys))
                 = (Some (JList (map JDict (ranked_items rows top_n))),
                    mkReader (time_ns sys))).
    { unfold get_items, read. rewrite Ho, Hf. cbn [negb file_data].
      rewrite json_round_trip. reflexivity. }
    split; [rewrite Hi; reflexivity|]. split.
    { unfold get_candidates. rewrite Hi. cbn [fst].
      apply select_candidates_dicts. }
    split.
    { apply StronglySorted_filter. unfold ranked_items.
      rewrite SortFacts.slice_to_prefix.
      apply SortFacts.StronglySorted_firstn, BridgeFacts.sorted_by_rank,
        SortFacts.sort_sorted.
      - exact BridgeFacts.key_lt_asymmetric.
      - exact BridgeFacts.key_lt_negatively_transitive. }
    apply List.Forall_forall. intros x Hx.
    apply filter_In in Hx as [_ Hx]. unfold has_status in Hx.
    destruct (dict_get "status" x) as [[| |s| | |]|]; try discriminate.
    exists s. split; [reflexivity|].
    apply existsb_exists in Hx as (s' & Hin & E).
    apply String.eqb_eq in E. subst. exact Hin.
  - intros Hn. unfold get_candidates, get_items, read. rewrite Hn.
    destruct (io_ok sys); split; reflexivity.
Qed.

End Exchange.

Lemma reader_sees_each_update_witness :
  let sys' := fst (write id "bridge" Fixtures.mixed_rows 30
                     "ShortExhaustion" (Fixtures.sys_at 1700000000)) in
  let rd' := snd (read Some "bridge" (mkReader (-1)) sys') in
  has_update "bridge" (mkReader (-1)) sys' = true
  /\ has_update "bridge" rd' sys' = false.
Proof.
  destruct (reader_sees_each_update id Some "bridge" Fixtures.mixed_rows
              Fixtures.mixed_rows 30 "ShortExhaustion"
              (Fixtures.sys_at 1700000000) (Fixtures.sys_at 1700000000)
              (mkReader (-1)) eq_refl eq_refl) as (H1 & _ & H2 & _).
  split; [exact H1 | exact H2].
Defined.

Lemma candidates_after_write_witness :
  let sys' := fst (write id "bridge" Fixtures.mixed_rows 30
                     "ShortExhaustion" (Fixtures.sys_at 1700000000)) in
  fst (get_candidates Some "bridge" candidate_statuses (mkReader 0) sys')
  = Some (map JDict
            (List.filter (has_status candidate_statuses)
               (ranked_items Fixtures.mixed_rows 30)))
  /\ fst (get_candidates Some "bridge" candidate_statuses (mkReader 0)
            (Fixtures.sys_at 0)) = Some [].
Proof.
  destruct (candidates_after_write id Some (fun v => eq_refl) "bridge"
              Fixtures.mixed_rows 30 "ShortExhaustion" candidate_statuses
              (Fixtures.sys_at 1700000000) (mkReader 0)) as (H1 & _).
  destruct (candidates_after_write id Some (fun v => eq_refl) "bridge"
              Fixtures.mixed_rows 30 "ShortExhaustion" candidate_statuses
              (Fixtures.sys_at 0) (mkReader 0)) as (_ & H2).
  destruct (H1 eq_refl) as (_ & H & _).
  split; [exact H|]. apply H2. reflexivity.
Defined.

End ReaderFacts.

